(** * yt-download-bot: the download / compress / deliver pipeline

    A shallow embedding of [src/main.py] and [src/config.py].

    - The two handlers ([handle_url], [handle_quality_selection]) and the
      helpers they call are written in a small state-and-exception monad
      over a [world] holding the module-level session dictionary
      [user_video_info], the download folder and a trace of the calls made
      to the outside (chat transport, yt-dlp, ffprobe, ffmpeg).
    - The external collaborators answer through an [env] record. A text
      sent to the chat is recorded in the trace. A text made of fixed
      words, numbers and the selector of one of the bot's own buttons is
      delivered; a text that holds a video title or a file path is parsed
      by Telegram as Markdown and may be refused; an upload may fail.
    - A Python [str] is the sequence of the bytes of its UTF-8 encoding.
    - The probed duration is a binary64 [float] ([pyfloat]), and the
      bitrate is computed with the operations of [SpecFloat]. File sizes
      in megabytes and the percentage of the progress hook are kept as
      exact rationals. *)

From Stdlib Require Import ZArith QArith Qround Qpower Lqa String Ascii List
  Lia SpecFloat.
From stdpp Require Import base option gmap strings list sorting pretty.

Open Scope string_scope.
Open Scope list_scope.
Open Scope Z_scope.

(** ** config.py *)

Module Config.
Definition TELEGRAM_FILE_LIMIT_MB : Z := 50.
Definition TARGET_COMPRESSED_SIZE_MB : Z := 45.
Definition DOWNLOAD_TIMEOUT : Z := 600.
Definition FFMPEG_PATH : string := "ffmpeg".
End Config.

(** ** Python values and exceptions *)

Inductive exn : Type :=
  | KeyError
  | IndexError
  | FileNotFoundError
  | ValueError
  | TypeError
  | OverflowError
  | ZeroDivisionError
  | TimeoutExpired
  | BadRequest
  | OtherError.

Inductive result (A : Type) : Type :=
  | Ok (a : A)
  | Raise (e : exn).
Arguments Ok {A} a.
Arguments Raise {A} e.

(** *** Floats

    A [float] is a binary64 value: 53 bits of mantissa, exponents up to
    1024. [S754_finite s m e] stands for [(-1)^s * m * 2^e]. *)
Definition prec : Z := 53.
Definition emax : Z := 1024.

Definition pyfloat : Type := spec_float.

(** The number a finite float stands for. *)
Definition float_value (x : pyfloat) : Q :=
  match x with
  | S754_finite s m e => inject_Z (cond_Zopp s (Z.pos m)) * Qpower 2 e
  | _ => 0
  end.

(** [bool(x)] of a float: only the two zeros are falsy. *)
Definition float_truthy (x : pyfloat) : bool :=
  match x with
  | S754_zero _ => false
  | _ => true
  end.

(** The binary64 value nearest to an int. *)
Definition float_of_Z (n : Z) : pyfloat := binary_normalize prec emax n 0 false.

(** [float(n)]: an int beyond the range of the floats raises. *)
Definition float_of_int (n : Z) : result pyfloat :=
  match float_of_Z n with
  | S754_infinity _ => Raise OverflowError
  | x => Ok x
  end.

(** [x / y] on floats: the quotient rounded to the nearest float, an
    infinity when it is out of range. *)
Definition float_truediv (x y : pyfloat) : result pyfloat :=
  match y with
  | S754_zero _ => Raise ZeroDivisionError
  | _ => Ok (SFdiv prec emax x y)
  end.

(** [n / x] with [n] an int and [x] a float: the int is converted first. *)
Definition int_truediv_float (n : Z) (x : pyfloat) : result pyfloat :=
  match float_of_int n with
  | Ok f => float_truediv f x
  | Raise e => Raise e
  end.

(** [int(x)] truncates toward zero. *)
Definition py_int (x : pyfloat) : result Z :=
  match x with
  | S754_zero _ => Ok 0
  | S754_finite s m e => Ok (cond_Zopp s (Z.shiftl (Z.pos m) e))
  | S754_infinity _ => Raise OverflowError
  | S754_nan => Raise ValueError
  end.

(** [a / b] with both ints, as the exact quotient. *)
Definition int_truediv (a b : Z) : result Q :=
  if b =? 0 then Raise ZeroDivisionError else Ok (inject_Z a / inject_Z b)%Q.

(** [a > b] on exact values. *)
Definition Qgtb (a b : Q) : bool := negb (Qle_bool a b).

(** Truthiness of an optional int ([None] and [0] are falsy) and the value
    of [a or b or 0]. *)
Definition int_truthy (o : option Z) : bool :=
  match o with
  | Some z => negb (z =? 0)
  | None => false
  end.

Definition or_int (a : option Z) (b : option Z) : option Z :=
  if int_truthy a then a else b.

(** ** Python string helpers *)

(** [s.rsplit('.', 1)[0]]: the text before the last dot, or all of [s]. *)
Fixpoint before_last_dot (s : string) : option string :=
  match s with
  | EmptyString => None
  | String c rest =>
      match before_last_dot rest with
      | Some p => Some (String c p)
      | None => if Ascii.eqb c "." then Some EmptyString else None
      end
  end.

Definition rsplit_dot_0 (s : string) : string :=
  match before_last_dot s with
  | Some p => p
  | None => s
  end.

(** [s.split(sep)] for a one-character separator. *)
Fixpoint split (sep : ascii) (s : string) : list string :=
  match s with
  | EmptyString => [EmptyString]
  | String c rest =>
      if Ascii.eqb c sep then EmptyString :: split sep rest
      else match split sep rest with
           | h :: t => String c h :: t
           | [] => [String c EmptyString]
           end
  end.

(** [l[i]] *)
Definition py_index {A} (l : list A) (i : nat) : result A :=
  match l !! i with
  | Some x => Ok x
  | None => Raise IndexError
  end.

(** [needle in s] *)
Fixpoint contains (needle s : string) : bool :=
  if String.prefix needle s then true
  else match s with
       | EmptyString => false
       | String _ rest => contains needle rest
       end.

(** [s.strip()]: the characters [str.isspace] accepts are removed at both
    ends. They are U+0009 to U+000D, U+001C to U+0020, U+0085, U+00A0,
    U+1680, U+2000 to U+200A, U+2028, U+2029, U+202F, U+205F and U+3000;
    the last nine groups take two or three bytes in UTF-8. *)
Definition is_space (c : ascii) : bool :=
  let n := nat_of_ascii c in
  ((9 <=? n) && (n <=? 13) || (28 <=? n) && (n <=? 32))%nat.

(** The two-byte white space characters, by their bytes in order. *)
Definition is_space2 (a b : ascii) : bool :=
  let a := nat_of_ascii a in
  let b := nat_of_ascii b in
  ((a =? 194) && ((b =? 133) || (b =? 160)))%nat.

(** The three-byte white space characters. *)
Definition is_space3 (a b c : ascii) : bool :=
  let a := nat_of_ascii a in
  let b := nat_of_ascii b in
  let c := nat_of_ascii c in
  ((a =? 225) && (b =? 154) && (c =? 128)
   || (a =? 226) && (b =? 128)
      && ((128 <=? c) && (c <=? 138) || (c =? 168) || (c =? 169)
          || (c =? 175))
   || (a =? 226) && (b =? 129) && (c =? 159)
   || (a =? 227) && (b =? 128) && (c =? 128))%nat.

(** White space is removed from the front; with [backwards] the string is
    read from its end, so the bytes of a character come last first. *)
Fixpoint lstrip (backwards : bool) (s : string) : string :=
  match s with
  | EmptyString => EmptyString
  | String a r1 =>
      if is_space a then lstrip backwards r1
      else
        match r1 with
        | EmptyString => s
        | String b r2 =>
            if (if backwards then is_space2 b a else is_space2 a b)
            then lstrip backwards r2
            else
              match r2 with
              | EmptyString => s
              | String c r3 =>
                  if (if backwards then is_space3 c b a
                      else is_space3 a b c)
                  then lstrip backwards r3
                  else s
              end
        end
  end.

Definition strip (s : string) : string :=
  String.rev (lstrip true (String.rev (lstrip false s))).

(** ** Data model *)

(** One entry of yt-dlp's [formats] list; a key that is missing (or holds
    [None]) reads as [None] through [fmt.get]. The extension is a string
    when yt-dlp gives one. *)
Record format : Type := {
  vcodec : option string;
  acodec : option string;
  height : option Z;
  format_id : option string;
  filesize : option Z;
  filesize_approx : option Z;
  ext : option string
}.

(** What a dictionary has under a key: nothing, [None], or a value. *)
Inductive entry (A : Type) : Type :=
  | Missing
  | HoldsNone
  | Holds (a : A).
Arguments Missing {A}.
Arguments HoldsNone {A}.
Arguments Holds {A} a.

(** [d.get(key, fallback)] *)
Definition get_or {A} (e : entry A) (fallback : A) : option A :=
  match e with
  | Missing => Some fallback
  | HoldsNone => None
  | Holds a => Some a
  end.

(** A duration as yt-dlp gives it: an int, or a float for some sites. *)
Inductive number : Type :=
  | Int (n : Z)
  | Float (x : pyfloat).

(** The dictionary returned by [ydl.extract_info]. The title and the
    duration can be missing or hold [None]; [info_formats] is [None] for a
    missing key and else the list under the key (yt-dlp puts a list
    there). *)
Record video_info : Type := {
  info_title : entry string;
  info_duration : entry number;
  info_formats : option (list format)
}.

(** A value of [user_video_info]; the title is [None] when the
    dictionary of yt-dlp held [None]. *)
Record session : Type := {
  s_url : string;
  s_title : option string;
  s_formats : list format
}.

(** A value of the local [video_formats] dictionary of [handle_url]. *)
Record variant : Type := {
  v_format_id : option string;
  v_filesize : Z;
  v_ext : string
}.

(** A row of the inline keyboard. *)
Inductive button : Type :=
  | QualityButton (will_be_compressed : bool) (h : Z) (size : Z)
  | AudioButton.

Definition callback_data (b : button) : string :=
  match b with
  | QualityButton _ h _ => "quality_" +:+ pretty h
  | AudioButton => "quality_audio"
  end.

(** The texts shown to the requester, by the place that sends them. *)
Inductive message : Type :=
  | MsgInvalidLink
  | MsgProcessing
  | MsgFetchError
  | MsgNoOptions
  | MsgVideoReady (title : string) (duration : option Z) (qualities : nat)
      (keyboard : list button)
  | MsgSessionExpired
  | MsgDownloading (quality : string)
  | MsgDownloadFailed
  | MsgCompressing (original_mb : Q) (target_mb : Z)
  | MsgStillTooLarge (compressed_mb : Q) (location : string)
  | MsgCompressionFailed (size_mb : Q) (location : string)
  | MsgUploading (size_mb : Q)
  | MsgSuccess (size_mb : Q) (quality : string)
  | MsgError (e : exn).

(** The ffmpeg command line of [compress_video], by its varying parts. *)
Record ffmpeg_cmd : Type := {
  cmd_input : string;
  cmd_video_bitrate : Z;
  cmd_maxrate : Z;
  cmd_bufsize : Z;
  cmd_audio_bitrate : Z;
  cmd_output : string
}.

(** What [subprocess.run] does with the encoder. *)
Inductive run_outcome : Type :=
  | Exited (returncode : Z)
  | TimedOut
  | Failed.

(** Calls that leave the process, in the order they are made. *)
Inductive event : Type :=
  | Render (chat_id : Z) (m : message)
  | ExtractInfo (url : string)
  | Download (url quality : string) (chat_id : Z)
  | Probe (path : string)
  | Encode (cmd : ffmpeg_cmd) (timeout : Z)
  | SendAudio (chat_id : Z) (path : string)
  | SendVideo (chat_id : Z) (path : string).

(** The process state: the session dictionary, the files of the download
    folder with their sizes in bytes, and the calls made so far. *)
Record world : Type := {
  user_video_info : gmap Z session;
  files : gmap string Z;
  trace : list event
}.

(** The collaborators. [extract_info] gives the dictionary of yt-dlp, or
    [None] when [get_video_info] gives a falsy answer ([None] after an
    exception, or an empty dictionary); [ydl_download] gives the folder
    after the download and [ydl.prepare_filename(info)], or [None] when
    yt-dlp raised; [ffprobe] gives the parsed duration, or [None] when the
    probe or the parse raised; [ffmpeg] gives the outcome of the run and
    the size of the output file it wrote, if it wrote one;
    [telegram_parses] tells whether Telegram can parse the Markdown of a
    text that holds a title or a path; [telegram_send] tells whether the
    upload went through. *)
Record env : Type := {
  clean_youtube_url : string -> string;
  extract_info : string -> option video_info;
  telegram_parses : message -> bool;
  ydl_download : string -> string -> Z -> gmap string Z ->
                 gmap string Z * option string;
  ffprobe : string -> gmap string Z -> option pyfloat;
  ffmpeg : ffmpeg_cmd -> gmap string Z -> run_outcome * option Z;
  telegram_send : Z -> string -> gmap string Z -> bool
}.

(** ** The monad of the handlers: state, then exception *)

Definition M (A : Type) : Type := world -> world * result A.

#[global] Instance M_ret : MRet M := fun A a w => (w, Ok a).

#[global] Instance M_bind : MBind M := fun A B f m w =>
  match m w with
  | (w', Ok a) => f a w'
  | (w', Raise e) => (w', Raise e)
  end.

Definition raise {A} (e : exn) : M A := fun w => (w, Raise e).

Definition lift {A} (r : result A) : M A := fun w => (w, r).

(** [try: body except Exception as e: handler(e)] *)
Definition try_except {A} (body : M A) (handler : exn -> M A) : M A :=
  fun w =>
    match body w with
    | (w', Raise e) => handler e w'
    | r => r
    end.

Definition gets {A} (f : world -> A) : M A := fun w => (w, Ok (f w)).

Definition modify (f : world -> world) : M unit := fun w => (f w, Ok tt).

Definition set_sessions (m : gmap Z session) (w : world) : world :=
  {| user_video_info := m; files := files w; trace := trace w |}.

Definition set_files (fs : gmap string Z) (w : world) : world :=
  {| user_video_info := user_video_info w; files := fs; trace := trace w |}.

Definition log_event (e : event) (w : world) : world :=
  {| user_video_info := user_video_info w; files := files w;
     trace := trace w ++ [e] |}.

Definition emit (e : event) : M unit := modify (log_event e).

(** *** The chat transport

    [query.answer()] only acknowledges the callback and is left out. The
    three calls below send a text of fixed words, numbers and the selector
    of a button, which Telegram accepts. A text with a title or a file
    path in it goes through [send_markdown]: Telegram answers
    [BadRequest] when the title leaves a Markdown entity open (an
    unmatched backtick, underscore or asterisk), and nothing is shown. *)

Definition reply_text (chat_id : Z) (m : message) : M unit :=
  emit (Render chat_id m).

Definition edit_text (chat_id : Z) (m : message) : M unit :=
  emit (Render chat_id m).

Definition edit_message_text (chat_id : Z) (m : message) : M unit :=
  emit (Render chat_id m).

Definition send_markdown (parses : message -> bool) (chat_id : Z)
    (m : message) : M unit :=
  fun w =>
    if parses m then (log_event (Render chat_id m) w, Ok tt)
    else (w, Raise BadRequest).

(** *** The session dictionary *)

(** [chat_id in user_video_info] *)
Definition session_active (chat_id : Z) : M bool :=
  gets (fun w => bool_decide (is_Some (user_video_info w !! chat_id))).

(** [user_video_info[chat_id]] *)
Definition get_session (chat_id : Z) : M session :=
  fun w =>
    match user_video_info w !! chat_id with
    | Some s => (w, Ok s)
    | None => (w, Raise KeyError)
    end.

(** [user_video_info[chat_id] = s] *)
Definition put_session (chat_id : Z) (s : session) : M unit :=
  modify (fun w => set_sessions (<[chat_id := s]> (user_video_info w)) w).

(** [del user_video_info[chat_id]] *)
Definition del_session (chat_id : Z) : M unit :=
  fun w =>
    match user_video_info w !! chat_id with
    | Some _ => (set_sessions (delete chat_id (user_video_info w)) w, Ok tt)
    | None => (w, Raise KeyError)
    end.

(** *** The download folder *)

Definition os_path_exists (path : string) : M bool :=
  gets (fun w => bool_decide (is_Some (files w !! path))).

Definition os_path_getsize (path : string) : M Z :=
  fun w =>
    match files w !! path with
    | Some n => (w, Ok n)
    | None => (w, Raise FileNotFoundError)
    end.

Definition os_remove (path : string) : M unit :=
  fun w =>
    match files w !! path with
    | Some _ => (set_files (delete path (files w)) w, Ok tt)
    | None => (w, Raise FileNotFoundError)
    end.

(** [n / (1024 * 1024)]: bytes to megabytes. *)
Definition size_mb_of (n : Z) : Q := (inject_Z n / inject_Z (1024 * 1024))%Q.

(** [os.path.getsize(path) / (1024 * 1024)] *)
Definition getsize_mb (path : string) : M Q :=
  n ← os_path_getsize path;
  mret (size_mb_of n).

(** ** get_video_duration, compress_video *)

Section Helpers.
Variable E : env.

(** The probe and the parse of its output sit in one [try]; every
    exception gives [None]. *)
Definition get_video_duration (file_path : string) : M (option pyfloat) :=
  emit (Probe file_path);;
  gets (fun w => ffprobe E file_path (files w)).

Definition audio_bitrate : Z := 128.

(** [int((target_size_mb * 8192) / duration)] *)
Definition target_total_bitrate (target_size_mb : Z) (duration : pyfloat)
  : result Z :=
  match int_truediv_float (target_size_mb * 8192) duration with
  | Ok x => py_int x
  | Raise e => Raise e
  end.

(** [max(target_total_bitrate - audio_bitrate, 100)] *)
Definition video_bitrate (total : Z) : Z := Z.max (total - audio_bitrate) 100.

Definition compress_cmd (input_path output_path : string) (vb : Z)
  : ffmpeg_cmd :=
  {| cmd_input := input_path;
     cmd_video_bitrate := vb;
     cmd_maxrate := vb;
     cmd_bufsize := vb * 2;
     cmd_audio_bitrate := audio_bitrate;
     cmd_output := output_path |}.

(** [subprocess.run(cmd, ..., timeout=t)] of the encoder. *)
Definition run_ffmpeg (cmd : ffmpeg_cmd) : M Z :=
  fun w =>
    let '(outcome, written) := ffmpeg E cmd (files w) in
    let w' := match written with
              | Some n => set_files (<[cmd_output cmd := n]> (files w)) w
              | None => w
              end in
    match outcome with
    | Exited rc => (w', Ok rc)
    | TimedOut => (w', Raise TimeoutExpired)
    | Failed => (w', Raise OtherError)
    end.

Definition subprocess_run (cmd : ffmpeg_cmd) (t : Z) : M Z :=
  emit (Encode cmd t);;
  run_ffmpeg cmd.

Definition compress_video (input_path output_path : string)
    (target_size_mb : Z) : M bool :=
  try_except
    (duration ← get_video_duration input_path;
     match duration with
     | None => mret false
     | Some d =>
         if negb (float_truthy d) then mret false
         else
           total ← lift (target_total_bitrate target_size_mb d);
           let vb := video_bitrate total in
           rc ← subprocess_run (compress_cmd input_path output_path vb) 600;
           if rc =? 0 then
             n ← os_path_getsize output_path;
             let compressed_size := size_mb_of n in
             mret true
           else mret false
     end)
    (fun e =>
       match e with
       | TimeoutExpired => mret false
       | _ => mret false
       end).

(** ** get_video_info and the catalog of handle_url *)

Definition get_video_info (url : string) : M (option video_info) :=
  emit (ExtractInfo url);;
  mret (extract_info E url).

(** [fmt.get('vcodec') != 'none' and fmt.get('acodec') != 'none'] *)
Definition has_video_and_audio (fmt : format) : bool :=
  negb (bool_decide (vcodec fmt = Some "none"))
  && negb (bool_decide (acodec fmt = Some "none")).

(** [fmt.get('filesize') or fmt.get('filesize_approx') or 0] *)
Definition recorded_filesize (fmt : format) : Z :=
  default 0 (or_int (or_int (filesize fmt) (filesize_approx fmt)) (Some 0)).

Definition variant_of (fmt : format) : variant :=
  {| v_format_id := format_id fmt;
     v_filesize := recorded_filesize fmt;
     v_ext := default "mp4" (ext fmt) |}.

(** The body of the loop over [info.get('formats', [])]. *)
Definition add_format (video_formats : gmap Z variant) (fmt : format)
  : gmap Z variant :=
  if has_video_and_audio fmt then
    match height fmt with
    | Some h =>
        if negb (h =? 0) && bool_decide (video_formats !! h = None)
        then <[h := variant_of fmt]> video_formats
        else video_formats
    | None => video_formats
    end
  else video_formats.

Definition collect_video_formats (formats : list format) : gmap Z variant :=
  foldl add_format ∅ formats.

(** [sorted(video_formats.keys(), reverse=True)] *)
Definition sorted_qualities (video_formats : gmap Z variant) : list Z :=
  merge_sort Z.ge (map_to_list video_formats).*1.

Definition quality_button (fmt_data : variant) (h : Z) : button :=
  let filesize := v_filesize fmt_data in
  if negb (filesize =? 0) then
    let size_mb := size_mb_of filesize in
    QualityButton (Qgtb size_mb (inject_Z Config.TELEGRAM_FILE_LIMIT_MB))
                  h filesize
  else QualityButton false h filesize.

(** The loop over [sorted_qualities]; [video_formats[height]] raises
    [KeyError] on a missing key. *)
Fixpoint quality_buttons (video_formats : gmap Z variant) (hs : list Z)
  : result (list button) :=
  match hs with
  | [] => Ok []
  | h :: rest =>
      match video_formats !! h with
      | None => Raise KeyError
      | Some fmt_data =>
          match quality_buttons video_formats rest with
          | Ok bs => Ok (quality_button fmt_data h :: bs)
          | Raise e => Raise e
          end
      end
  end.

(** The keyboard: one row per quality, then the audio row. *)
Definition build_keyboard (formats : list format) : result (list button) :=
  let video_formats := collect_video_formats formats in
  match quality_buttons video_formats (sorted_qualities video_formats) with
  | Ok bs => Ok (bs ++ [AudioButton])
  | Raise e => Raise e
  end.

(** ** handle_url *)

(** [f"{duration // 60}:{duration % 60:02d}" if duration else "Unknown"]:
    [None] stands for "Unknown", and a non-zero int is shown in minutes
    and seconds. A float that is not zero passes the test, and the format
    code [d] raises for it. *)
Definition duration_str (duration : option number) : result (option Z) :=
  match duration with
  | None => Ok None
  | Some (Int n) => if n =? 0 then Ok None else Ok (Some n)
  | Some (Float x) => if float_truthy x then Raise ValueError else Ok None
  end.

(** A byte that continues a character of two or more bytes. *)
Definition is_continuation (c : ascii) : bool :=
  let n := nat_of_ascii c in
  ((128 <=? n) && (n <? 192))%nat.

(** [len(s)]: the number of characters. *)
Fixpoint py_len (s : string) : nat :=
  match s with
  | EmptyString => O
  | String c rest =>
      if is_continuation c then py_len rest else S (py_len rest)
  end.

(** [s[:n]]: the first [n] characters, each with all its bytes. *)
Fixpoint take_chars (n : nat) (s : string) : string :=
  match s with
  | EmptyString => EmptyString
  | String c rest =>
      if is_continuation c then String c (take_chars n rest)
      else
        match n with
        | O => EmptyString
        | S n' => String c (take_chars n' rest)
        end
  end.

(** [f"{title[:40]}{'...' if len(title) > 40 else ''}"]; the slice raises
    for [None]. *)
Definition shown_title (title : option string) : result string :=
  match title with
  | Some t =>
      Ok (take_chars 40 t +:+ (if (40 <? py_len t)%nat then "..." else ""))
  | None => Raise TypeError
  end.

(** The text of the menu, from [title = info.get('title', 'Unknown')] to
    the end of the f-string. *)
Definition menu_message (info : video_info) (keyboard : list button)
  : result message :=
  let title := get_or (info_title info) "Unknown" in
  let duration := get_or (info_duration info) (Int 0) in
  match duration_str duration with
  | Raise e => Raise e
  | Ok duration_str =>
      match shown_title title with
      | Raise e => Raise e
      | Ok title =>
          Ok (MsgVideoReady title duration_str (length keyboard - 1)%nat
                keyboard)
      end
  end.

Definition handle_url (chat_id : Z) (text : string) : M unit :=
  let url := strip text in
  if negb (contains "youtube.com" url) && negb (contains "youtu.be" url)
  then reply_text chat_id MsgInvalidLink
  else
    let cleaned_url := clean_youtube_url E url in
    reply_text chat_id MsgProcessing;;
    info ← get_video_info cleaned_url;
    match info with
    | None => edit_text chat_id MsgFetchError
    | Some info =>
        let formats := default [] (info_formats info) in
        put_session chat_id
          {| s_url := cleaned_url;
             s_title := get_or (info_title info) "Unknown";
             s_formats := formats |};;
        keyboard ← lift (build_keyboard formats);
        if (length keyboard =? 0)%nat || (length keyboard <=? 1)%nat
        then edit_text chat_id MsgNoOptions
        else
          message ← lift (menu_message info keyboard);
          send_markdown (telegram_parses E) chat_id message
    end.
End Helpers.

(** ** download_video_with_progress, handle_quality_selection *)

Section Pipeline.
Variable E : env.

Definition run_ydl (url quality : string) (chat_id : Z)
  : M (option string) :=
  fun w =>
    let '(fs, filename) := ydl_download E url quality chat_id (files w) in
    (set_files fs w, Ok filename).

(** [None] when yt-dlp raised; the audio selector renames the extension
    to [.mp3]. *)
Definition download_video_with_progress (url quality : string)
    (chat_id : Z) : M (option string) :=
  emit (Download url quality chat_id);;
  filename ← run_ydl url quality chat_id;
  match filename with
  | None => mret None
  | Some filename =>
      if String.eqb quality "audio"
      then mret (Some (rsplit_dot_0 filename +:+ ".mp3"))
      else mret (Some filename)
  end.

(** [with open(file_path, 'rb')] *)
Definition open_rb (path : string) : M unit :=
  n ← os_path_getsize path;
  mret tt.

Definition run_send (chat_id : Z) (path : string) : M unit :=
  fun w =>
    if telegram_send E chat_id path (files w) then (w, Ok tt)
    else (w, Raise OtherError).

Definition send_audio (chat_id : Z) (path : string) : M unit :=
  emit (SendAudio chat_id path);;
  run_send chat_id path.

Definition send_video (chat_id : Z) (path : string) : M unit :=
  emit (SendVideo chat_id path);;
  run_send chat_id path.

Definition limit_mb : Q := inject_Z Config.TELEGRAM_FILE_LIMIT_MB.

(** [file_path.rsplit('.', 1)[0] + '_compressed.mp4'] *)
Definition compressed_path_of (file_path : string) : string :=
  rsplit_dot_0 file_path +:+ "_compressed.mp4".

(** The [if file_size_mb > TELEGRAM_FILE_LIMIT_MB] block. It gives the
    file to upload and its size, or [None] where the source returns. *)
Definition compress_if_needed (chat_id : Z) (file_path : string)
    (file_size_mb : Q) : M (option (string * Q)) :=
  if Qgtb file_size_mb limit_mb then
    edit_message_text chat_id
      (MsgCompressing file_size_mb Config.TARGET_COMPRESSED_SIZE_MB);;
    let compressed_path := compressed_path_of file_path in
    compression_success ←
      compress_video E file_path compressed_path
        Config.TARGET_COMPRESSED_SIZE_MB;
    output_exists ←
      (if compression_success : bool then os_path_exists compressed_path
       else mret false);
    if compression_success && output_exists then
      compressed_size_mb ← getsize_mb compressed_path;
      os_remove file_path;;
      let file_path := compressed_path in
      let file_size_mb := compressed_size_mb in
      if Qgtb file_size_mb limit_mb then
        send_markdown (telegram_parses E) chat_id
          (MsgStillTooLarge file_size_mb file_path);;
        os_remove file_path;;
        del_session chat_id;;
        mret None
      else mret (Some (file_path, file_size_mb))
    else
      send_markdown (telegram_parses E) chat_id
        (MsgCompressionFailed file_size_mb file_path);;
      os_remove file_path;;
      del_session chat_id;;
      mret None
  else mret (Some (file_path, file_size_mb)).

(** From "Upload to Telegram" to the final cleanup. *)
Definition upload_and_cleanup (chat_id : Z) (title : option string)
    (quality_data : string) (file_path : string) (file_size_mb : Q)
  : M unit :=
  edit_message_text chat_id (MsgUploading file_size_mb);;
  (if String.eqb quality_data "audio"
   then open_rb file_path;; send_audio chat_id file_path
   else open_rb file_path;; send_video chat_id file_path);;
  edit_message_text chat_id (MsgSuccess file_size_mb quality_data);;
  os_remove file_path;;
  del_session chat_id.

(** [not file_path or not os.path.exists(file_path)] *)
Definition download_missing (file_path : option string) : M bool :=
  match file_path with
  | None => mret true
  | Some p =>
      if String.eqb p "" then mret true
      else
        present ← os_path_exists p;
        mret (negb present)
  end.

(** What follows the compression block: the upload, unless the block
    returned. *)
Definition deliver (chat_id : Z) (title : option string)
    (quality_data : string) (ready : option (string * Q)) : M unit :=
  match ready with
  | Some (file_path, file_size_mb) =>
      upload_and_cleanup chat_id title quality_data file_path file_size_mb
  | None => mret tt
  end.

(** The body of the [try] of [handle_quality_selection]. *)
Definition download_and_deliver (chat_id : Z) (url : string)
    (title : option string) (quality_data : string) : M unit :=
  file_path ← download_video_with_progress url quality_data chat_id;
  missing ← download_missing file_path;
  match file_path, missing with
  | Some file_path, false =>
      file_size_mb ← getsize_mb file_path;
      ready ← compress_if_needed chat_id file_path file_size_mb;
      deliver chat_id title quality_data ready
  | _, _ => edit_message_text chat_id MsgDownloadFailed
  end.

(** [except Exception as e] of [handle_quality_selection]. *)
Definition report_error (chat_id : Z) (e : exn) : M unit :=
  edit_message_text chat_id (MsgError e).

Definition handle_quality_selection (chat_id : Z) (data : string)
  : M unit :=
  active ← session_active chat_id;
  if negb active then edit_message_text chat_id MsgSessionExpired
  else
    video_info ← get_session chat_id;
    let url := s_url video_info in
    let title := s_title video_info in
    quality_data ← lift (py_index (split "_" data) 1);
    edit_message_text chat_id (MsgDownloading quality_data);;
    try_except
      (download_and_deliver chat_id url title quality_data)
      (report_error chat_id).
End Pipeline.

(** ** progress_hook *)

(** The dictionary yt-dlp passes to the hook. *)
Record progress_dict : Type := {
  status : string;
  downloaded_bytes : option Z;
  total_bytes : option Z;
  total_bytes_estimate : option Z
}.

(** The dictionary yt-dlp passes holds ints under the keys it has. The
    edit scheduled by the hook is kept by its percentage, as the exact
    quotient; the bar drawn from it is left out. *)
Record notification : Type := {
  percent : Q
}.

(** [d.get('total_bytes') or d.get('total_bytes_estimate', 0)] *)
Definition hook_total (d : progress_dict) : option Z :=
  or_int (total_bytes d) (Some (default 0 (total_bytes_estimate d))).

(** One call of the hook at loop time [current_time]; the state is
    [progress_data['last_update']]. *)
Definition progress_hook (current_time : Q) (d : progress_dict)
    (last_update : Q) : result (Q * option notification) :=
  if String.eqb (status d) "downloading" then
    if Qgtb (current_time - last_update) 10 then
      let last_update := current_time in
      let downloaded := default 0 (downloaded_bytes d) in
      let total := hook_total d in
      if int_truthy total then
        match int_truediv downloaded (default 0 total) with
        | Ok r =>
            let percent := (r * 100)%Q in
            Ok (last_update, Some {| percent := percent |})
        | Raise e => Raise e
        end
      else Ok (last_update, None)
    else Ok (last_update, None)
  else Ok (last_update, None).

(** The calls of one download, in order, each with the loop time at which
    it happens; the result lists the notifications with their times. *)
Fixpoint run_hook (calls : list (Q * progress_dict)) (last_update : Q)
  : result (list (Q * notification)) :=
  match calls with
  | [] => Ok []
  | (t, d) :: rest =>
      match progress_hook t d last_update with
      | Raise e => Raise e
      | Ok (last_update', sent) =>
          match run_hook rest last_update' with
          | Raise e => Raise e
          | Ok ns =>
              Ok (match sent with
                  | Some n => (t, n) :: ns
                  | None => ns
                  end)
          end
      end
  end.

(** [progress_data = {'last_update': 0}] *)
Definition download_notifications (calls : list (Q * progress_dict))
  : result (list (Q * notification)) :=
  run_hook calls 0.

(** ** format_size *)

(** The text of [format_size]: ["Unknown"], or a number with a unit. The
    number is kept exact; its rendering with one decimal is left out. *)
Inductive size_text : Type :=
  | SizeUnknown
  | SizeIn (value : Q) (unit : string).

(** The loop over the units, then the [TB] return after it. *)
Fixpoint format_size_loop (units : list string) (size_bytes : Q)
  : size_text :=
  match units with
  | [] => SizeIn size_bytes "TB"
  | unit :: rest =>
      if Qgtb 1024 size_bytes then SizeIn size_bytes unit
      else format_size_loop rest (size_bytes / 1024)
  end.

Definition format_size (size_bytes : option Z) : size_text :=
  if negb (int_truthy size_bytes) then SizeUnknown
  else format_size_loop ["B"; "KB"; "MB"; "GB"]
         (inject_Z (default 0 size_bytes)).

(** ** clean_youtube_url *)

Module UrlCleaning.

(** The six parts of [urlparse]. *)
Record parsed_url : Type := {
  scheme : string;
  netloc : string;
  path : string;
  params : string;
  query : string;
  fragment : string
}.

(** The functions of [urllib.parse] the cleaning calls; each may raise.
    The dictionary of [parse_qs] is the list of its items in order. *)
Record urllib : Type := {
  urlparse : string -> result parsed_url;
  parse_qs : string -> result (list (string * list string));
  urlencode : list (string * list string) -> result string;
  urlunparse : parsed_url -> result string
}.

Definition tracking_params : list string := ["si"; "feature"; "app"; "source"].

(** [params.pop(param, None)] *)
Definition pop (param : string) (items : list (string * list string))
  : list (string * list string) :=
  List.filter (fun item => negb (String.eqb item.1 param)) items.

(** The loop over [tracking_params]. *)
Definition remove_tracking (items : list (string * list string))
  : list (string * list string) :=
  foldl (fun acc param => pop param acc) items tracking_params.

Definition clean_youtube_url (L : urllib) (url : string) : string :=
  let cleaned :=
    match urlparse L url with
    | Raise e => Raise e
    | Ok parsed =>
        match parse_qs L (query parsed) with
        | Raise e => Raise e
        | Ok items =>
            match urlencode L (remove_tracking items) with
            | Raise e => Raise e
            | Ok new_query =>
                urlunparse L
                  {| scheme := scheme parsed;
                     netloc := netloc parsed;
                     path := path parsed;
                     params := params parsed;
                     query := new_query;
                     fragment := fragment parsed |}
            end
        end
    end in
  match cleaned with
  | Ok cleaned => cleaned
  | Raise _ => url
  end.

(** [param in tracking_params] *)
Definition tracked (param : string) : bool :=
  existsb (String.eqb param) tracking_params.

(** A library with fixed answers for [https://youtu.be/abc?si=x&t=10]. *)
Definition sample_urllib : urllib :=
  {| urlparse := fun url =>
       Ok {| scheme := "https"; netloc := "youtu.be"; path := "/abc";
             params := ""; query := "si=x&t=10"; fragment := "" |};
     parse_qs := fun _ => Ok [("si", ["x"]); ("t", ["10"])];
     urlencode := fun items =>
       match items with
       | [("t", ["10"])] => Ok "t=10"
       | _ => Raise ValueError
       end;
     urlunparse := fun parsed =>
       Ok ("https://youtu.be/abc?" +:+ query parsed) |}.

End UrlCleaning.

(** ** Observations on the rounding of a float *)

(** The exponent at which [binary_round_aux] rounds a mantissa [mx] given
    at exponent [ex]. *)
Definition round_exponent (mx ex : Z) : Z :=
  Z.max ex (fexp prec emax (Zdigits2 mx + ex)).

(** ** Observations on a run *)

Definition is_encode (e : event) : bool :=
  match e with Encode _ _ => true | _ => false end.

Definition is_probe (e : event) : bool :=
  match e with Probe _ => true | _ => false end.

Definition is_download (e : event) : bool :=
  match e with Download _ _ _ => true | _ => false end.

Definition is_send (e : event) : bool :=
  match e with SendAudio _ _ | SendVideo _ _ => true | _ => false end.

Fixpoint count_events (p : event -> bool) (l : list event) : nat :=
  match l with
  | [] => O
  | e :: rest => if p e then S (count_events p rest) else count_events p rest
  end.

(** The texts rendered during a run, oldest first. *)
Fixpoint rendered (l : list event) : list message :=
  match l with
  | [] => []
  | Render _ m :: rest => m :: rendered rest
  | _ :: rest => rendered rest
  end.

(** The world once [compress_video], started in [w], has run the encoder
    with [cmd]: the probe and the run are logged and the output file holds
    what the encoder wrote. *)
Definition after_encode (E : env) (cmd : ffmpeg_cmd) (w : world) : world :=
  let w2 := log_event (Encode cmd 600) (log_event (Probe (cmd_input cmd)) w) in
  match (ffmpeg E cmd (files w)).2 with
  | Some n => set_files (<[cmd_output cmd := n]> (files w)) w2
  | None => w2
  end.

(** What a call of [compress_video] leaves behind: the sessions are
    kept, no file but the output is touched, the output is there when the
    answer is [True], and the trace grows by the probe, at most one encoder
    run and nothing else. *)
Definition compress_video_post (input output : string) (w w' : world)
    (b : bool) : Prop :=
  user_video_info w' = user_video_info w
  /\ (forall path, path <> output -> files w' !! path = files w !! path)
  /\ (b = true -> is_Some (files w' !! output))
  /\ exists evs, trace w' = trace w ++ Probe input :: evs
                 /\ rendered evs = []
                 /\ count_events is_download evs = O
                 /\ count_events is_send evs = O
                 /\ (count_events is_encode evs <= 1)%nat.

(** The world after [os.remove(path)] and [del user_video_info[chat_id]]. *)
Definition cleaned (chat_id : Z) (path : string) (w : world) : world :=
  {| user_video_info := delete chat_id (user_video_info w);
     files := delete path (files w);
     trace := trace w |}.

(** The upload call made for selector [quality_data]. *)
Definition send_event (quality_data : string) (chat_id : Z) (path : string)
  : event :=
  if String.eqb quality_data "audio" then SendAudio chat_id path
  else SendVideo chat_id path.

(** The events a run adds to the trace it started from. *)
Definition new_events (before after : world) : list event :=
  drop (length (trace before)) (trace after).

(** Format [fmt] is kept under height [h]: it passes the two codec tests
    and its height is [h], which is truthy. *)
Definition qualifies (h : Z) (fmt : format) : Prop :=
  has_video_and_audio fmt = true /\ height fmt = Some h /\ h <> 0.

#[global] Instance qualifies_dec (h : Z) (fmt : format)
  : Decision (qualifies h fmt).
Proof. unfold qualifies. apply _. Defined.

(** The value of [a or b or 0] spelled out. *)
Definition first_truthy (a b : option Z) : Z :=
  match a with
  | Some x => if x =? 0 then
                match b with
                | Some y => y
                | None => 0
                end
              else x
  | None => match b with
            | Some y => y
            | None => 0
            end
  end.

(** A run keeps relation [R] between the world it starts from and the
    world it ends in, whatever it returns or raises. *)
Definition keeps (R : world -> world -> Prop) {A} (m : M A) : Prop :=
  forall w, R w (m w).1.

(** The session dictionary is as before, or as before without the key of
    [chat_id]. *)
Definition sessions_kept_or_deleted (chat_id : Z) (w w' : world) : Prop :=
  user_video_info w' = user_video_info w
  \/ user_video_info w' = delete chat_id (user_video_info w).

(** The callback data of a button, read the way [handle_quality_selection]
    reads it. *)
Definition selector_of (b : button) : string :=
  match b with
  | QualityButton _ h _ => pretty h
  | AudioButton => "audio"
  end.

(** [c in s] for one character. *)
Fixpoint has_char (c : ascii) (s : string) : bool :=
  match s with
  | EmptyString => false
  | String c' rest => Ascii.eqb c' c || has_char c rest
  end.

Definition is_extract_info (e : event) : bool :=
  match e with ExtractInfo _ => true | _ => false end.

(** The event a handler may add at the end of a run, if it adds one. *)
Definition rendered_tail (tail : option event) : list event :=
  match tail with
  | Some e => [e]
  | None => []
  end.

(** ** Sample collaborators and worlds *)

Definition mega (k : Z) : Z := k * (1024 * 1024).

Definition sample_session : session :=
  {| s_url := "https://youtu.be/abc"; s_title := Some "clip";
     s_formats := [] |}.

(** Requester 7 has a session; the folder is empty. *)
Definition sample_world : world :=
  {| user_video_info := {[7 := sample_session]}; files := ∅; trace := [] |}.

(** A reading of Telegram's parser for the samples: a title is refused
    when it holds an odd number of backticks, asterisks or underscores; a
    path, which the texts put between backticks, when it holds an odd
    number of backticks. *)
Fixpoint count_char (c : ascii) (s : string) : nat :=
  match s with
  | EmptyString => O
  | String c' rest =>
      if Ascii.eqb c' c then S (count_char c rest) else count_char c rest
  end.

Definition balanced (c : ascii) (s : string) : bool :=
  Nat.even (count_char c s).

Definition sample_parses (m : message) : bool :=
  match m with
  | MsgVideoReady title _ _ _ =>
      balanced "`" title && balanced "*" title && balanced "_" title
  | MsgStillTooLarge _ location => balanced "`" location
  | MsgCompressionFailed _ location => balanced "`" location
  | _ => true
  end.

(** Collaborators with fixed answers: yt-dlp writes [written] (if any) and
    names [named] as the result; the probe answers [duration]; the encoder
    ends as [encoded]; uploads succeed when [sent]. *)
Definition sample_env (written : option (string * Z)) (named : option string)
    (duration : option pyfloat) (encoded : run_outcome * option Z)
    (sent : bool) (info : option video_info) : env :=
  {| clean_youtube_url := fun url => url;
     extract_info := fun _ => info;
     telegram_parses := sample_parses;
     ydl_download := fun _ _ _ fs =>
       (match written with
        | Some (name, size) => <[name := size]> fs
        | None => fs
        end, named);
     ffprobe := fun _ _ => duration;
     ffmpeg := fun _ _ => encoded;
     telegram_send := fun _ _ _ => sent |}.

Definition seconds_1e_308 : pyfloat :=
  S754_finite false 2024022533073106 (-1074).
Definition minus_one_second : pyfloat :=
  S754_finite true 4503599627370496 (-52).

(** A download of [size] bytes into [7_clip.mp4], a 300 s duration and an
    encoder that ends as [encoded]. *)
Definition clip_env (size : Z) (encoded : run_outcome * option Z) : env :=
  sample_env (Some ("7_clip.mp4", size)) (Some "7_clip.mp4")
    (Some (float_of_Z 300)) encoded true None.

(** The world of [sample_world] once the download of [clip_env] is done. *)
Definition clip_downloaded (size : Z) : world :=
  {| user_video_info := {[7 := sample_session]};
     files := {["7_clip.mp4" := size]};
     trace := [Render 7 (MsgDownloading "720");
               Download "https://youtu.be/abc" "720" 7] |}.

(** The same for a video whose title, [a`b], holds one backtick: yt-dlp
    puts the title in the file name, so the path holds it too. *)
Definition backtick_session : session :=
  {| s_url := "https://youtu.be/abc"; s_title := Some "a`b";
     s_formats := [] |}.

Definition backtick_world : world :=
  {| user_video_info := {[7 := backtick_session]}; files := ∅; trace := [] |}.

Definition backtick_env (size : Z) (encoded : run_outcome * option Z) : env :=
  sample_env (Some ("7_a`b.mp4", size)) (Some "7_a`b.mp4")
    (Some (float_of_Z 300)) encoded true None.

Definition backtick_downloaded (size : Z) : world :=
  {| user_video_info := {[7 := backtick_session]};
     files := {["7_a`b.mp4" := size]};
     trace := [Render 7 (MsgDownloading "720");
               Download "https://youtu.be/abc" "720" 7] |}.

(** The two bytes of U+00E9, and two titles that start with it: one of 40
    characters and one of 43. *)
Definition e_acute : string :=
  String (ascii_of_nat 195) (String (ascii_of_nat 169) EmptyString).

Definition title_of_40 : string :=
  e_acute +:+ "123456789012345678901234567890123456789".

Definition title_of_43 : string := title_of_40 +:+ "xyz".

(** A format entry with both streams at height [h]. *)
Definition sample_format (h : option Z) (id : string) (size : option Z)
  : format :=
  {| vcodec := Some "avc1"; acodec := Some "mp4a"; height := h;
     format_id := Some id; filesize := size; filesize_approx := None;
     ext := Some "mp4" |}.

(** * Properties *)

(** ** The bitrate calculation *)

(** *** The digits of a mantissa *)

Lemma digits2_pos_size (p : positive) : digits2_pos p = Pos.size p.
Proof. induction p as [p IH|p IH|]; simpl; rewrite ?IH; reflexivity. Qed.

Lemma Zdigits2_bounds (m : Z) :
  0 < m -> 2 ^ (Zdigits2 m - 1) <= m < 2 ^ Zdigits2 m.
Proof.
  destruct m as [|p|p]; try lia. intros _.
  change (Zdigits2 (Z.pos p)) with (Z.pos (digits2_pos p)).
  rewrite digits2_pos_size.
  pose proof (Pos.size_gt p) as Hgt. pose proof (Pos.size_le p) as Hle.
  apply Pos2Z.pos_lt_pos in Hgt. apply Pos2Z.pos_le_pos in Hle.
  rewrite Pos2Z.inj_pow in Hgt, Hle.
  change (Z.pos p~0) with (2 * Z.pos p) in Hle.
  assert (Hpow : 2 ^ Z.pos (Pos.size p) = 2 * 2 ^ (Z.pos (Pos.size p) - 1)).
  { rewrite <- Z.pow_succ_r by lia. f_equal. lia. }
  lia.
Qed.

Lemma Zdigits2_nonneg (m : Z) : 0 <= Zdigits2 m.
Proof. destruct m; simpl; lia. Qed.

Lemma Zdigits2_le (m k : Z) : 0 <= m -> 0 <= k -> m < 2 ^ k -> Zdigits2 m <= k.
Proof.
  intros Hm Hk Hlt. destruct (Z.eq_dec m 0) as [->|Hne]; [simpl; lia|].
  destruct (Zdigits2_bounds m ltac:(lia)) as [Hlo _].
  assert (H : 2 ^ (Zdigits2 m - 1) < 2 ^ k) by lia.
  apply Z.pow_lt_mono_r_iff in H; lia.
Qed.

Lemma Zdigits2_gt (m k : Z) : 0 <= k -> 2 ^ k <= m -> k < Zdigits2 m.
Proof.
  intros Hk Hle.
  assert (Hpos : 0 < m) by (pose proof (Z.pow_pos_nonneg 2 k); lia).
  destruct (Zdigits2_bounds m Hpos) as [_ Hhi].
  assert (H : 2 ^ k < 2 ^ Zdigits2 m) by lia.
  apply Z.pow_lt_mono_r_iff in H; [lia|lia|apply Zdigits2_nonneg].
Qed.

Lemma Zdigits2_succ_le (m : Z) : 0 <= m -> Zdigits2 (m + 1) <= Zdigits2 m + 1.
Proof.
  intros Hm. destruct (Z.eq_dec m 0) as [->|Hne]; [simpl; lia|].
  destruct (Zdigits2_bounds m ltac:(lia)) as [_ Hhi].
  pose proof (Zdigits2_nonneg m) as Hd.
  apply Zdigits2_le; [lia|lia|].
  rewrite Z.pow_add_r by lia. lia.
Qed.

Lemma Zdigits2_succ_ge (m : Z) : 0 <= m -> Zdigits2 m <= Zdigits2 (m + 1).
Proof.
  intros Hm. destruct (Z.eq_dec m 0) as [->|Hne]; [simpl; lia|].
  destruct (Zdigits2_bounds m ltac:(lia)) as [Hlo _].
  assert (Hd : 1 <= Zdigits2 m) by (destruct m; simpl; lia).
  pose proof (Zdigits2_gt (m + 1) (Zdigits2 m - 1) ltac:(lia) ltac:(lia)).
  lia.
Qed.

Lemma Zdigits2_carry (m : Z) :
  0 <= m -> Zdigits2 (m + 1) = Zdigits2 m + 1 -> m + 1 = 2 ^ Zdigits2 m.
Proof.
  intros Hm Hd. destruct (Z.eq_dec m 0) as [->|Hne]; [reflexivity|].
  destruct (Zdigits2_bounds m ltac:(lia)) as [_ Hhi].
  destruct (Zdigits2_bounds (m + 1) ltac:(lia)) as [Hlo _].
  rewrite Hd in Hlo. replace (Zdigits2 m + 1 - 1) with (Zdigits2 m) in Hlo by lia.
  lia.
Qed.

(** *** Shifting a mantissa to the right *)

Lemma shr_1_m (mrs : shr_record) :
  0 <= shr_m mrs ->
  shr_m (shr_1 mrs) = shr_m mrs / 2.
Proof.
  destruct mrs as [m r s]. simpl. intros Hm.
  destruct m as [|p|p]; [reflexivity| |lia].
  destruct p as [p|p|]; simpl shr_m.
  - change (Z.pos p~1) with (2 * Z.pos p + 1).
    apply Z.div_unique with 1; lia.
  - change (Z.pos p~0) with (2 * Z.pos p).
    apply Z.div_unique with 0; lia.
  - reflexivity.
Qed.

Lemma iter_shr_1_m (n : positive) (mrs : shr_record) :
  0 <= shr_m mrs ->
  shr_m (SpecFloat.iter_pos shr_1 n mrs) = shr_m mrs / 2 ^ Z.pos n.
Proof.
  revert mrs. induction n as [n IH|n IH|]; intros mrs Hm; simpl SpecFloat.iter_pos.
  - assert (H1 : 0 <= shr_m (shr_1 mrs)).
    { rewrite shr_1_m by exact Hm. apply Z.div_pos; lia. }
    assert (H2 : 0 <= shr_m (SpecFloat.iter_pos shr_1 n (shr_1 mrs))).
    { rewrite IH by exact H1. apply Z.div_pos; [exact H1|].
      apply Z.pow_pos_nonneg; lia. }
    rewrite IH by exact H2. rewrite IH by exact H1.
    rewrite shr_1_m by exact Hm.
    assert (Hp : 0 < 2 ^ Z.pos n) by (apply Z.pow_pos_nonneg; lia).
    rewrite !Z.div_div by lia.
    f_equal.
    assert (Hpow : 2 ^ Z.pos n~1 = 2 * 2 ^ Z.pos n * 2 ^ Z.pos n).
    { rewrite <- Z.mul_assoc, <- Z.pow_add_r, <- Z.pow_succ_r by lia.
      f_equal. lia. }
    lia.
  - assert (H1 : 0 <= shr_m (SpecFloat.iter_pos shr_1 n mrs)).
    { rewrite IH by exact Hm. apply Z.div_pos; [exact Hm|].
      apply Z.pow_pos_nonneg; lia. }
    rewrite IH by exact H1. rewrite IH by exact Hm.
    assert (Hp : 0 < 2 ^ Z.pos n) by (apply Z.pow_pos_nonneg; lia).
    rewrite Z.div_div by lia.
    f_equal. rewrite <- Z.pow_add_r by lia. f_equal. lia.
  - rewrite shr_1_m by exact Hm. reflexivity.
Qed.

Lemma shr_record_of_loc_m (m : Z) (l : location) :
  shr_m (shr_record_of_loc m l) = m.
Proof. destruct l as [|[| |]]; reflexivity. Qed.

(** [shr_fexp] moves a nonnegative mantissa to the exponent the format
    asks for, dropping the low bits. *)
Lemma shr_fexp_m (m e : Z) (l : location) :
  0 <= m ->
  let e' := Z.max e (fexp prec emax (Zdigits2 m + e)) in
  shr_m (fst (shr_fexp prec emax m e l)) = m / 2 ^ (e' - e)
  /\ snd (shr_fexp prec emax m e l) = e'.
Proof.
  intros Hm e'. unfold shr_fexp, shr.
  destruct (fexp prec emax (Zdigits2 m + e) - e) as [|n|n] eqn:Hn.
  - replace (e' - e) with 0 by lia. rewrite Z.pow_0_r, Z.div_1_r.
    split; [apply shr_record_of_loc_m | simpl; lia].
  - split; [|simpl; lia].
    simpl fst. rewrite iter_shr_1_m by (rewrite shr_record_of_loc_m; exact Hm).
    rewrite shr_record_of_loc_m. f_equal. f_equal. lia.
  - replace (e' - e) with 0 by lia. rewrite Z.pow_0_r, Z.div_1_r.
    split; [apply shr_record_of_loc_m | simpl; lia].
Qed.

Lemma fexp_unfold (e : Z) : fexp prec emax e = Z.max (e - 53) (-1074).
Proof. reflexivity. Qed.

Lemma round_nearest_even_cases (m : Z) (l : location) :
  round_nearest_even m l = m \/ round_nearest_even m l = m + 1.
Proof.
  destruct l as [|[| |]]; simpl; auto. destruct (Z.even m); auto.
Qed.

(** The result of [binary_round_aux] on a nonnegative mantissa: with [t]
    the mantissa cut down to the rounding exponent [e'], the result is
    [t * 2^e'] or [(t + 1) * 2^e'], or an infinity when [e'] is at the
    top of the range. *)
Lemma binary_round_aux_cases (sx : bool) (mx ex : Z) (lx : location) :
  0 <= mx ->
  let e' := round_exponent mx ex in
  let t := mx / 2 ^ (e' - ex) in
  exists r, (r = t \/ r = t + 1)
    /\ match binary_round_aux prec emax sx mx ex lx with
       | S754_zero s => s = sx /\ r = 0
       | S754_finite s m e =>
           s = sx
           /\ (e = e' /\ Z.pos m = r \/ e = e' + 1 /\ 2 * Z.pos m = r)
       | S754_infinity s => s = sx /\ emax - prec <= e'
       | S754_nan => False
       end.
Proof.
  intros Hmx e' t. unfold binary_round_aux.
  destruct (shr_fexp_m mx ex lx Hmx) as [Hm1 He1].
  fold (round_exponent mx ex) in Hm1, He1. fold e' in Hm1, He1. fold t in Hm1.
  destruct (shr_fexp prec emax mx ex lx) as [mrs1 e1]. simpl in Hm1, He1.
  subst e1.
  assert (He' : e' = Z.max ex (Z.max (Zdigits2 mx + ex - 53) (-1074)))
    by reflexivity.
  assert (Htdef : t = mx / 2 ^ (e' - ex)) by reflexivity.
  clearbody t. clearbody e'.
  set (r := round_nearest_even (shr_m mrs1) (loc_of_shr_record mrs1)).
  assert (Ht : 0 <= t).
  { rewrite Htdef. apply Z.div_pos; [exact Hmx|].
    apply Z.pow_pos_nonneg; lia. }
  assert (Hr : r = t \/ r = t + 1).
  { unfold r. rewrite <- Hm1. apply round_nearest_even_cases. }
  assert (Hr0 : 0 <= r) by lia.
  (* the rounding exponent is the one the format asks for, or above *)
  assert (Hemin : -1074 <= e') by lia.
  assert (Hdt : Zdigits2 t <= 53 \/ e' = ex /\ t = mx).
  { destruct (Z_le_gt_dec (Z.max (Zdigits2 mx + ex - 53) (-1074)) ex)
      as [Hle|Hgt].
    - right. assert (Heq : e' = ex) by lia. split; [exact Heq|].
      rewrite Htdef, Heq. replace (ex - ex) with 0 by lia.
      rewrite Z.pow_0_r, Z.div_1_r. reflexivity.
    - left.
      assert (Hn : 0 < e' - ex) by lia.
      destruct (Z.eq_dec mx 0) as [Hz|Hne].
      { rewrite Htdef, Hz. rewrite Z.div_0_l by (apply Z.pow_nonzero; lia).
        simpl. lia. }
      destruct (Zdigits2_bounds mx ltac:(lia)) as [_ Hhi].
      apply Zdigits2_le; [exact Ht|lia|].
      rewrite Htdef. apply Z.div_lt_upper_bound; [apply Z.pow_pos_nonneg; lia|].
      rewrite <- Z.pow_add_r by lia.
      eapply Z.lt_le_trans; [exact Hhi|].
      apply Z.pow_le_mono_r; lia. }
  assert (Hfit : fexp prec emax (Zdigits2 t + e') <= e').
  { rewrite fexp_unfold. destruct Hdt as [Hd|[He Heq]]; [lia|].
    rewrite Heq. lia. }
  destruct (shr_fexp_m r e' loc_Exact Hr0) as [Hm2 He2].
  destruct (shr_fexp prec emax r e' loc_Exact) as [mrs2 e2].
  simpl in Hm2, He2.
  assert (Hsecond :
    e2 = e' /\ shr_m mrs2 = r \/ e2 = e' + 1 /\ 2 * shr_m mrs2 = r).
  { rewrite fexp_unfold in Hfit.
    pose proof (Zdigits2_succ_le t Ht) as Hsl.
    pose proof (Zdigits2_succ_ge t Ht) as Hsg.
    destruct Hr as [Hr|Hr].
    - left. rewrite Hr in *. rewrite fexp_unfold in He2, Hm2.
      rewrite Z.max_l in He2, Hm2 by lia.
      split; [congruence|]. rewrite Hm2.
      replace (e' - e') with 0 by lia. rewrite Z.pow_0_r, Z.div_1_r.
      reflexivity.
    - rewrite Hr in *. rewrite fexp_unfold in He2, Hm2.
      destruct (Z_le_gt_dec (Z.max (Zdigits2 (t + 1) + e' - 53) (-1074)) e')
        as [Hle|Hgt].
      + left. rewrite Z.max_l in He2, Hm2 by lia.
        split; [congruence|]. rewrite Hm2.
        replace (e' - e') with 0 by lia. rewrite Z.pow_0_r, Z.div_1_r.
        reflexivity.
      + right. rewrite Z.max_r in He2, Hm2 by lia.
        assert (Hcarry : Zdigits2 (t + 1) = Zdigits2 t + 1) by lia.
        assert (He : Z.max (Zdigits2 (t + 1) + e' - 53) (-1074) = e' + 1)
          by lia.
        rewrite He in He2, Hm2. split; [congruence|].
        replace (e' + 1 - e') with 1 in Hm2 by lia.
        rewrite Z.pow_1_r in Hm2. rewrite Hm2.
        pose proof (Zdigits2_carry t Ht Hcarry) as Hpow.
        assert (Hd1 : 1 <= Zdigits2 t).
        { destruct (Z.eq_dec t 0) as [Hz|Hne].
          - rewrite Hz in Hgt. change (Zdigits2 (0 + 1)) with 1 in Hgt. lia.
          - destruct t; simpl; lia. }
        assert (Hp2 : 2 ^ Zdigits2 t = 2 * 2 ^ (Zdigits2 t - 1)).
        { rewrite <- Z.pow_succ_r by lia. f_equal. lia. }
        rewrite Hpow, Hp2.
        assert (Hhalf : 2 * 2 ^ (Zdigits2 t - 1) / 2 = 2 ^ (Zdigits2 t - 1)).
        { symmetry. apply Z.div_unique with 0; lia. }
        rewrite Hhalf. reflexivity. }
  exists r. split; [exact Hr|].
  destruct (shr_m mrs2) as [|m|m] eqn:Hm.
  - split; [reflexivity|]. lia.
  - destruct (e2 <=? emax - prec) eqn:Hle.
    + split; [reflexivity|]. lia.
    + split; [reflexivity|]. apply Z.leb_gt in Hle. lia.
  - lia.
Qed.

(** *** Values that need no rounding *)

Lemma binary_round_aux_exact (sx : bool) (m : positive) (e : Z) :
  fexp prec emax (Zdigits2 (Z.pos m) + e) <= e ->
  e <= emax - prec ->
  binary_round_aux prec emax sx (Z.pos m) e loc_Exact = S754_finite sx m e.
Proof.
  intros Hfit Hmax. unfold binary_round_aux, shr_fexp, shr.
  destruct (fexp prec emax (Zdigits2 (Z.pos m) + e) - e) as [|n|n] eqn:Hn;
    [|lia|]; cbn [shr_record_of_loc shr_m loc_of_shr_record
                  round_nearest_even];
    rewrite Hn; cbn [shr_m]; apply Z.leb_le in Hmax; rewrite Hmax;
    reflexivity.
Qed.

Lemma iter_xO_mul (p d : positive) :
  Z.pos (Pos.iter xO p d) = Z.pos p * 2 ^ Z.pos d.
Proof.
  apply (Pos.iter_ind positive xO p
           (fun d r => Z.pos r = Z.pos p * 2 ^ Z.pos d)).
  - rewrite Z.pow_1_r. lia.
  - intros d' r IH. rewrite Pos2Z.inj_succ, Z.pow_succ_r by lia.
    change (Z.pos r~0) with (2 * Z.pos r). lia.
Qed.

Lemma Zdigits2_mul_pow2 (m k : Z) :
  0 < m -> 0 <= k -> Zdigits2 (m * 2 ^ k) = Zdigits2 m + k.
Proof.
  intros Hm Hk. destruct (Zdigits2_bounds m Hm) as [Hlo Hhi].
  assert (Hd : 1 <= Zdigits2 m) by (destruct m; simpl; lia).
  assert (Hp : 0 < 2 ^ k) by (apply Z.pow_pos_nonneg; lia).
  apply Z.le_antisymm.
  - apply Zdigits2_le; [nia|lia|]. rewrite Z.pow_add_r by lia. nia.
  - assert (H : Zdigits2 m + k - 1 < Zdigits2 (m * 2 ^ k)); [|lia].
    apply Zdigits2_gt; [lia|].
    replace (Zdigits2 m + k - 1) with (Zdigits2 m - 1 + k) by lia.
    rewrite Z.pow_add_r by lia. nia.
Qed.

(** The float of a positive int below [2^53] is that int: its mantissa
    is the int shifted up to 53 bits. *)
Lemma binary_normalize_small (n : Z) :
  0 < n < 2 ^ 53 ->
  exists m e,
    binary_normalize prec emax n 0 false = S754_finite false m e
    /\ e <= 0 /\ Z.pos m = n * 2 ^ (- e)
    /\ Zdigits2 (Z.pos m) = 53.
Proof.
  intros [Hpos Hlt]. destruct n as [|p|p]; try lia.
  unfold binary_normalize, binary_round, shl_align.
  assert (Hd : 1 <= Z.pos (digits2_pos p) <= 53).
  { split; [lia|].
    exact (Zdigits2_le (Z.pos p) 53 ltac:(lia) ltac:(lia) Hlt). }
  rewrite fexp_unfold.
  replace (Z.pos (digits2_pos p) + 0) with (Z.pos (digits2_pos p)) by lia.
  rewrite Z.max_l by lia.
  destruct (Z.pos (digits2_pos p) - 53 - 0) as [|d|d] eqn:Hshift; [|lia|].
  - exists p, 0. split.
    + apply binary_round_aux_exact; [|unfold emax, prec; lia].
      rewrite fexp_unfold. simpl Zdigits2. lia.
    + split; [lia|]. split; [simpl; lia|]. simpl. lia.
  - exists (Pos.iter xO p d), (Z.pos (digits2_pos p) - 53).
    assert (Hdig : Zdigits2 (Z.pos (Pos.iter xO p d)) = 53).
    { rewrite iter_xO_mul, Zdigits2_mul_pow2 by lia. simpl Zdigits2. lia. }
    split.
    + apply binary_round_aux_exact; [|unfold emax, prec; lia].
      rewrite fexp_unfold, Hdig. lia.
    + split; [lia|]. split; [|exact Hdig].
      rewrite iter_xO_mul. f_equal. f_equal. lia.
Qed.

(** *** Division *)

Lemma SFdiv_core_binary_spec (m1 m2 : positive) (e1 e2 : Z) :
  let e := Z.min (fexp prec emax (Zdigits2 (Z.pos m1) + e1
                                  - (Zdigits2 (Z.pos m2) + e2)))
                 (e1 - e2) in
  exists l,
    SFdiv_core_binary prec emax (Z.pos m1) e1 (Z.pos m2) e2
    = (Z.pos m1 * 2 ^ (e1 - e2 - e) / Z.pos m2, e, l).
Proof.
  intros e. unfold SFdiv_core_binary. fold e.
  assert (Hs : 0 <= e1 - e2 - e) by (unfold e; lia).
  set (m' := match e1 - e2 - e with
             | 0 => Z.pos m1
             | Z.pos _ => Z.shiftl (Z.pos m1) (e1 - e2 - e)
             | Z.neg _ => 0
             end).
  assert (Hm' : m' = Z.pos m1 * 2 ^ (e1 - e2 - e)).
  { unfold m'. destruct (e1 - e2 - e) as [|s|s] eqn:Hsd; [|  |lia].
    - rewrite Z.pow_0_r. lia.
    - apply Z.shiftl_mul_pow2. lia. }
  rewrite <- Hm'. unfold Z.div.
  destruct (Z.div_eucl m' (Z.pos m2)) as [q r]. eexists. reflexivity.
Qed.







(** *** The exact quotient *)








(** ** Running the monad *)

Ltac munfold :=
  unfold mbind, mret, M_bind, M_ret, emit, modify, gets, lift, raise,
    try_except in *.

Lemma count_events_app (p : event -> bool) (l1 l2 : list event) :
  count_events p (l1 ++ l2) = (count_events p l1 + count_events p l2)%nat.
Proof.
  induction l1 as [|e l1 IH]; simpl; [reflexivity|].
  destruct (p e); simpl; rewrite IH; reflexivity.
Qed.

Lemma rendered_app (l1 l2 : list event) :
  rendered (l1 ++ l2) = rendered l1 ++ rendered l2.
Proof.
  induction l1 as [|e l1 IH]; simpl; [reflexivity|].
  destruct e; simpl; rewrite IH; reflexivity.
Qed.

Lemma new_events_app (w w' : world) (evs : list event) :
  trace w' = trace w ++ evs -> new_events w w' = evs.
Proof. intros H. unfold new_events. rewrite H. apply drop_app_length. Qed.

Lemma last_rendered_snoc (l : list event) (chat_id : Z) (m : message) :
  last (rendered (l ++ [Render chat_id m])) = Some m.
Proof. rewrite rendered_app. simpl. apply last_snoc. Qed.

(** ** compress_video *)

Lemma compress_video_run (E : env) (input output : string) (T : Z)
    (w : world) :
  compress_video E input output T w =
  match ffprobe E input (files w) with
  | None => (log_event (Probe input) w, Ok false)
  | Some d =>
      if float_truthy d then
        match target_total_bitrate T d with
        | Raise _ => (log_event (Probe input) w, Ok false)
        | Ok total =>
            let cmd := compress_cmd input output (video_bitrate total) in
            let w3 := after_encode E cmd w in
            match (ffmpeg E cmd (files w)).1 with
            | Exited rc =>
                (w3, Ok ((rc =? 0)
                         && bool_decide (is_Some (files w3 !! output))))
            | _ => (w3, Ok false)
            end
        end
      else (log_event (Probe input) w, Ok false)
  end.
Proof.
  unfold compress_video, get_video_duration, subprocess_run, run_ffmpeg,
    os_path_getsize, after_encode.
  munfold. simpl.
  destruct (ffprobe E input (files w)) as [d|]; [|reflexivity].
  destruct (float_truthy d); simpl; [|reflexivity].
  destruct (target_total_bitrate T d) as [total|e]; simpl;
    [|destruct e; reflexivity].
  destruct (ffmpeg E _ _) as [out wr]. simpl.
  destruct out as [rc| |]; [|reflexivity..].
  destruct (rc =? 0); simpl; [|reflexivity].
  destruct wr as [n|]; simpl.
  - rewrite lookup_insert_eq. reflexivity.
  - destruct (files w !! output); reflexivity.
Qed.

Lemma after_encode_sessions (E : env) (cmd : ffmpeg_cmd) (w : world) :
  user_video_info (after_encode E cmd w) = user_video_info w.
Proof.
  unfold after_encode. destruct (ffmpeg E cmd (files w)).2; reflexivity.
Qed.

Lemma after_encode_files (E : env) (cmd : ffmpeg_cmd) (w : world)
    (path : string) :
  path <> cmd_output cmd ->
  files (after_encode E cmd w) !! path = files w !! path.
Proof.
  intros Hne. unfold after_encode.
  destruct (ffmpeg E cmd (files w)).2; simpl; [|reflexivity].
  apply lookup_insert_ne. congruence.
Qed.

Lemma after_encode_trace (E : env) (cmd : ffmpeg_cmd) (w : world) :
  trace (after_encode E cmd w)
  = trace w ++ [Probe (cmd_input cmd); Encode cmd 600].
Proof.
  unfold after_encode.
  destruct (ffmpeg E cmd (files w)).2; simpl; rewrite <- app_assoc; reflexivity.
Qed.

(** [compress_video] gives a boolean, keeps the sessions and touches no
    file but its output. *)
Lemma compress_video_frame (E : env) (input output : string) (T : Z)
    (w : world) :
  exists w' b,
    compress_video E input output T w = (w', Ok b)
    /\ compress_video_post input output w w' b.
Proof.
  rewrite compress_video_run.
  assert (Hskip : exists w' b,
    (log_event (Probe input) w, Ok false) = (w', Ok b)
    /\ compress_video_post input output w w' b).
  { eexists _, _. split; [reflexivity|].
    split; [reflexivity|]. split; [reflexivity|]. split; [discriminate|].
    exists []. simpl. repeat split; lia. }
  destruct (ffprobe E input (files w)) as [d|]; [|exact Hskip].
  destruct (float_truthy d); [|exact Hskip].
  destruct (target_total_bitrate T d) as [total|e]; [|exact Hskip].
  set (cmd := compress_cmd input output (video_bitrate total)). simpl.
  assert (Hrun : forall b,
    (b = true -> is_Some (files (after_encode E cmd w) !! output)) ->
    exists w' b',
      (after_encode E cmd w, Ok b) = (w', Ok b')
      /\ compress_video_post input output w w' b').
  { intros b Hb. eexists _, _. split; [reflexivity|].
    split; [apply after_encode_sessions|].
    split; [intros path Hne; apply after_encode_files; exact Hne|].
    split; [exact Hb|].
    exists [Encode cmd 600]. rewrite after_encode_trace. simpl.
    repeat split; lia. }
  destruct (ffmpeg E cmd (files w)).1 as [rc| |];
    [|apply Hrun; discriminate..].
  apply Hrun. intros Hb. apply andb_true_iff in Hb as [_ Hb].
  apply bool_decide_eq_true in Hb. exact Hb.
Qed.

(** The bitrate computation raises for NaN, whatever the target is. *)
Lemma target_total_bitrate_nan (T : Z) :
  exists e, target_total_bitrate T S754_nan = Raise e.
Proof.
  unfold target_total_bitrate, int_truediv_float.
  destruct (float_of_int (T * 8192)) as [f|e]; [|exists e; reflexivity].
  exists ValueError. destruct f; reflexivity.
Qed.

(** C7 (as amended). [compress_video] gives a boolean and never raises.
    It gives [False] when the probe fails, when the probed duration is zero,
    when the bitrate computation raises (then the encoder is not run), and
    when the encoder exits non-zero, runs into the 600 s timeout or
    raises; with a duration that is not falsy and a bitrate that is
    computed, it gives [True] exactly when the encoder exits with code 0
    and the output file is there to be measured. The encoder is run at
    most once, with the 600 s timeout. The bitrate computation raises for
    NaN, and for a duration so small that the quotient is out of the range
    of the floats, such as [1e-308]. *)
Theorem compress_video_outcome (E : env) (input output : string) (T : Z)
    (w : world) :
  (exists w' b,
     compress_video E input output T w = (w', Ok b)
     /\ (ffprobe E input (files w) = None -> b = false)
     /\ (forall d, ffprobe E input (files w) = Some d ->
                   float_truthy d = false -> b = false)
     /\ (forall d e, ffprobe E input (files w) = Some d ->
                     target_total_bitrate T d = Raise e ->
                     b = false /\ new_events w w' = [Probe input])
     /\ (forall d total,
           ffprobe E input (files w) = Some d ->
           float_truthy d = true ->
           target_total_bitrate T d = Ok total ->
           let cmd := compress_cmd input output (video_bitrate total) in
           (forall rc, (ffmpeg E cmd (files w)).1 = Exited rc -> rc <> 0 ->
                       b = false)
           /\ ((ffmpeg E cmd (files w)).1 = TimedOut -> b = false)
           /\ ((ffmpeg E cmd (files w)).1 = Failed -> b = false)
           /\ (b = true <-> (ffmpeg E cmd (files w)).1 = Exited 0
                            /\ is_Some (files w' !! output)))
     /\ (new_events w w' = [Probe input]
         \/ exists d total,
              ffprobe E input (files w) = Some d
              /\ target_total_bitrate T d = Ok total
              /\ new_events w w'
                 = [Probe input;
                    Encode (compress_cmd input output (video_bitrate total))
                      600]))
  /\ (exists e, target_total_bitrate T S754_nan = Raise e)
  /\ target_total_bitrate 45 seconds_1e_308 = Raise OverflowError.
Proof.
  split; [|split; [apply target_total_bitrate_nan | reflexivity]].
  rewrite compress_video_run.
  assert (Hprobed :
    new_events w (log_event (Probe input) w) = [Probe input]).
  { apply new_events_app. reflexivity. }
  destruct (ffprobe E input (files w)) as [d|] eqn:Hprobe;
    [destruct (float_truthy d) eqn:Htruthy;
     [destruct (target_total_bitrate T d) as [total|e] eqn:Htotal|]|].
  - set (cmd := compress_cmd input output (video_bitrate total)). simpl.
    assert (Hevents :
      new_events w (after_encode E cmd w) = [Probe input; Encode cmd 600]).
    { apply new_events_app. apply after_encode_trace. }
    assert (Hsame : forall d' total',
      Some d = Some d' -> target_total_bitrate T d' = Ok total' ->
      compress_cmd input output (video_bitrate total') = cmd).
    { intros d' total' Hd' Ht'. unfold cmd. congruence. }
    destruct (ffmpeg E cmd (files w)).1 as [rc| |] eqn:Hout;
      eexists _, _; (split; [reflexivity|]);
      (split; [discriminate|]); (split; [congruence|]);
      (split; [congruence|]);
      (split; [|right; exists d, total; repeat split; assumption]);
      intros d' total' Hd' _ Ht'; cbv zeta;
      rewrite (Hsame d' total' Hd' Ht'), Hout.
    + split; [|split; [discriminate|split; [discriminate|]]].
      * intros rc' Hrc Hne. injection Hrc as <-.
        apply Z.eqb_neq in Hne. rewrite Hne. reflexivity.
      * rewrite andb_true_iff, bool_decide_eq_true, Z.eqb_eq.
        split.
        -- intros [-> Hex]. split; [reflexivity | exact Hex].
        -- intros [Hrc Hex]. injection Hrc as ->.
           split; [reflexivity | exact Hex].
    + split; [discriminate|]. split; [reflexivity|]. split; [reflexivity|].
      split; [discriminate|]. intros [Hrc _]. discriminate.
    + split; [discriminate|]. split; [reflexivity|]. split; [reflexivity|].
      split; [discriminate|]. intros [Hrc _]. discriminate.
  - eexists _, _. split; [reflexivity|].
    split; [reflexivity|]. split; [reflexivity|].
    split; [intros d' e' _ _; split; [reflexivity | exact Hprobed]|].
    split; [intros d' total' Hd' _ Ht'; congruence|].
    left. exact Hprobed.
  - eexists _, _. split; [reflexivity|].
    split; [reflexivity|]. split; [reflexivity|].
    split; [intros d' e' _ _; split; [reflexivity | exact Hprobed]|].
    split; [intros d' total' Hd' Ht'; congruence|].
    left. exact Hprobed.
  - eexists _, _. split; [reflexivity|].
    split; [reflexivity|]. split; [reflexivity|].
    split; [intros d' e' Hd'; congruence|].
    split; [intros d' total' Hd'; congruence|].
    left. exact Hprobed.
Qed.

(** C7 as stated fails: with a probed duration of -1 s, which is not
    positive, and an encoder that exits with code 0, [compress_video] runs
    the encoder at the 100 kbps floor and answers [True]. *)
Lemma compress_video_negative_duration :
  let E := sample_env None None (Some minus_one_second)
             (Exited 0, Some (mega 1)) true None in
  ~ (0 < float_value minus_one_second)%Q
  /\ compress_video E "in.mp4" "out.mp4" 45 sample_world
     = ({| user_video_info := user_video_info sample_world;
           files := {["out.mp4" := mega 1]};
           trace := [Probe "in.mp4";
                     Encode (compress_cmd "in.mp4" "out.mp4" 100) 600] |},
        Ok true).
Proof.
  intros E. split; [intros H; discriminate H|]. reflexivity.
Qed.

(** ** The steps of handle_quality_selection *)

Lemma bind_run {A B} (m : M A) (f : A -> M B) (w w' : world) (a : A) :
  m w = (w', Ok a) -> (m ≫= f) w = f a w'.
Proof. intros Hm. unfold mbind, M_bind. rewrite Hm. reflexivity. Qed.

Lemma download_video_with_progress_run (E : env) (url quality : string)
    (chat_id : Z) (w : world) :
  exists w' file_path,
    download_video_with_progress E url quality chat_id w = (w', Ok file_path)
    /\ user_video_info w' = user_video_info w
    /\ trace w' = trace w ++ [Download url quality chat_id].
Proof.
  unfold download_video_with_progress, run_ydl. munfold. simpl.
  destruct (ydl_download E url quality chat_id (files w)) as [fs [f|]]; simpl.
  - destruct (String.eqb quality "audio"); eexists _, _; repeat split.
  - eexists _, _; repeat split.
Qed.

Lemma handle_quality_selection_run (E : env) (chat_id : Z) (data : string)
    (w : world) (s : session) (q : string) :
  user_video_info w !! chat_id = Some s ->
  split "_" data !! 1%nat = Some q ->
  handle_quality_selection E chat_id data w
  = try_except (download_and_deliver E chat_id (s_url s) (s_title s) q)
      (report_error chat_id)
      (log_event (Render chat_id (MsgDownloading q)) w).
Proof.
  intros Hs Hq. unfold handle_quality_selection, session_active, get_session,
    py_index, edit_message_text.
  munfold. simpl. rewrite Hs. simpl. rewrite Hs, Hq. reflexivity.
Qed.

Lemma download_and_deliver_run (E : env) (chat_id : Z)
    (url : string) (title : option string) (q : string) (w w_dl : world) (p : string) (n : Z) :
  download_video_with_progress E url q chat_id w = (w_dl, Ok (Some p)) ->
  p <> "" ->
  files w_dl !! p = Some n ->
  download_and_deliver E chat_id url title q w
  = (compress_if_needed E chat_id p (size_mb_of n)
     ≫= deliver E chat_id title q) w_dl.
Proof.
  intros Hdl Hp Hn. unfold download_and_deliver.
  rewrite (bind_run _ _ _ _ _ Hdl).
  unfold download_missing, os_path_exists, getsize_mb, os_path_getsize.
  apply String.eqb_neq in Hp. rewrite Hp.
  munfold. simpl. rewrite Hn. simpl. rewrite Hn. reflexivity.
Qed.

Lemma download_and_deliver_failed (E : env) (chat_id : Z)
    (url : string) (title : option string) (q : string) (w w_dl : world) (file_path : option string) :
  download_video_with_progress E url q chat_id w = (w_dl, Ok file_path) ->
  match file_path with
  | None => True
  | Some p => p = "" \/ files w_dl !! p = None
  end ->
  download_and_deliver E chat_id url title q w
  = (log_event (Render chat_id MsgDownloadFailed) w_dl, Ok tt).
Proof.
  intros Hdl Hmiss. unfold download_and_deliver.
  rewrite (bind_run _ _ _ _ _ Hdl).
  unfold download_missing, os_path_exists, edit_message_text.
  destruct file_path as [p|]; [|reflexivity].
  destruct (String.eqb p "") eqn:Hp; [reflexivity|].
  destruct Hmiss as [->|Hnone]; [discriminate|].
  munfold. simpl. rewrite Hnone. simpl. reflexivity.
Qed.

(** *** The compressed path differs from the original *)

Lemma append_empty_r (s : string) : s +:+ "" = s.
Proof.
  induction s as [|c s IH]; [reflexivity|].
  change (String c (s +:+ "") = String c s). f_equal. exact IH.
Qed.

Lemma append_inj_l (pre a b : string) : pre +:+ a = pre +:+ b -> a = b.
Proof. apply String.app_inj. Qed.

Lemma before_last_dot_Some (s pre : string) :
  before_last_dot s = Some pre -> exists ext, s = pre +:+ String "." ext.
Proof.
  revert pre. induction s as [|c s IH]; simpl; intros pre H; [discriminate|].
  destruct (before_last_dot s) as [p|].
  - injection H as <-. destruct (IH p eq_refl) as [ext ->].
    exists ext. reflexivity.
  - destruct (Ascii.eqb c ".") eqn:Hc; [|discriminate].
    injection H as <-. apply Ascii.eqb_eq in Hc as ->.
    exists s. reflexivity.
Qed.

Lemma compressed_path_ne (file_path : string) :
  compressed_path_of file_path <> file_path.
Proof.
  unfold compressed_path_of, rsplit_dot_0. intros Heq.
  destruct (before_last_dot file_path) as [pre|] eqn:Hdot.
  - destruct (before_last_dot_Some _ _ Hdot) as [ext Hext].
    rewrite Hext in Heq. apply append_inj_l in Heq. discriminate.
  - rewrite <- (append_empty_r file_path) in Heq at 2.
    apply append_inj_l in Heq. discriminate.
Qed.

(** *** The compression block *)

Section CompressionBlock.
Variables (E : env) (chat_id : Z) (p : string) (sz : Q).
Variables (w w_m : world) (b : bool) (s : session) (n : Z).

Let cp := compressed_path_of p.
Let target := Config.TARGET_COMPRESSED_SIZE_MB.

Lemma compress_if_needed_small :
  Qgtb sz limit_mb = false ->
  compress_if_needed E chat_id p sz w = (w, Ok (Some (p, sz))).
Proof. intros Hsz. unfold compress_if_needed. rewrite Hsz. reflexivity. Qed.

Hypothesis Hlarge : Qgtb sz limit_mb = true.
Hypothesis Hcompress :
  compress_video E p cp target
    (log_event (Render chat_id (MsgCompressing sz target)) w)
  = (w_m, Ok b).
Hypothesis Hfile : files w !! p = Some n.
Hypothesis Hsession : user_video_info w !! chat_id = Some s.

Lemma compress_keeps_original : files w_m !! p = Some n.
Proof.
  destruct (compress_video_frame E p cp target
              (log_event (Render chat_id (MsgCompressing sz target)) w))
    as (w' & b' & Hrun & _ & Hfiles & _).
  rewrite Hcompress in Hrun. injection Hrun as <- <-.
  rewrite Hfiles; [exact Hfile|].
  intros Heq. symmetry in Heq. exact (compressed_path_ne p Heq).
Qed.

Lemma compress_keeps_session : user_video_info w_m !! chat_id = Some s.
Proof.
  destruct (compress_video_frame E p cp target
              (log_event (Render chat_id (MsgCompressing sz target)) w))
    as (w' & b' & Hrun & Hsess & _).
  rewrite Hcompress in Hrun. injection Hrun as <- <-.
  rewrite Hsess. exact Hsession.
Qed.

(** The failure branch: the text holds the path, and the cleanup comes
    after it. *)
Lemma compress_if_needed_failed :
  b && bool_decide (is_Some (files w_m !! cp)) = false ->
  compress_if_needed E chat_id p sz w
  = if telegram_parses E (MsgCompressionFailed sz p)
    then (cleaned chat_id p
            (log_event (Render chat_id (MsgCompressionFailed sz p)) w_m),
          Ok None)
    else (w_m, Raise BadRequest).
Proof.
  intros Hfail. unfold compress_if_needed. rewrite Hlarge.
  unfold edit_message_text at 1. munfold. simpl.
  fold cp target. rewrite Hcompress. simpl.
  pose proof compress_keeps_original as Hp.
  pose proof compress_keeps_session as Hs.
  unfold os_path_exists, os_remove, del_session, send_markdown.
  munfold.
  destruct b; simpl in *.
  - rewrite Hfail. simpl.
    destruct (telegram_parses E (MsgCompressionFailed sz p)); simpl;
      [|reflexivity].
    rewrite Hp. simpl. rewrite Hs. reflexivity.
  - destruct (telegram_parses E (MsgCompressionFailed sz p)); simpl;
      [|reflexivity].
    rewrite Hp. simpl. rewrite Hs. reflexivity.
Qed.

Variable m : Z.
Hypothesis Hsuccess : b = true.
Hypothesis Houtput : files w_m !! cp = Some m.

Lemma compress_if_needed_adopted :
  Qgtb (size_mb_of m) limit_mb = false ->
  compress_if_needed E chat_id p sz w
  = (set_files (delete p (files w_m)) w_m, Ok (Some (cp, size_mb_of m))).
Proof.
  intros Hfits. unfold compress_if_needed. rewrite Hlarge.
  unfold edit_message_text at 1. munfold. simpl.
  fold cp target. rewrite Hcompress, Hsuccess. simpl.
  pose proof compress_keeps_original as Hp.
  unfold os_path_exists, os_remove, getsize_mb, os_path_getsize.
  munfold. simpl. rewrite Houtput. simpl. rewrite Houtput. simpl.
  rewrite Hp. simpl. rewrite Hfits. reflexivity.
Qed.

(** The compressed file is still over the ceiling: the original is
    already removed when the text, which holds the path, is sent; the
    rest of the cleanup comes after it. *)
Lemma compress_if_needed_still_too_large :
  Qgtb (size_mb_of m) limit_mb = true ->
  compress_if_needed E chat_id p sz w
  = if telegram_parses E (MsgStillTooLarge (size_mb_of m) cp)
    then (cleaned chat_id cp
            (log_event (Render chat_id (MsgStillTooLarge (size_mb_of m) cp))
               (set_files (delete p (files w_m)) w_m)),
          Ok None)
    else (set_files (delete p (files w_m)) w_m, Raise BadRequest).
Proof.
  intros Hbig. unfold compress_if_needed. rewrite Hlarge.
  unfold edit_message_text at 1. munfold. simpl.
  fold cp target. rewrite Hcompress, Hsuccess. simpl.
  pose proof compress_keeps_original as Hp.
  pose proof compress_keeps_session as Hs.
  unfold os_path_exists, os_remove, getsize_mb, os_path_getsize,
    del_session, send_markdown.
  munfold. simpl. rewrite Houtput. simpl. rewrite Houtput. simpl.
  rewrite Hp. simpl. rewrite Hbig. simpl. fold cp.
  destruct (telegram_parses E (MsgStillTooLarge (size_mb_of m) cp)); simpl;
    [|reflexivity].
  rewrite lookup_delete_ne
    by (intros Heq; exact (compressed_path_ne p (eq_sym Heq))).
  fold cp. rewrite Houtput. simpl. rewrite Hs. reflexivity.
Qed.
End CompressionBlock.

(** *** Upload and final cleanup *)

Lemma upload_and_cleanup_run (E : env) (chat_id : Z) (title : option string) (q p : string)
    (sz : Q) (w : world) (n : Z) (s : session) :
  files w !! p = Some n ->
  user_video_info w !! chat_id = Some s ->
  upload_and_cleanup E chat_id title q p sz w
  = let w1 := log_event (send_event q chat_id p)
                (log_event (Render chat_id (MsgUploading sz)) w) in
    if telegram_send E chat_id p (files w)
    then (cleaned chat_id p (log_event (Render chat_id (MsgSuccess sz q)) w1),
          Ok tt)
    else (w1, Raise OtherError).
Proof.
  intros Hp Hs.
  unfold upload_and_cleanup, open_rb, send_audio, send_video, run_send,
    os_path_getsize, os_remove, del_session, edit_message_text, send_event.
  munfold.
  destruct (String.eqb q "audio"); simpl; rewrite Hp; simpl;
    destruct (telegram_send E chat_id p (files w)); simpl;
    rewrite ?Hp; simpl; rewrite ?Hs; reflexivity.
Qed.

Lemma over_limit_bytes (n : Z) :
  Qgtb (size_mb_of n) limit_mb = true <-> 50 * (1024 * 1024) < n.
Proof.
  unfold Qgtb. rewrite negb_true_iff, <- not_true_iff_false, Qle_bool_iff.
  unfold size_mb_of, limit_mb, Config.TELEGRAM_FILE_LIMIT_MB, Qle.
  simpl. lia.
Qed.

(** ** handle_quality_selection without a session *)

(** C8. A selection from a requester with no session renders "Session
    expired" and nothing else happens: no download is attempted, and the
    session dictionary and the folder are as before. *)
Theorem selection_without_session (E : env) (chat_id : Z) (data : string)
    (w : world) :
  user_video_info w !! chat_id = None ->
  exists w',
    handle_quality_selection E chat_id data w = (w', Ok tt)
    /\ new_events w w' = [Render chat_id MsgSessionExpired]
    /\ count_events is_download (new_events w w') = O
    /\ user_video_info w' = user_video_info w
    /\ files w' = files w.
Proof.
  intros Hnone.
  exists (log_event (Render chat_id MsgSessionExpired) w).
  assert (Hev : new_events w (log_event (Render chat_id MsgSessionExpired) w)
                = [Render chat_id MsgSessionExpired]).
  { unfold new_events. simpl. apply drop_app_length. }
  rewrite Hev. repeat split.
  unfold handle_quality_selection, session_active, edit_message_text.
  munfold. simpl. rewrite Hnone. reflexivity.
Qed.

(** ** After a successful download *)

Section Downloaded.
Variables (E : env) (chat_id : Z) (data : string) (w w_dl : world).
Variables (s : session) (q p : string) (n : Z).

(** The requester has a session, the selection names quality [q], and
    the download left file [p] of [n] bytes in the folder. *)
Hypothesis Hsession : user_video_info w !! chat_id = Some s.
Hypothesis Hquality : split "_" data !! 1%nat = Some q.
Hypothesis Hdownload :
  download_video_with_progress E (s_url s) q chat_id
    (log_event (Render chat_id (MsgDownloading q)) w)
  = (w_dl, Ok (Some p)).
Hypothesis Hname : p <> "".
Hypothesis Hfile : files w_dl !! p = Some n.

Let cp := compressed_path_of p.
Let target := Config.TARGET_COMPRESSED_SIZE_MB.
Let w_c := log_event (Render chat_id (MsgCompressing (size_mb_of n) target))
             w_dl.

Lemma downloaded_session : user_video_info w_dl !! chat_id = Some s.
Proof.
  destruct (download_video_with_progress_run E (s_url s) q chat_id
              (log_event (Render chat_id (MsgDownloading q)) w))
    as (w1 & fp & Hrun & Hsess & _).
  rewrite Hdownload in Hrun. injection Hrun as <- _.
  rewrite Hsess. exact Hsession.
Qed.

Lemma downloaded_trace :
  trace w_dl
  = trace w ++ [Render chat_id (MsgDownloading q);
                Download (s_url s) q chat_id].
Proof.
  destruct (download_video_with_progress_run E (s_url s) q chat_id
              (log_event (Render chat_id (MsgDownloading q)) w))
    as (w1 & fp & Hrun & _ & Htrace).
  rewrite Hdownload in Hrun. injection Hrun as <- _.
  rewrite Htrace. simpl. rewrite <- app_assoc. reflexivity.
Qed.

Lemma handle_after_download :
  handle_quality_selection E chat_id data w
  = try_except
      (compress_if_needed E chat_id p (size_mb_of n)
       ≫= deliver E chat_id (s_title s) q)
      (report_error chat_id) w_dl.
Proof.
  rewrite (handle_quality_selection_run E chat_id data w s q Hsession Hquality).
  unfold try_except.
  rewrite (download_and_deliver_run E chat_id (s_url s) (s_title s) q _ w_dl
             p n Hdownload Hname Hfile).
  reflexivity.
Qed.

(** The run from the upload on, started in [w_u] with file [path]. *)
Lemma upload_outcome (w_u : world) (path : string) (sz : Q) (m : Z) :
  files w_u !! path = Some m ->
  user_video_info w_u !! chat_id = Some s ->
  exists w' evs,
    try_except (upload_and_cleanup E chat_id (s_title s) q path sz)
      (report_error chat_id) w_u = (w', Ok tt)
    /\ trace w' = trace w_u ++ Render chat_id (MsgUploading sz)
                               :: send_event q chat_id path :: evs
    /\ count_events is_probe evs = O
    /\ count_events is_encode evs = O.
Proof.
  intros Hpath Hsess. unfold try_except.
  rewrite (upload_and_cleanup_run E chat_id (s_title s) q path sz w_u m s
             Hpath Hsess).
  cbv zeta. destruct (telegram_send E chat_id path (files w_u)).
  - eexists _, [Render chat_id (MsgSuccess sz q)].
    split; [reflexivity|]. simpl. rewrite <- !app_assoc. repeat split.
  - eexists _, [Render chat_id (MsgError OtherError)].
    split; [reflexivity|]. simpl. rewrite <- !app_assoc. repeat split.
Qed.

Lemma handle_small :
  Qgtb (size_mb_of n) limit_mb = false ->
  handle_quality_selection E chat_id data w
  = try_except (upload_and_cleanup E chat_id (s_title s) q p (size_mb_of n))
      (report_error chat_id) w_dl.
Proof.
  intros Hsize. rewrite handle_after_download. unfold try_except.
  rewrite (bind_run _ _ _ _ _
             (compress_if_needed_small E chat_id p (size_mb_of n) w_dl
                Hsize)).
  reflexivity.
Qed.

Section Compressing.
Variables (w_m : world) (b : bool).

(** The file is over the ceiling and [compress_video] answered [b]. *)
Hypothesis Hlarge : Qgtb (size_mb_of n) limit_mb = true.
Hypothesis Hcompress : compress_video E p cp target w_c = (w_m, Ok b).

Let w_u := set_files (delete p (files w_m)) w_m.

Lemma compressed_trace :
  exists evs,
    trace w_m = trace w_c ++ Probe p :: evs
    /\ count_events is_send evs = O.
Proof.
  destruct (compress_video_frame E p cp target w_c)
    as (w1 & b1 & Hrun & _ & _ & _ & evs & Htrace & _ & _ & Hsend & _).
  rewrite Hcompress in Hrun. injection Hrun as <- <-.
  exists evs. split; assumption.
Qed.

Lemma handle_compression_failed :
  b && bool_decide (is_Some (files w_m !! cp)) = false ->
  handle_quality_selection E chat_id data w
  = if telegram_parses E (MsgCompressionFailed (size_mb_of n) p)
    then (cleaned chat_id p
            (log_event
               (Render chat_id (MsgCompressionFailed (size_mb_of n) p))
               w_m),
          Ok tt)
    else (log_event (Render chat_id (MsgError BadRequest)) w_m, Ok tt).
Proof.
  intros Hfail. rewrite handle_after_download.
  unfold try_except, mbind, M_bind.
  rewrite (compress_if_needed_failed E chat_id p (size_mb_of n)
             w_dl w_m b s n Hlarge Hcompress Hfile downloaded_session
             Hfail).
  destruct (telegram_parses E (MsgCompressionFailed (size_mb_of n) p));
    reflexivity.
Qed.

Section Adopted.
Variable m : Z.

(** [compress_video] answered [True] and left an output of [m] bytes. *)
Hypothesis Hsuccess : b = true.
Hypothesis Houtput : files w_m !! cp = Some m.

Lemma handle_still_too_large :
  Qgtb (size_mb_of m) limit_mb = true ->
  handle_quality_selection E chat_id data w
  = if telegram_parses E (MsgStillTooLarge (size_mb_of m) cp)
    then (cleaned chat_id cp
            (log_event (Render chat_id (MsgStillTooLarge (size_mb_of m) cp))
               w_u),
          Ok tt)
    else (log_event (Render chat_id (MsgError BadRequest)) w_u, Ok tt).
Proof.
  intros Hbig. rewrite handle_after_download.
  unfold try_except, mbind, M_bind.
  rewrite (compress_if_needed_still_too_large E chat_id p
             (size_mb_of n) w_dl w_m b s n Hlarge Hcompress Hfile
             downloaded_session m Hsuccess Houtput Hbig).
  unfold cp.
  destruct (telegram_parses E
              (MsgStillTooLarge (size_mb_of m) (compressed_path_of p)));
    reflexivity.
Qed.

Lemma handle_adopted :
  Qgtb (size_mb_of m) limit_mb = false ->
  handle_quality_selection E chat_id data w
  = try_except
      (upload_and_cleanup E chat_id (s_title s) q cp (size_mb_of m))
      (report_error chat_id) w_u.
Proof.
  intros Hfits. rewrite handle_after_download. unfold try_except.
  rewrite (bind_run _ _ _ _ _
             (compress_if_needed_adopted E chat_id p (size_mb_of n)
                w_dl w_m b n Hlarge Hcompress Hfile m Hsuccess Houtput
                Hfits)).
  reflexivity.
Qed.

Lemma adopted_file : files w_u !! p = None /\ files w_u !! cp = Some m.
Proof.
  unfold w_u. simpl. split; [apply lookup_delete_eq|].
  rewrite lookup_delete_ne; [exact Houtput|].
  intros Heq. exact (compressed_path_ne p (eq_sym Heq)).
Qed.

Lemma adopted_session : user_video_info w_u !! chat_id = Some s.
Proof.
  unfold w_u. simpl.
  exact (compress_keeps_session E chat_id p (size_mb_of n) w_dl w_m b s
           Hcompress downloaded_session).
Qed.

Lemma adopted_trace :
  exists evs,
    trace w_u
    = trace w ++ [Render chat_id (MsgDownloading q);
                  Download (s_url s) q chat_id;
                  Render chat_id (MsgCompressing (size_mb_of n) target);
                  Probe p] ++ evs
    /\ count_events is_send evs = O.
Proof.
  destruct compressed_trace as (evs & Htrace & Hsend).
  exists evs. split; [|exact Hsend].
  unfold w_u. simpl. rewrite Htrace. unfold w_c. simpl.
  rewrite downloaded_trace. rewrite <- !app_assoc. reflexivity.
Qed.

(** C5. The compression succeeded and the compressed file is still over
    the 50 MB ceiling; the original is gone from the folder and nothing
    is uploaded. When Telegram takes the "Still Too Large" text, the run
    ends as the claim says: the text is rendered, the compressed file is
    removed and the requester has no session. The text holds the path of
    the compressed file, and the removal and the [del] come after it in
    the [try]: when Telegram refuses the text, the handler renders the
    error instead, the compressed file stays in the folder and the
    requester keeps the session. *)
Theorem still_too_large :
  Qgtb (size_mb_of m) limit_mb = true ->
  let text := MsgStillTooLarge (size_mb_of m) (compressed_path_of p) in
  exists w',
    handle_quality_selection E chat_id data w = (w', Ok tt)
    /\ files w' !! p = None
    /\ count_events is_send (new_events w w') = O
    /\ if telegram_parses E text
       then last (rendered (trace w')) = Some text
            /\ files w' !! compressed_path_of p = None
            /\ user_video_info w' !! chat_id = None
       else last (rendered (trace w')) = Some (MsgError BadRequest)
            /\ files w' !! compressed_path_of p = Some m
            /\ user_video_info w' !! chat_id = Some s.
Proof.
  intros Hbig text. rewrite (handle_still_too_large Hbig).
  destruct adopted_file as [Hgone Hkept].
  destruct adopted_trace as (evs & Htrace & Hsend).
  subst text. unfold cp. cbv zeta.
  destruct (telegram_parses E
              (MsgStillTooLarge (size_mb_of m) (compressed_path_of p))).
  - eexists. split; [reflexivity|].
    split.
    { simpl. rewrite lookup_delete_ne by exact (compressed_path_ne p).
      apply lookup_delete_eq. }
    split.
    { erewrite new_events_app.
      2:{ unfold w_u in Htrace. simpl in Htrace. simpl. rewrite Htrace.
          rewrite <- app_assoc. reflexivity. }
      rewrite !count_events_app. simpl. rewrite Hsend. reflexivity. }
    split; [simpl; apply last_rendered_snoc|].
    split; simpl; apply lookup_delete_eq.
  - eexists. split; [reflexivity|].
    split; [exact Hgone|].
    split.
    { erewrite new_events_app.
      2:{ unfold w_u in Htrace. simpl in Htrace. simpl. rewrite Htrace.
          rewrite <- app_assoc. reflexivity. }
      rewrite !count_events_app. simpl. rewrite Hsend. reflexivity. }
    split; [simpl; apply last_rendered_snoc|].
    split; [exact Hkept | exact adopted_session].
Qed.
End Adopted.

(** C6. In the compression step. When [compress_video] answers [False]
    or its output file is missing, the "Compression Failed" text, which
    holds the path of the original, is sent first: when Telegram takes
    it, the original is deleted and the session removed, as the claim
    says; when Telegram refuses it, the handler renders the error
    instead and the original and the session stay. When [compress_video]
    answers [True] and the output is there, the original is deleted and
    the compressed file with its own size takes its place, nothing having
    been uploaded yet, and the run goes on with the size check of the
    compressed file: over the ceiling it ends as in C5, else the upload
    starts from a folder without the original. *)
Theorem compressing_step :
  (b && bool_decide (is_Some (files w_m !! compressed_path_of p)) = false ->
   let text := MsgCompressionFailed (size_mb_of n) p in
   exists w',
     handle_quality_selection E chat_id data w = (w', Ok tt)
     /\ count_events is_send (new_events w w') = O
     /\ if telegram_parses E text
        then last (rendered (trace w')) = Some text
             /\ files w' !! p = None
             /\ user_video_info w' !! chat_id = None
        else last (rendered (trace w')) = Some (MsgError BadRequest)
             /\ files w' !! p = Some n
             /\ user_video_info w' !! chat_id = Some s)
  /\ (forall m,
        b = true ->
        files w_m !! compressed_path_of p = Some m ->
        let w_u := set_files (delete p (files w_m)) w_m in
        let text := MsgStillTooLarge (size_mb_of m) (compressed_path_of p) in
        files w_u !! p = None
        /\ files w_u !! compressed_path_of p = Some m
        /\ count_events is_send (new_events w w_u) = O
        /\ handle_quality_selection E chat_id data w
           = if Qgtb (size_mb_of m) limit_mb
             then if telegram_parses E text
                  then (cleaned chat_id (compressed_path_of p)
                          (log_event (Render chat_id text) w_u),
                        Ok tt)
                  else (log_event (Render chat_id (MsgError BadRequest)) w_u,
                        Ok tt)
             else try_except
                    (upload_and_cleanup E chat_id (s_title s) q
                       (compressed_path_of p) (size_mb_of m))
                    (report_error chat_id) w_u).
Proof.
  split.
  - intros Hfail text. rewrite (handle_compression_failed Hfail).
    destruct compressed_trace as (evs & Htrace & Hsend).
    assert (Hsent : forall w' tail,
      trace w' = trace w_m ++ [Render chat_id tail] ->
      count_events is_send (new_events w w') = O).
    { intros w' tail Htr. erewrite new_events_app.
      2:{ rewrite Htr, Htrace. unfold w_c. simpl.
          rewrite downloaded_trace, <- !app_assoc. reflexivity. }
      rewrite !count_events_app. simpl. rewrite Hsend. reflexivity. }
    subst text. cbv zeta.
    destruct (telegram_parses E (MsgCompressionFailed (size_mb_of n) p)).
    + eexists. split; [reflexivity|].
      split; [eapply Hsent; reflexivity|].
      split; [simpl; apply last_rendered_snoc|].
      split; simpl; apply lookup_delete_eq.
    + eexists. split; [reflexivity|].
      split; [eapply Hsent; reflexivity|].
      split; [simpl; apply last_rendered_snoc|].
      split.
      * exact (compress_keeps_original E chat_id p (size_mb_of n) w_dl w_m b
                 n Hcompress Hfile).
      * exact (compress_keeps_session E chat_id p (size_mb_of n) w_dl w_m b
                 s Hcompress downloaded_session).
  - intros m Hb Hm. cbv zeta.
    destruct (adopted_file m Hm) as [Hgone Hkept].
    split; [exact Hgone|]. split; [exact Hkept|].
    split.
    + destruct adopted_trace as (evs & Htrace & Hsend).
      erewrite new_events_app by exact Htrace.
      rewrite count_events_app. simpl. exact Hsend.
    + destruct (Qgtb (size_mb_of m) limit_mb) eqn:Hbig.
      * exact (handle_still_too_large m Hb Hm Hbig).
      * exact (handle_adopted m Hb Hm Hbig).
Qed.
End Compressing.

(** Whatever the collaborators answer, the run ends without an exception
    and only adds to the trace. *)
Lemma handle_downloaded_total :
  exists w' evs,
    handle_quality_selection E chat_id data w = (w', Ok tt)
    /\ trace w' = trace w_dl ++ evs.
Proof.
  destruct (Qgtb (size_mb_of n) limit_mb) eqn:Hsize.
  - destruct (compress_video_frame E p cp target w_c)
      as (w_m & b & Hrun & _).
    destruct (compressed_trace w_m b Hrun) as (evs0 & Htrace & _).
    assert (Htrace_m :
      trace w_m = trace w_dl
                  ++ Render chat_id (MsgCompressing (size_mb_of n) target)
                     :: Probe p :: evs0).
    { rewrite Htrace. unfold w_c. simpl. rewrite <- app_assoc. reflexivity. }
    destruct (b && bool_decide (is_Some (files w_m !! cp))) eqn:Hok.
    + apply andb_true_iff in Hok as [Hb Hex].
      apply bool_decide_eq_true in Hex as [m Hm].
      destruct (Qgtb (size_mb_of m) limit_mb) eqn:Hbig.
      * rewrite (handle_still_too_large w_m b Hsize Hrun m Hb Hm Hbig).
        destruct (telegram_parses E _); eexists _, _;
          (split; [reflexivity|]); simpl;
          rewrite Htrace_m, <- app_assoc; reflexivity.
      * rewrite (handle_adopted w_m b Hsize Hrun m Hb Hm Hbig).
        destruct (adopted_file w_m m Hm) as [_ Hu].
        destruct (upload_outcome _ cp (size_mb_of m) m Hu
                    (adopted_session w_m b Hrun))
          as (w2 & evs & -> & Htr & _).
        eexists _, _. split; [reflexivity|].
        rewrite Htr. simpl. rewrite Htrace_m, <- app_assoc. reflexivity.
    + rewrite (handle_compression_failed w_m b Hsize Hrun Hok).
      destruct (telegram_parses E _); eexists _, _;
        (split; [reflexivity|]); simpl;
        rewrite Htrace_m, <- app_assoc; reflexivity.
  - rewrite (handle_small Hsize).
    destruct (upload_outcome w_dl p (size_mb_of n) n Hfile
                downloaded_session) as (w2 & evs & -> & Htr & _).
    eexists _, _. split; [reflexivity|]. exact Htr.
Qed.

(** C3. After a successful download the transcoder is called exactly
    when the file is larger than the 50 MB ceiling: a file within the
    ceiling goes to the upload with no probe and no encoder run, a larger
    one is announced and passed to [compress_video] with the 45 MB
    target. *)
Theorem size_check_routing :
  let w' := (handle_quality_selection E chat_id data w).1 in
  (Qgtb (size_mb_of n) limit_mb = true <-> 50 * (1024 * 1024) < n)
  /\ if Qgtb (size_mb_of n) limit_mb
     then exists w_m b evs0 evs1,
            compress_video E p (compressed_path_of p) 45
              (log_event (Render chat_id (MsgCompressing (size_mb_of n) 45))
                 w_dl)
            = (w_m, Ok b)
            /\ trace w_m
               = trace w_dl
                 ++ Render chat_id (MsgCompressing (size_mb_of n) 45)
                    :: Probe p :: evs0
            /\ trace w' = trace w_m ++ evs1
     else exists evs,
            trace w'
            = trace w_dl ++ Render chat_id (MsgUploading (size_mb_of n))
                           :: send_event q chat_id p :: evs
            /\ count_events is_probe evs = O
            /\ count_events is_encode evs = O.
Proof.
  intros w'. split; [apply over_limit_bytes|]. subst w'.
  destruct (Qgtb (size_mb_of n) limit_mb) eqn:Hsize.
  - destruct (compress_video_frame E p cp target w_c)
      as (w_m & b & Hrun & _).
    destruct (compressed_trace w_m b Hrun) as (evs0 & Htrace & _).
    exists w_m, b, evs0.
    assert (Htrace_m :
      trace w_m = trace w_dl
                  ++ Render chat_id (MsgCompressing (size_mb_of n) 45)
                     :: Probe p :: evs0).
    { rewrite Htrace. unfold w_c. simpl. rewrite <- app_assoc. reflexivity. }
    destruct (b && bool_decide (is_Some (files w_m !! cp))) eqn:Hok.
    + apply andb_true_iff in Hok as [Hb Hex].
      apply bool_decide_eq_true in Hex as [m Hm].
      destruct (Qgtb (size_mb_of m) limit_mb) eqn:Hbig.
      * rewrite (handle_still_too_large w_m b Hsize Hrun m Hb Hm Hbig).
        destruct (telegram_parses E _); eexists;
          (split; [exact Hrun|]); (split; [exact Htrace_m|]);
          simpl; reflexivity.
      * rewrite (handle_adopted w_m b Hsize Hrun m Hb Hm Hbig).
        destruct (adopted_file w_m m Hm) as [_ Hu].
        destruct (upload_outcome _ cp (size_mb_of m) m Hu
                    (adopted_session w_m b Hrun))
          as (w2 & evs & -> & Htr & _).
        eexists. split; [exact Hrun|]. split; [exact Htrace_m|].
        simpl. rewrite Htr. reflexivity.
    + rewrite (handle_compression_failed w_m b Hsize Hrun Hok).
      destruct (telegram_parses E _); eexists;
        (split; [exact Hrun|]); (split; [exact Htrace_m|]);
        simpl; reflexivity.
  - rewrite (handle_small Hsize).
    destruct (upload_outcome w_dl p (size_mb_of n) n Hfile
                downloaded_session) as (w2 & evs & -> & Htr & Hpr & Hen).
    exists evs. simpl. repeat split; assumption.
Qed.
End Downloaded.

(** ** Runs on the sample collaborators *)

Lemma clip_download (size : Z) (encoded : run_outcome * option Z) :
  download_video_with_progress (clip_env size encoded)
    (s_url sample_session) "720" 7
    (log_event (Render 7 (MsgDownloading "720")) sample_world)
  = (clip_downloaded size, Ok (Some "7_clip.mp4")).
Proof. reflexivity. Qed.

Lemma clip_name : "7_clip.mp4" <> "".
Proof. discriminate. Qed.

Lemma selection_without_session_witness :
  exists w',
    handle_quality_selection (clip_env (mega 49) (Exited 0, None)) 8
      "quality_720" sample_world = (w', Ok tt)
    /\ new_events sample_world w' = [Render 8 MsgSessionExpired]
    /\ count_events is_download (new_events sample_world w') = O
    /\ user_video_info w' = user_video_info sample_world
    /\ files w' = files sample_world.
Proof.
  apply (selection_without_session (clip_env (mega 49) (Exited 0, None)) 8
           "quality_720" sample_world).
  reflexivity.
Defined.

(** A 49 MB download goes straight to the upload; a 51 MB download is
    handed to [compress_video] with the 45 MB target. *)
Lemma size_check_routing_witness :
  (exists evs,
     trace (handle_quality_selection (clip_env (mega 49) (Exited 0, None)) 7
              "quality_720" sample_world).1
     = trace (clip_downloaded (mega 49))
       ++ Render 7 (MsgUploading (size_mb_of (mega 49)))
          :: SendVideo 7 "7_clip.mp4" :: evs
     /\ count_events is_probe evs = O
     /\ count_events is_encode evs = O)
  /\ (exists w_m b evs0 evs1,
        compress_video (clip_env (mega 51) (Exited 0, Some (mega 40)))
          "7_clip.mp4" "7_clip_compressed.mp4" 45
          (log_event (Render 7 (MsgCompressing (size_mb_of (mega 51)) 45))
             (clip_downloaded (mega 51)))
        = (w_m, Ok b)
        /\ trace w_m
           = trace (clip_downloaded (mega 51))
             ++ Render 7 (MsgCompressing (size_mb_of (mega 51)) 45)
                :: Probe "7_clip.mp4" :: evs0
        /\ trace (handle_quality_selection
                    (clip_env (mega 51) (Exited 0, Some (mega 40))) 7
                    "quality_720" sample_world).1
           = trace w_m ++ evs1).
Proof.
  split.
  - exact (proj2 (size_check_routing (clip_env (mega 49) (Exited 0, None)) 7
             "quality_720" sample_world (clip_downloaded (mega 49))
             sample_session "720" "7_clip.mp4" (mega 49)
             eq_refl eq_refl (clip_download _ _) clip_name eq_refl)).
  - exact (proj2 (size_check_routing
             (clip_env (mega 51) (Exited 0, Some (mega 40))) 7
             "quality_720" sample_world (clip_downloaded (mega 51))
             sample_session "720" "7_clip.mp4" (mega 51)
             eq_refl eq_refl (clip_download _ _) clip_name eq_refl)).
Defined.

Lemma backtick_download (size : Z) (encoded : run_outcome * option Z) :
  download_video_with_progress (backtick_env size encoded)
    (s_url backtick_session) "720" 7
    (log_event (Render 7 (MsgDownloading "720")) backtick_world)
  = (backtick_downloaded size, Ok (Some "7_a`b.mp4")).
Proof. reflexivity. Qed.

Lemma backtick_name : "7_a`b.mp4" <> "".
Proof. discriminate. Qed.

(** An 80 MB download compressed to 52 MB. For the title [clip] the text
    is taken and the run ends clean. For the title [a`b] the path in the
    text holds one backtick, Telegram refuses the text, and the 52 MB file
    and the session of requester 7 stay. *)
Lemma still_too_large_witness :
  (exists w',
     handle_quality_selection (clip_env (mega 80) (Exited 0, Some (mega 52)))
       7 "quality_720" sample_world = (w', Ok tt)
     /\ files w' !! "7_clip.mp4" = None
     /\ count_events is_send (new_events sample_world w') = O
     /\ last (rendered (trace w'))
        = Some (MsgStillTooLarge (size_mb_of (mega 52))
                  "7_clip_compressed.mp4")
     /\ files w' !! "7_clip_compressed.mp4" = None
     /\ user_video_info w' !! 7 = None)
  /\ (exists w',
        handle_quality_selection
          (backtick_env (mega 80) (Exited 0, Some (mega 52)))
          7 "quality_720" backtick_world = (w', Ok tt)
        /\ files w' !! "7_a`b.mp4" = None
        /\ count_events is_send (new_events backtick_world w') = O
        /\ last (rendered (trace w')) = Some (MsgError BadRequest)
        /\ files w' !! "7_a`b_compressed.mp4" = Some (mega 52)
        /\ user_video_info w' !! 7 = Some backtick_session).
Proof.
  split.
  - pose (E := clip_env (mega 80) (Exited 0, Some (mega 52))).
    pose (w_c := log_event
                   (Render 7 (MsgCompressing (size_mb_of (mega 80)) 45))
                   (clip_downloaded (mega 80))).
    exact (still_too_large E 7 "quality_720" sample_world
             (clip_downloaded (mega 80)) sample_session "720" "7_clip.mp4"
             (mega 80) eq_refl eq_refl (clip_download _ _) clip_name eq_refl
             (compress_video E "7_clip.mp4" "7_clip_compressed.mp4" 45 w_c).1
             true eq_refl eq_refl (mega 52) eq_refl eq_refl eq_refl).
  - pose (E := backtick_env (mega 80) (Exited 0, Some (mega 52))).
    pose (w_c := log_event
                   (Render 7 (MsgCompressing (size_mb_of (mega 80)) 45))
                   (backtick_downloaded (mega 80))).
    exact (still_too_large E 7 "quality_720" backtick_world
             (backtick_downloaded (mega 80)) backtick_session "720"
             "7_a`b.mp4" (mega 80) eq_refl eq_refl (backtick_download _ _)
             backtick_name eq_refl
             (compress_video E "7_a`b.mp4" "7_a`b_compressed.mp4" 45 w_c).1
             true eq_refl eq_refl (mega 52) eq_refl eq_refl eq_refl).
Defined.

(** An encoder that exits with code 1 and writes nothing, for the title
    [clip] and for the title [a`b], whose "Compression Failed" text
    Telegram refuses; then one that exits with code 0 and writes 40 MB. *)
Lemma compressing_step_witness :
  (exists w',
     handle_quality_selection (clip_env (mega 80) (Exited 1, None)) 7
       "quality_720" sample_world = (w', Ok tt)
     /\ count_events is_send (new_events sample_world w') = O
     /\ last (rendered (trace w'))
        = Some (MsgCompressionFailed (size_mb_of (mega 80)) "7_clip.mp4")
     /\ files w' !! "7_clip.mp4" = None
     /\ user_video_info w' !! 7 = None)
  /\ (exists w',
        handle_quality_selection (backtick_env (mega 80) (Exited 1, None)) 7
          "quality_720" backtick_world = (w', Ok tt)
        /\ count_events is_send (new_events backtick_world w') = O
        /\ last (rendered (trace w')) = Some (MsgError BadRequest)
        /\ files w' !! "7_a`b.mp4" = Some (mega 80)
        /\ user_video_info w' !! 7 = Some backtick_session)
  /\ (let E := clip_env (mega 80) (Exited 0, Some (mega 40)) in
      let w_m :=
        (compress_video E "7_clip.mp4" "7_clip_compressed.mp4" 45
           (log_event (Render 7 (MsgCompressing (size_mb_of (mega 80)) 45))
              (clip_downloaded (mega 80)))).1 in
      let w_u := set_files (delete "7_clip.mp4" (files w_m)) w_m in
      files w_u !! "7_clip.mp4" = None
      /\ files w_u !! "7_clip_compressed.mp4" = Some (mega 40)
      /\ count_events is_send (new_events sample_world w_u) = O
      /\ handle_quality_selection E 7 "quality_720" sample_world
         = try_except
             (upload_and_cleanup E 7 (Some "clip") "720"
                "7_clip_compressed.mp4" (size_mb_of (mega 40)))
             (report_error 7) w_u).
Proof.
  split; [|split].
  - pose (E := clip_env (mega 80) (Exited 1, None)).
    pose (w_c := log_event
                   (Render 7 (MsgCompressing (size_mb_of (mega 80)) 45))
                   (clip_downloaded (mega 80))).
    exact (proj1 (compressing_step E 7 "quality_720" sample_world
             (clip_downloaded (mega 80)) sample_session "720" "7_clip.mp4"
             (mega 80) eq_refl eq_refl (clip_download _ _) clip_name eq_refl
             (compress_video E "7_clip.mp4" "7_clip_compressed.mp4" 45 w_c).1
             false eq_refl eq_refl) eq_refl).
  - pose (E := backtick_env (mega 80) (Exited 1, None)).
    pose (w_c := log_event
                   (Render 7 (MsgCompressing (size_mb_of (mega 80)) 45))
                   (backtick_downloaded (mega 80))).
    exact (proj1 (compressing_step E 7 "quality_720" backtick_world
             (backtick_downloaded (mega 80)) backtick_session "720"
             "7_a`b.mp4" (mega 80) eq_refl eq_refl (backtick_download _ _)
             backtick_name eq_refl
             (compress_video E "7_a`b.mp4" "7_a`b_compressed.mp4" 45 w_c).1
             false eq_refl eq_refl) eq_refl).
  - intros E w_m w_u.
    pose (w_c := log_event
                   (Render 7 (MsgCompressing (size_mb_of (mega 80)) 45))
                   (clip_downloaded (mega 80))).
    exact (proj2 (compressing_step E 7 "quality_720" sample_world
             (clip_downloaded (mega 80)) sample_session "720" "7_clip.mp4"
             (mega 80) eq_refl eq_refl (clip_download _ _) clip_name eq_refl
             w_m true eq_refl eq_refl) (mega 40) eq_refl eq_refl).
Defined.

(** ** A selection with a live session always reaches the download *)

Lemma selection_with_session_downloads (E : env) (chat_id : Z)
    (data : string) (w : world) (s : session) (q : string) :
  user_video_info w !! chat_id = Some s ->
  split "_" data !! 1%nat = Some q ->
  exists w' evs,
    handle_quality_selection E chat_id data w = (w', Ok tt)
    /\ new_events w w'
       = Render chat_id (MsgDownloading q)
         :: Download (s_url s) q chat_id :: evs.
Proof.
  intros Hs Hq.
  destruct (download_video_with_progress_run E (s_url s) q chat_id
              (log_event (Render chat_id (MsgDownloading q)) w))
    as (w_dl & fp & Hrun & Hsess & Htrace).
  assert (Hdl : trace w_dl = trace w ++ [Render chat_id (MsgDownloading q);
                                         Download (s_url s) q chat_id]).
  { rewrite Htrace. simpl. rewrite <- app_assoc. reflexivity. }
  assert (Hfailed :
    match fp with
    | None => True
    | Some p => p = "" \/ files w_dl !! p = None
    end ->
    exists w' evs,
      handle_quality_selection E chat_id data w = (w', Ok tt)
      /\ new_events w w'
         = Render chat_id (MsgDownloading q)
           :: Download (s_url s) q chat_id :: evs).
  { intros Hmiss.
    rewrite (handle_quality_selection_run E chat_id data w s q Hs Hq).
    unfold try_except.
    rewrite (download_and_deliver_failed E chat_id (s_url s) (s_title s) q
               _ w_dl fp Hrun Hmiss).
    eexists _, _. split; [reflexivity|].
    apply new_events_app. simpl. rewrite Hdl, <- app_assoc. reflexivity. }
  destruct fp as [p|]; [|apply Hfailed; exact I].
  destruct (decide (p = "")) as [->|Hname]; [apply Hfailed; left; reflexivity|].
  destruct (files w_dl !! p) as [n|] eqn:Hfile;
    [|apply Hfailed; right; reflexivity].
  destruct (handle_downloaded_total E chat_id data w w_dl s q p n
              Hs Hq Hrun Hname Hfile) as (w' & evs & Hh & Htr).
  exists w', evs. split; [exact Hh|].
  apply new_events_app. rewrite Htr, Hdl, <- app_assoc. reflexivity.
Qed.

(** ** handle_url without video formats *)

Lemma sorted_qualities_empty : sorted_qualities ∅ = [].
Proof. unfold sorted_qualities. rewrite map_to_list_empty. reflexivity. Qed.

Lemma build_keyboard_empty (formats : list format) :
  collect_video_formats formats = ∅ ->
  build_keyboard formats = Ok [AudioButton].
Proof.
  intros Hempty. unfold build_keyboard.
  rewrite Hempty, sorted_qualities_empty. reflexivity.
Qed.

(** C9. When the metadata arrive and no format gives a video variant,
    [handle_url] renders "No options found" in a world where the session is
    already stored, and leaves it stored; a later selection of the same
    requester finds the session and starts a download of its URL. *)
Theorem no_options_keeps_session (E : env) (chat_id : Z) (text : string)
    (w : world) (info : video_info) :
  contains "youtube.com" (strip text) || contains "youtu.be" (strip text)
  = true ->
  extract_info E (clean_youtube_url E (strip text)) = Some info ->
  collect_video_formats (default [] (info_formats info)) = ∅ ->
  exists w_s w1 sess,
    handle_url E chat_id text w = (w1, Ok tt)
    /\ w1 = log_event (Render chat_id MsgNoOptions) w_s
    /\ user_video_info w_s !! chat_id = Some sess
    /\ last (rendered (trace w1)) = Some MsgNoOptions
    /\ user_video_info w1 !! chat_id = Some sess
    /\ s_url sess = clean_youtube_url E (strip text)
    /\ forall data q,
         split "_" data !! 1%nat = Some q ->
         exists w2 evs,
           handle_quality_selection E chat_id data w1 = (w2, Ok tt)
           /\ new_events w1 w2
              = Render chat_id (MsgDownloading q)
                :: Download (s_url sess) q chat_id :: evs.
Proof.
  intros Hurl Hinfo Hempty.
  set (sess := {| s_url := clean_youtube_url E (strip text);
                  s_title := get_or (info_title info) "Unknown";
                  s_formats := default [] (info_formats info) |}).
  set (w_s := set_sessions (<[chat_id := sess]> (user_video_info w))
                (log_event (ExtractInfo (clean_youtube_url E (strip text)))
                   (log_event (Render chat_id MsgProcessing) w))).
  assert (Hstored : user_video_info w_s !! chat_id = Some sess)
    by apply lookup_insert_eq.
  exists w_s, (log_event (Render chat_id MsgNoOptions) w_s), sess.
  split.
  { unfold handle_url. apply orb_true_iff in Hurl.
    assert (Hguard : negb (contains "youtube.com" (strip text))
                     && negb (contains "youtu.be" (strip text)) = false).
    { destruct Hurl as [-> | ->]; [reflexivity | apply andb_false_r]. }
    rewrite Hguard.
    unfold reply_text, edit_text, get_video_info, put_session.
    munfold. simpl. rewrite Hinfo. simpl.
    rewrite (build_keyboard_empty _ Hempty). reflexivity. }
  split; [reflexivity|]. split; [exact Hstored|].
  split; [simpl; apply last_rendered_snoc|].
  split; [exact Hstored|]. split; [reflexivity|].
  intros data q Hq.
  exact (selection_with_session_downloads E chat_id data
           (log_event (Render chat_id MsgNoOptions) w_s) sess q Hstored Hq).
Qed.

Lemma no_options_keeps_session_witness :
  let E := sample_env None None None (Failed, None) true
             (Some {| info_title := Holds "clip";
                      info_duration := Holds (Int 300);
                      info_formats := Some [] |}) in
  exists w_s w1 sess,
    handle_url E 7 " https://youtu.be/abc " sample_world = (w1, Ok tt)
    /\ w1 = log_event (Render 7 MsgNoOptions) w_s
    /\ user_video_info w_s !! 7 = Some sess
    /\ last (rendered (trace w1)) = Some MsgNoOptions
    /\ user_video_info w1 !! 7 = Some sess
    /\ s_url sess = "https://youtu.be/abc"
    /\ forall data q,
         split "_" data !! 1%nat = Some q ->
         exists w2 evs,
           handle_quality_selection E 7 data w1 = (w2, Ok tt)
           /\ new_events w1 w2
              = Render 7 (MsgDownloading q)
                :: Download (s_url sess) q 7 :: evs.
Proof.
  intros E.
  exact (no_options_keeps_session E 7 " https://youtu.be/abc " sample_world
           _ eq_refl eq_refl eq_refl).
Defined.

(** ** Failures that leave the session behind *)

(** C1 fails on the code. (a) yt-dlp raises: "Download failed!" is
    rendered and requester 7 keeps the session. (b) yt-dlp leaves
    [7_clip.mp4] and names [7_clip.webm]: the same, and [7_clip.mp4] stays
    in the folder. (c) The encoder exits with code 1 after writing a partial
    output: "Compression Failed" is rendered, the session and the original
    are removed, and the partial [7_clip_compressed.mp4] stays. *)
Theorem failure_leaves_session :
  (exists w',
     handle_quality_selection
       (sample_env None None None (Failed, None) true None) 7 "quality_720"
       sample_world = (w', Ok tt)
     /\ last (rendered (trace w')) = Some MsgDownloadFailed
     /\ user_video_info w' !! 7 = Some sample_session)
  /\ (exists w',
        handle_quality_selection
          (sample_env (Some ("7_clip.mp4", mega 80)) (Some "7_clip.webm")
             None (Failed, None) true None) 7 "quality_720"
          sample_world = (w', Ok tt)
        /\ last (rendered (trace w')) = Some MsgDownloadFailed
        /\ user_video_info w' !! 7 = Some sample_session
        /\ files w' !! "7_clip.mp4" = Some (mega 80))
  /\ (exists w',
        handle_quality_selection
          (clip_env (mega 80) (Exited 1, Some (mega 3))) 7 "quality_720"
          sample_world = (w', Ok tt)
        /\ last (rendered (trace w'))
           = Some (MsgCompressionFailed (size_mb_of (mega 80)) "7_clip.mp4")
        /\ user_video_info w' !! 7 = None
        /\ files w' !! "7_clip_compressed.mp4" = Some (mega 3)).
Proof.
  split; [|split];
    match goal with
    | |- exists w', ?run = _ /\ _ => exists run.1
    end; repeat split; vm_compute; reflexivity.
Qed.

(** ** The catalog of handle_url *)

Lemma recorded_filesize_first_truthy (fmt : format) :
  recorded_filesize fmt = first_truthy (filesize fmt) (filesize_approx fmt).
Proof.
  unfold recorded_filesize, first_truthy, or_int, int_truthy.
  destruct (filesize fmt) as [x|], (filesize_approx fmt) as [y|]; simpl;
    try destruct (x =? 0) eqn:Hx; simpl;
    try destruct (y =? 0) eqn:Hy; simpl;
    rewrite ?Hx, ?Hy; simpl; try reflexivity.
  all: try (apply Z.eqb_eq in Hy; congruence).
  all: try (apply Z.eqb_eq in Hx; congruence).
Qed.

Lemma add_format_lookup (acc : gmap Z variant) (fmt : format) (h : Z) :
  add_format acc fmt !! h
  = match acc !! h with
    | Some v => Some v
    | None => if decide (qualifies h fmt) then Some (variant_of fmt) else None
    end.
Proof.
  unfold add_format.
  destruct (has_video_and_audio fmt) eqn:Hcodecs.
  2:{ destruct (acc !! h); [reflexivity|].
      rewrite decide_False; [reflexivity|].
      intros (Hc & _). congruence. }
  destruct (height fmt) as [h0|] eqn:Hheight.
  2:{ destruct (acc !! h); [reflexivity|].
      rewrite decide_False; [reflexivity|].
      intros (_ & Hh & _). congruence. }
  destruct (h0 =? 0) eqn:Hzero; simpl.
  { apply Z.eqb_eq in Hzero as ->.
    destruct (acc !! h); [reflexivity|].
    rewrite decide_False; [reflexivity|].
    intros (_ & Hh & Hne). congruence. }
  apply Z.eqb_neq in Hzero.
  destruct (decide (h = h0)) as [->|Hne].
  - destruct (acc !! h0) eqn:Hacc.
    + rewrite bool_decide_false by congruence. exact Hacc.
    + rewrite bool_decide_true by reflexivity.
      rewrite lookup_insert_eq, decide_True; [reflexivity|].
      repeat split; assumption.
  - assert (Hother : ~ qualifies h fmt).
    { intros (_ & Hh & _). congruence. }
    destruct (bool_decide (acc !! h0 = None)).
    + rewrite lookup_insert_ne by congruence.
      destruct (acc !! h); [reflexivity|].
      rewrite decide_False by exact Hother. reflexivity.
    + destruct (acc !! h); [reflexivity|].
      rewrite decide_False by exact Hother. reflexivity.
Qed.

Lemma foldl_add_format_lookup (formats : list format) (acc : gmap Z variant)
    (h : Z) :
  foldl add_format acc formats !! h
  = match acc !! h with
    | Some v => Some v
    | None => (fun r => variant_of r.2) <$> list_find (qualifies h) formats
    end.
Proof.
  revert acc. induction formats as [|fmt formats IH]; intros acc; simpl.
  - destruct (acc !! h); reflexivity.
  - rewrite IH, add_format_lookup.
    destruct (acc !! h); [reflexivity|].
    destruct (decide (qualifies h fmt)); [reflexivity|].
    destruct (list_find (qualifies h) formats) as [[i f]|]; reflexivity.
Qed.

(** The entry under [h] is the variant of the first format kept under
    [h]. *)
Lemma collect_video_formats_lookup (formats : list format) (h : Z)
    (v : variant) :
  collect_video_formats formats !! h = Some v
  <-> exists i fmt,
        formats !! i = Some fmt
        /\ qualifies h fmt
        /\ (forall j fmt', formats !! j = Some fmt' -> (j < i)%nat ->
                           ~ qualifies h fmt')
        /\ v = variant_of fmt.
Proof.
  unfold collect_video_formats.
  rewrite foldl_add_format_lookup, lookup_empty.
  split.
  - intros Hfind.
    destruct (list_find (qualifies h) formats) as [[i fmt]|] eqn:Hlf;
      [|discriminate].
    injection Hfind as <-.
    apply list_find_Some in Hlf as (Hi & Hq & Hfirst).
    exists i, fmt. split; [exact Hi|]. split; [exact Hq|].
    split; [|reflexivity]. intros j fmt' Hj Hlt. exact (Hfirst j fmt' Hj Hlt).
  - intros (i & fmt & Hi & Hq & Hfirst & ->).
    assert (Hlf : list_find (qualifies h) formats = Some (i, fmt)).
    { apply list_find_Some. split; [exact Hi|]. split; [exact Hq|].
      exact Hfirst. }
    rewrite Hlf. reflexivity.
Qed.

(** A height has an entry exactly when some format is kept under it. *)
Lemma collect_video_formats_dom (formats : list format) (h : Z) :
  is_Some (collect_video_formats formats !! h)
  <-> exists fmt, fmt ∈ formats /\ qualifies h fmt.
Proof.
  unfold collect_video_formats.
  rewrite foldl_add_format_lookup, lookup_empty, fmap_is_Some.
  split.
  - intros [[i fmt] Hlf]. apply list_find_Some in Hlf as (Hi & Hq & _).
    exists fmt. split; [|exact Hq]. apply list_elem_of_lookup. eauto.
  - intros (fmt & Hin & Hq). exact (list_find_elem_of _ _ fmt Hin Hq).
Qed.

Lemma strictly_descending (l : list Z) :
  StronglySorted Z.ge l -> NoDup l -> StronglySorted Z.gt l.
Proof.
  induction 1 as [|a l Hsorted IH Hall]; intros Hnd; constructor.
  - apply IH. apply NoDup_cons in Hnd as [_ Hnd]. exact Hnd.
  - apply NoDup_cons in Hnd as [Hnotin _].
    rewrite Forall_forall in *. intros y Hy.
    assert (a <> y) by (intros ->; exact (Hnotin Hy)).
    specialize (Hall y Hy). lia.
Qed.

Lemma sorted_qualities_spec (video_formats : gmap Z variant) :
  StronglySorted Z.gt (sorted_qualities video_formats)
  /\ forall h, h ∈ sorted_qualities video_formats
               <-> is_Some (video_formats !! h).
Proof.
  unfold sorted_qualities.
  assert (Htrans : Transitive Z.ge) by (intros x y z; lia).
  assert (Htotal : Total Z.ge) by (intros x y; lia).
  split.
  - apply strictly_descending.
    + apply StronglySorted_merge_sort; assumption.
    + rewrite merge_sort_Permutation. apply NoDup_fst_map_to_list.
  - intros h. rewrite merge_sort_Permutation.
    rewrite list_elem_of_fmap. split.
    + intros ([k v] & -> & Hin). apply elem_of_map_to_list in Hin. eauto.
    + intros [v Hv]. exists (h, v). split; [reflexivity|].
      apply elem_of_map_to_list. exact Hv.
Qed.

Lemma quality_buttons_ok (video_formats : gmap Z variant) (hs : list Z) :
  (forall h, h ∈ hs -> is_Some (video_formats !! h)) ->
  exists bs,
    quality_buttons video_formats hs = Ok bs
    /\ Forall2 (fun h b => exists v, video_formats !! h = Some v
                                     /\ b = quality_button v h) hs bs.
Proof.
  induction hs as [|h hs IH]; intros Hall; simpl.
  - exists []. split; [reflexivity | constructor].
  - destruct (Hall h) as [v Hv]; [left|].
    destruct IH as (bs & Hbs & Hrel).
    { intros h' Hh'. apply Hall. right. exact Hh'. }
    rewrite Hv, Hbs. eexists. split; [reflexivity|].
    constructor; [|exact Hrel]. exists v. split; [exact Hv | reflexivity].
Qed.

(** C4 (as amended). The catalog keeps, for each height that is neither
    missing nor zero, the first format of the list that has both streams
    and that height, with its size taken from [filesize], else from
    [filesize_approx], else 0; the heights come in strictly descending
    order, one button each, and the audio button comes last. Heights
    [1080, 720, 1080, 480] give the first 1080 entry, 720, 480 and the audio
    button. *)
Theorem catalog_spec (formats : list format) :
  let video_formats := collect_video_formats formats in
  let hs := sorted_qualities video_formats in
  (forall h v,
     video_formats !! h = Some v
     <-> exists i fmt,
           formats !! i = Some fmt
           /\ qualifies h fmt
           /\ (forall j fmt', formats !! j = Some fmt' -> (j < i)%nat ->
                              ~ qualifies h fmt')
           /\ v = variant_of fmt)
  /\ (forall h,
        is_Some (video_formats !! h)
        <-> exists fmt, fmt ∈ formats /\ qualifies h fmt)
  /\ (forall fmt,
        v_filesize (variant_of fmt)
        = first_truthy (filesize fmt) (filesize_approx fmt))
  /\ StronglySorted Z.gt hs
  /\ (forall h, h ∈ hs <-> is_Some (video_formats !! h))
  /\ (exists bs,
        build_keyboard formats = Ok (bs ++ [AudioButton])
        /\ Forall2 (fun h b => exists v, video_formats !! h = Some v
                                         /\ b = quality_button v h) hs bs)
  /\ (let first := sample_format (Some 1080) "a" (Some (mega 60)) in
      let listed := [first;
                     sample_format (Some 720) "b" (Some (mega 30));
                     sample_format (Some 1080) "c" (Some (mega 55));
                     sample_format (Some 480) "d" None] in
      collect_video_formats listed !! 1080 = Some (variant_of first)
      /\ sorted_qualities (collect_video_formats listed) = [1080; 720; 480]
      /\ build_keyboard listed
         = Ok [QualityButton true 1080 (mega 60);
               QualityButton false 720 (mega 30);
               QualityButton false 480 0;
               AudioButton]).
Proof.
  intros video_formats hs.
  destruct (sorted_qualities_spec video_formats) as [Hsorted Hmem].
  split; [intros h v; apply collect_video_formats_lookup|].
  split; [intros h; apply collect_video_formats_dom|].
  split; [intros fmt; apply recorded_filesize_first_truthy|].
  split; [exact Hsorted|]. split; [exact Hmem|].
  split.
  - destruct (quality_buttons_ok video_formats hs) as (bs & Hbs & Hrel).
    { intros h Hh. apply Hmem. exact Hh. }
    exists bs. split; [|exact Hrel].
    unfold build_keyboard. fold video_formats hs. rewrite Hbs. reflexivity.
  - repeat split; vm_compute; reflexivity.
Qed.

(** C4 as stated fails for height 0: a format with both streams and the
    non-null height 0 gets no entry. *)
Lemma catalog_skips_height_zero :
  let fmt := sample_format (Some 0) "a" (Some (mega 10)) in
  has_video_and_audio fmt = true
  /\ height fmt = Some 0
  /\ collect_video_formats [fmt] !! 0 = None
  /\ build_keyboard [fmt] = Ok [AudioButton].
Proof. repeat split. Qed.

(** ** The progress hook *)

Lemma Qgtb_lt (a b : Q) : Qgtb a b = true <-> (b < a)%Q.
Proof.
  unfold Qgtb. rewrite negb_true_iff, <- not_true_iff_false, Qle_bool_iff.
  split; [apply Qnot_le_lt | apply Qlt_not_le].
Qed.

Lemma hook_total_first_truthy (d : progress_dict) :
  hook_total d
  = Some (first_truthy (total_bytes d) (total_bytes_estimate d)).
Proof.
  unfold hook_total, or_int, int_truthy, first_truthy.
  destruct (total_bytes d) as [x|]; simpl.
  - destruct (x =? 0); simpl; [|reflexivity].
    destruct (total_bytes_estimate d); reflexivity.
  - destruct (total_bytes_estimate d); reflexivity.
Qed.

Lemma hook_total_truthy (d : progress_dict) :
  int_truthy (hook_total d)
  = negb (first_truthy (total_bytes d) (total_bytes_estimate d) =? 0).
Proof. rewrite hook_total_first_truthy. reflexivity. Qed.

(** One call: it never raises; it moves [last_update] only across a gap of
    more than 10 s; it sends only then, and only for a non-zero total. *)
Lemma progress_hook_call (t : Q) (d : progress_dict) (last_update : Q) :
  let total := first_truthy (total_bytes d) (total_bytes_estimate d) in
  exists last' sent,
    progress_hook t d last_update = Ok (last', sent)
    /\ (last' = last_update /\ sent = None
        \/ last' = t /\ (10 < t - last_update)%Q)
    /\ (total = 0 -> sent = None)
    /\ (forall n, sent = Some n ->
          status d = "downloading"
          /\ (10 < t - last_update)%Q
          /\ total <> 0
          /\ percent n
             = (inject_Z (default 0%Z (downloaded_bytes d)) / inject_Z total
                * 100)%Q).
Proof.
  intros total. unfold progress_hook.
  destruct (String.eqb (status d) "downloading") eqn:Hstatus.
  2:{ exists last_update, None. split; [reflexivity|].
      split; [left; split; reflexivity|]. split; [reflexivity|].
      intros n Hn. discriminate. }
  apply String.eqb_eq in Hstatus.
  destruct (Qgtb (t - last_update) 10) eqn:Hgap.
  2:{ exists last_update, None. split; [reflexivity|].
      split; [left; split; reflexivity|]. split; [reflexivity|].
      intros n Hn. discriminate. }
  apply Qgtb_lt in Hgap.
  rewrite hook_total_truthy, hook_total_first_truthy. fold total. simpl.
  destruct (total =? 0) eqn:Hzero; simpl.
  - exists t, None. split; [reflexivity|].
    split; [right; split; [reflexivity | exact Hgap]|].
    split; [reflexivity|]. intros n Hn. discriminate.
  - unfold int_truediv. rewrite Hzero.
    apply Z.eqb_neq in Hzero.
    eexists t, (Some _). split; [reflexivity|].
    split; [right; split; [reflexivity | exact Hgap]|].
    split; [intros Ht; contradiction|].
    intros n Hn. injection Hn as <-. simpl.
    repeat split; assumption.
Qed.

Lemma run_hook_spaced (calls : list (Q * progress_dict)) (last_update : Q) :
  exists ns,
    run_hook calls last_update = Ok ns
    /\ Forall (fun x => (10 < x.1 - last_update)%Q) ns
    /\ StronglySorted (fun x y => (10 < y.1 - x.1)%Q) ns.
Proof.
  revert last_update.
  induction calls as [|[t d] calls IH]; intros last_update; simpl.
  - exists []. split; [reflexivity|]. split; constructor.
  - destruct (progress_hook_call t d last_update)
      as (last' & sent & Hcall & Hmove & _ & _).
    rewrite Hcall.
    destruct (IH last') as (ns & Hrun & Hfirst & Hsorted).
    rewrite Hrun.
    destruct Hmove as [[-> ->] | [-> Hgap]].
    + exists ns. split; [reflexivity|]. split; assumption.
    + assert (Hlater : Forall (fun x => (10 < x.1 - last_update)%Q) ns).
      { eapply Forall_impl; [exact Hfirst|]. intros x Hx. simpl in *. lra. }
      destruct sent as [n|].
      * exists ((t, n) :: ns). split; [reflexivity|].
        split; constructor; assumption.
      * exists ns. split; [reflexivity|]. split; assumption.
Qed.

(** C10. The hook never raises, so [downloaded / total] is never
    evaluated with a zero total; a call sends a notification only when the
    status is "downloading", more than 10 s have passed since
    [last_update], and the total (exact, else estimated) is known and
    non-zero; with a zero or missing total nothing is sent. Over the calls
    of one download every notification comes more than 10 s after the one
    before it. *)
Theorem progress_hook_notifications (calls : list (Q * progress_dict))
    (t : Q) (d : progress_dict) (last_update : Q) :
  let total := first_truthy (total_bytes d) (total_bytes_estimate d) in
  (exists last' sent,
     progress_hook t d last_update = Ok (last', sent)
     /\ (total = 0 -> sent = None)
     /\ (forall n, sent = Some n ->
           status d = "downloading"
           /\ (10 < t - last_update)%Q
           /\ total <> 0
           /\ percent n
              = (inject_Z (default 0%Z (downloaded_bytes d)) / inject_Z total
                 * 100)%Q))
  /\ (exists ns,
        download_notifications calls = Ok ns
        /\ StronglySorted (fun x y => (10 < y.1 - x.1)%Q) ns).
Proof.
  intros total. split.
  - destruct (progress_hook_call t d last_update)
      as (last' & sent & Hcall & _ & Hzero & Hsent).
    exists last', sent. repeat split; try assumption; apply (Hsent n H).
  - destruct (run_hook_spaced calls 0) as (ns & Hrun & _ & Hsorted).
    exists ns. split; assumption.
Qed.

(** * Further properties *)

(** ** What compress_video hands to the encoder *)

Lemma compress_video_events (E : env) (input output : string) (T : Z)
    (w : world) :
  new_events w (compress_video E input output T w).1 = [Probe input]
  \/ exists d total,
       ffprobe E input (files w) = Some d
       /\ float_truthy d = true
       /\ target_total_bitrate T d = Ok total
       /\ new_events w (compress_video E input output T w).1
          = [Probe input;
             Encode (compress_cmd input output (video_bitrate total)) 600].
Proof.
  rewrite compress_video_run.
  assert (Hprobed :
    new_events w (log_event (Probe input) w) = [Probe input]).
  { apply new_events_app. reflexivity. }
  destruct (ffprobe E input (files w)) as [d|] eqn:Hprobe;
    [|left; exact Hprobed].
  destruct (float_truthy d) eqn:Htruthy; [|left; exact Hprobed].
  destruct (target_total_bitrate T d) as [total|e] eqn:Htotal;
    [|left; exact Hprobed].
  right. exists d, total.
  split; [reflexivity|]. split; [exact Htruthy|]. split; [exact Htotal|].
  cbv zeta.
  assert (Hevents :
    new_events w
      (after_encode E (compress_cmd input output (video_bitrate total)) w)
    = [Probe input;
       Encode (compress_cmd input output (video_bitrate total)) 600]).
  { apply new_events_app. apply after_encode_trace. }
  destruct (ffmpeg E _ (files w)).1; exact Hevents.
Qed.

(** Every encoder run that [compress_video] starts reads the input, writes
    the output, asks for a video bitrate of at least 100 kbps with
    [maxrate] equal to it and [bufsize] twice it, 128 kbps audio, and has
    the 600 s timeout. *)
Theorem encoder_command_shape (E : env) (input output : string) (T : Z)
    (w : world) (cmd : ffmpeg_cmd) (t : Z) :
  Encode cmd t ∈ new_events w (compress_video E input output T w).1 ->
  cmd_input cmd = input
  /\ cmd_output cmd = output
  /\ 100 <= cmd_video_bitrate cmd
  /\ cmd_maxrate cmd = cmd_video_bitrate cmd
  /\ cmd_bufsize cmd = 2 * cmd_video_bitrate cmd
  /\ cmd_audio_bitrate cmd = 128
  /\ t = 600.
Proof.
  intros Hin.
  destruct (compress_video_events E input output T w)
    as [Hev | (d & total & _ & _ & _ & Hev)]; rewrite Hev in Hin.
  - apply list_elem_of_singleton in Hin. discriminate.
  - apply elem_of_cons in Hin as [Hin|Hin]; [discriminate|].
    apply list_elem_of_singleton in Hin. injection Hin as -> ->.
    simpl. unfold video_bitrate, audio_bitrate. repeat split; lia.
Qed.

Lemma encoder_command_shape_witness :
  let E := clip_env (mega 80) (Exited 0, Some (mega 40)) in
  let cmd := compress_cmd "7_clip.mp4" "out.mp4" 1100 in
  cmd_input cmd = "7_clip.mp4"
  /\ cmd_output cmd = "out.mp4"
  /\ 100 <= cmd_video_bitrate cmd
  /\ cmd_maxrate cmd = cmd_video_bitrate cmd
  /\ cmd_bufsize cmd = 2 * cmd_video_bitrate cmd
  /\ cmd_audio_bitrate cmd = 128
  /\ 600 = 600.
Proof.
  intros E cmd.
  apply (encoder_command_shape E "7_clip.mp4" "out.mp4" 45 sample_world
           cmd 600).
  vm_compute. right. left.
Defined.

(** ** Durations that are not positive numbers *)

Lemma float_of_int_small (n : Z) :
  0 <= n < 2 ^ 53 ->
  float_of_int n = Ok (S754_zero false)
  \/ exists m e, float_of_int n = Ok (S754_finite false m e).
Proof.
  intros [Hlo Hhi]. destruct (Z.eq_dec n 0) as [->|Hne]; [left; reflexivity|].
  right. destruct (binary_normalize_small n ltac:(lia)) as (m & e & Hfl & _).
  exists m, e. unfold float_of_int, float_of_Z. rewrite Hfl. reflexivity.
Qed.

(** The integer part of a quotient by a negative float is not positive,
    and the only exception the computation raises is the one of a
    quotient out of range. *)
Lemma target_total_bitrate_negative (T : Z) (m : positive) (e : Z) :
  0 <= T -> T * 8192 < 2 ^ 53 ->
  match target_total_bitrate T (S754_finite true m e) with
  | Ok total => total <= 0
  | Raise err => err = OverflowError
  end.
Proof.
  intros HT Hsmall. unfold target_total_bitrate, int_truediv_float.
  destruct (float_of_int_small (T * 8192) ltac:(lia))
    as [Hfl | (mz & ez & Hfl)]; rewrite Hfl; cbn [float_truediv SFdiv].
  - simpl. lia.
  - destruct (SFdiv_core_binary_spec mz m ez e) as [l Hcore].
    rewrite Hcore. cbn [xorb].
    match goal with
    | |- context [binary_round_aux prec emax true ?q ?ex l] =>
        assert (Hq : 0 <= q);
        [|destruct (binary_round_aux_cases true q ex l Hq)
            as (r & _ & Hres);
          destruct (binary_round_aux prec emax true q ex l)
            as [s|s| |s m' e']]
    end.
    + apply Z.div_pos; [|lia].
      apply Z.mul_nonneg_nonneg; [lia|]. apply Z.pow_nonneg. lia.
    + simpl. lia.
    + reflexivity.
    + destruct Hres.
    + destruct Hres as [-> _]. simpl.
      pose proof (proj2 (Z.shiftl_nonneg (Z.pos m') e') ltac:(lia)). lia.
Qed.

(** Durations that are not positive numbers pass the guard [if not
    duration] unless they are zero. With an infinite duration the quotient
    is zero and the encoder is run at the 100 kbps floor. With a negative
    duration the encoder is run at the floor too, unless the quotient is
    out of the range of the floats: then [int] raises, the encoder is not
    run and the answer is [False]. With NaN [int] raises as well. *)
Theorem compress_video_degenerate_duration (E : env)
    (input output : string) (T : Z) (w : world) (d : pyfloat) :
  0 <= T -> T * 8192 < 2 ^ 53 ->
  ffprobe E input (files w) = Some d ->
  let floor_run := [Probe input;
                    Encode (compress_cmd input output 100) 600] in
  match d with
  | S754_nan =>
      compress_video E input output T w
      = (log_event (Probe input) w, Ok false)
  | S754_infinity _ =>
      new_events w (compress_video E input output T w).1 = floor_run
  | S754_finite true _ _ =>
      match target_total_bitrate T d with
      | Ok total =>
          total <= 0
          /\ new_events w (compress_video E input output T w).1 = floor_run
      | Raise err =>
          err = OverflowError
          /\ compress_video E input output T w
             = (log_event (Probe input) w, Ok false)
      end
  | _ => True
  end.
Proof.
  intros HT Hsmall Hprobe floor_run.
  assert (Hfloor : forall total,
    float_truthy d = true -> target_total_bitrate T d = Ok total ->
    total <= 0 ->
    new_events w (compress_video E input output T w).1 = floor_run).
  { intros total Htruthy Htotal Hle.
    rewrite compress_video_run, Hprobe, Htruthy, Htotal. cbv zeta.
    replace (video_bitrate total) with 100
      by (unfold video_bitrate, audio_bitrate; lia).
    assert (Hevents :
      new_events w (after_encode E (compress_cmd input output 100) w)
      = floor_run).
    { apply new_events_app. apply after_encode_trace. }
    destruct (ffmpeg E _ (files w)).1; exact Hevents. }
  destruct d as [s|s| |s m e]; [exact I| | |].
  - apply (Hfloor 0); [reflexivity| |lia].
    unfold target_total_bitrate, int_truediv_float.
    destruct (float_of_int_small (T * 8192) ltac:(lia))
      as [Hfl | (mz & ez & Hfl)]; rewrite Hfl; reflexivity.
  - rewrite compress_video_run, Hprobe. cbn [float_truthy].
    destruct (target_total_bitrate_nan T) as [e He]. rewrite He.
    reflexivity.
  - destruct s; [|exact I].
    pose proof (target_total_bitrate_negative T m e HT Hsmall) as Hneg.
    destruct (target_total_bitrate T (S754_finite true m e))
      as [total|err] eqn:Htotal.
    + split; [exact Hneg|].
      exact (Hfloor total eq_refl eq_refl Hneg).
    + split; [exact Hneg|].
      rewrite compress_video_run, Hprobe. cbn [float_truthy].
      rewrite Htotal. reflexivity.
Qed.

(** A probed duration of -1 s, and one of [-1e-308] s. *)
Lemma compress_video_degenerate_duration_witness :
  (let E := sample_env None None (Some minus_one_second) (Exited 0, None)
              true None in
   -368640 <= 0
   /\ new_events sample_world
        (compress_video E "in.mp4" "out.mp4" 45 sample_world).1
      = [Probe "in.mp4"; Encode (compress_cmd "in.mp4" "out.mp4" 100) 600])
  /\ (let E := sample_env None None (Some (SFopp seconds_1e_308))
                 (Exited 0, None) true None in
      OverflowError = OverflowError
      /\ compress_video E "in.mp4" "out.mp4" 45 sample_world
         = (log_event (Probe "in.mp4") sample_world, Ok false)).
Proof.
  split; intros E.
  - exact (compress_video_degenerate_duration E "in.mp4" "out.mp4" 45
             sample_world minus_one_second ltac:(lia) ltac:(lia) eq_refl).
  - exact (compress_video_degenerate_duration E "in.mp4" "out.mp4" 45
             sample_world (SFopp seconds_1e_308) ltac:(lia) ltac:(lia)
             eq_refl).
Defined.

(** ** The callback data of the keyboard *)

Lemma split_nonempty (sep : ascii) (s : string) :
  exists h t, split sep s = h :: t.
Proof.
  induction s as [|c s IH]; simpl; [eauto|].
  destruct (Ascii.eqb c sep); [eauto|].
  destruct IH as (h & t & ->). eauto.
Qed.

Lemma split_no_sep (sep : ascii) (s : string) :
  has_char sep s = false -> split sep s = [s].
Proof.
  induction s as [|c s IH]; simpl; [reflexivity|].
  intros Hno. apply orb_false_iff in Hno as [Hc Hrest].
  rewrite Hc, (IH Hrest). reflexivity.
Qed.

Lemma split_quality (t : string) :
  has_char "_" t = false -> split "_" ("quality_" +:+ t) = ["quality"; t].
Proof.
  intros Hno.
  change ("quality_" +:+ t)
    with (String "q" (String "u" (String "a" (String "l" (String "i"
           (String "t" (String "y" (String "_" t)))))))).
  simpl. rewrite (split_no_sep _ _ Hno). reflexivity.
Qed.

Lemma has_char_cons (c c' : ascii) (s : string) :
  has_char c (String c' s) = Ascii.eqb c' c || has_char c s.
Proof. reflexivity. Qed.

Lemma has_char_digit_0 (c : ascii) :
  (forall n, pretty_N_char n <> c) -> has_char c "0" = false.
Proof.
  intros Hdigit. rewrite has_char_cons.
  apply orb_false_iff. split; [|reflexivity].
  apply Ascii.eqb_neq. exact (Hdigit 0%N).
Qed.

Lemma pretty_N_go_has_char (c : ascii) (x : N) (s : string) :
  (forall n, pretty_N_char n <> c) ->
  has_char c (pretty_N_go x s) = has_char c s.
Proof.
  intros Hdigit. revert s.
  induction (N.lt_wf_0 x) as [x _ IH]; intros s.
  assert (x = 0 \/ 0 < x)%N as [->|Hpos] by lia.
  - rewrite pretty_N_go_0. reflexivity.
  - rewrite pretty_N_go_step by exact Hpos.
    rewrite IH by (apply N.div_lt; lia).
    rewrite has_char_cons.
    destruct (Ascii.eqb (pretty_N_char (x `mod` 10)) c) eqn:Heq;
      [|reflexivity].
    apply Ascii.eqb_eq in Heq. destruct (Hdigit _ Heq).
Qed.

Lemma pretty_Z_has_char (c : ascii) (h : Z) :
  (forall n, pretty_N_char n <> c) -> c <> "-"%char ->
  has_char c (pretty h) = false.
Proof.
  intros Hdigit Hdash.
  assert (HN : forall x : N, has_char c (pretty x) = false).
  { intros x. unfold pretty, pretty_N.
    destruct (decide (x = 0%N)).
    - apply has_char_digit_0. exact Hdigit.
    - rewrite pretty_N_go_has_char by exact Hdigit. reflexivity. }
  destruct h as [|p|p].
  - apply has_char_digit_0. exact Hdigit.
  - apply (HN (N.pos p)).
  - change (pretty (Z.neg p)) with (String "-" (pretty (N.pos p))).
    rewrite has_char_cons, (HN (N.pos p)).
    apply orb_false_iff. split; [|reflexivity].
    apply Ascii.eqb_neq. congruence.
Qed.

Lemma not_a_digit_underscore (n : N) : pretty_N_char n <> "_"%char.
Proof. unfold pretty_N_char. repeat case_match; discriminate. Qed.

Lemma not_a_digit_a (n : N) : pretty_N_char n <> "a"%char.
Proof. unfold pretty_N_char. repeat case_match; discriminate. Qed.

(** The callback data of every button, split the way
    [handle_quality_selection] splits it, gives back the button's selector:
    the decimal height, or "audio". A quality button is never read as the
    audio selector, and two quality buttons with the same selector have
    the same height. *)
Theorem callback_data_round_trip (b : button) :
  py_index (split "_" (callback_data b)) 1 = Ok (selector_of b)
  /\ (forall flag h size,
        b = QualityButton flag h size -> selector_of b <> "audio")
  /\ (forall flag h size flag' h' size',
        b = QualityButton flag h size ->
        selector_of (QualityButton flag' h' size') = selector_of b ->
        h' = h).
Proof.
  split; [|split].
  - destruct b as [flag h size|]; [|reflexivity].
    unfold callback_data, selector_of.
    rewrite split_quality; [reflexivity|].
    apply pretty_Z_has_char; [exact not_a_digit_underscore | discriminate].
  - intros flag h size -> Haudio. simpl in Haudio.
    pose proof (pretty_Z_has_char "a" h not_a_digit_a ltac:(discriminate))
      as Hno.
    rewrite Haudio in Hno. discriminate.
  - intros flag h size flag' h' size' -> Heq. simpl in Heq.
    exact (pretty_Z_inj _ _ Heq).
Qed.

(** ** handle_url on every input *)

Lemma build_keyboard_ok (formats : list format) :
  exists bs,
    build_keyboard formats = Ok (bs ++ [AudioButton])
    /\ Forall2 (fun h b => exists v,
                  collect_video_formats formats !! h = Some v
                  /\ b = quality_button v h)
         (sorted_qualities (collect_video_formats formats)) bs.
Proof.
  destruct (sorted_qualities_spec (collect_video_formats formats))
    as [_ Hmem].
  destruct (quality_buttons_ok (collect_video_formats formats)
              (sorted_qualities (collect_video_formats formats)))
    as (bs & Hbs & Hrel).
  { intros h Hh. apply Hmem. exact Hh. }
  exists bs. split; [|exact Hrel].
  unfold build_keyboard. rewrite Hbs. reflexivity.
Qed.

(** The world in which [handle_url] has stored the session for [text]
    and [info], and what it goes on to do there. *)
Lemma handle_url_stored_run (E : env) (chat_id : Z) (text : string)
    (w : world) (info : video_info) :
  contains "youtube.com" (strip text) || contains "youtu.be" (strip text)
  = true ->
  extract_info E (clean_youtube_url E (strip text)) = Some info ->
  let w_s :=
    set_sessions
      (<[chat_id :=
           {| s_url := clean_youtube_url E (strip text);
              s_title := get_or (info_title info) "Unknown";
              s_formats := default [] (info_formats info) |}]>
         (user_video_info w))
      (log_event (ExtractInfo (clean_youtube_url E (strip text)))
         (log_event (Render chat_id MsgProcessing) w)) in
  exists bs,
    build_keyboard (default [] (info_formats info))
    = Ok (bs ++ [AudioButton])
    /\ handle_url E chat_id text w
       = match bs with
         | [] => (log_event (Render chat_id MsgNoOptions) w_s, Ok tt)
         | _ :: _ =>
             match menu_message info (bs ++ [AudioButton]) with
             | Raise e => (w_s, Raise e)
             | Ok m =>
                 if telegram_parses E m
                 then (log_event (Render chat_id m) w_s, Ok tt)
                 else (w_s, Raise BadRequest)
             end
         end.
Proof.
  intros Hurl Hinfo w_s.
  destruct (build_keyboard_ok (default [] (info_formats info)))
    as (bs & Hkb & _).
  exists bs. split; [exact Hkb|].
  unfold handle_url. apply orb_true_iff in Hurl.
  assert (Hguard : negb (contains "youtube.com" (strip text))
                   && negb (contains "youtu.be" (strip text)) = false).
  { destruct Hurl as [-> | ->]; [reflexivity | apply andb_false_r]. }
  rewrite Hguard.
  unfold reply_text, edit_text, get_video_info, put_session, send_markdown.
  munfold. simpl. rewrite Hinfo. simpl. rewrite Hkb. simpl.
  destruct bs as [|b bs]; simpl; [reflexivity|].
  rewrite length_app. simpl.
  replace (length bs + 1)%nat with (S (length bs)) by lia. simpl.
  destruct (menu_message info (b :: bs ++ [AudioButton])) as [m|e];
    reflexivity.
Qed.

(** The menu shows a title of up to 40 characters whole and cuts a longer
    one after 40 characters, counted as characters and not as bytes. *)
Example shown_title_cut :
  shown_title (Some title_of_40) = Ok title_of_40
  /\ shown_title (Some title_of_43) = Ok (title_of_40 +:+ "...")
  /\ String.length title_of_40 = 41%nat.
Proof. repeat split. Qed.

(** Building the text of the menu raises for a float duration that is
    not zero and for a title that is [None], and only then. *)
Lemma menu_message_raises (info : video_info) (keyboard : list button)
    (e : exn) :
  menu_message info keyboard = Raise e
  <-> (exists x, info_duration info = Holds (Float x)
                 /\ float_truthy x = true /\ e = ValueError)
      \/ ((forall x, info_duration info = Holds (Float x) ->
                     float_truthy x = false)
          /\ info_title info = HoldsNone /\ e = TypeError).
Proof.
  unfold menu_message, duration_str, shown_title, get_or.
  destruct (info_duration info) as [| |[n|x]]; simpl;
    [| |destruct (n =? 0)|destruct (float_truthy x) eqn:Hx];
    destruct (info_title info) as [| |t]; simpl;
    (split;
     [ intros Hraise; try discriminate Hraise; injection Hraise as <-;
       first [ left; exists x; repeat split; assumption
             | right; split; [intros y Hy; try discriminate Hy;
                              injection Hy as <-; assumption|];
               split; reflexivity ]
     | intros [(y & Hy & Hty & He) | (Hall & Ht & He)];
       try discriminate; subst e; try reflexivity;
       try (injection Hy as <-; congruence);
       try (specialize (Hall x eq_refl); congruence) ]).
Qed.

Lemma handle_url_rejected_run (E : env) (chat_id : Z) (text : string)
    (w : world) :
  contains "youtube.com" (strip text) || contains "youtu.be" (strip text)
  = false ->
  handle_url E chat_id text w
  = (log_event (Render chat_id MsgInvalidLink) w, Ok tt).
Proof.
  intros Hurl. apply orb_false_iff in Hurl as [Hcom Hbe].
  unfold handle_url. rewrite Hcom, Hbe. reflexivity.
Qed.

Lemma handle_url_unavailable_run (E : env) (chat_id : Z) (text : string)
    (w : world) :
  contains "youtube.com" (strip text) || contains "youtu.be" (strip text)
  = true ->
  extract_info E (clean_youtube_url E (strip text)) = None ->
  handle_url E chat_id text w
  = (log_event (Render chat_id MsgFetchError)
       (log_event (ExtractInfo (clean_youtube_url E (strip text)))
          (log_event (Render chat_id MsgProcessing) w)),
     Ok tt).
Proof.
  intros Hurl Hinfo. unfold handle_url. apply orb_true_iff in Hurl.
  assert (Hguard : negb (contains "youtube.com" (strip text))
                   && negb (contains "youtu.be" (strip text)) = false).
  { destruct Hurl as [-> | ->]; [reflexivity | apply andb_false_r]. }
  rewrite Hguard.
  unfold reply_text, edit_text, get_video_info.
  munfold. simpl. rewrite Hinfo. reflexivity.
Qed.

(** Whatever the text and the metadata are, and whether or not it
    raises, [handle_url] leaves the folder alone, starts no download,
    encoder run or upload, and changes no session but the requester's own.
    It asks for the metadata exactly when the stripped text contains
    "youtube.com" or "youtu.be", and then for the cleaned URL. It has no
    [try]: it raises [ValueError] or [TypeError] when the text of the menu
    cannot be built and [BadRequest] when Telegram refuses it, and in each
    case the session for the cleaned URL is already stored. *)
Theorem handle_url_effects (E : env) (chat_id : Z) (text : string)
    (w : world) :
  let w' := (handle_url E chat_id text w).1 in
  files w' = files w
  /\ (forall other, other <> chat_id ->
        user_video_info w' !! other = user_video_info w !! other)
  /\ count_events is_download (new_events w w') = O
  /\ count_events is_encode (new_events w w') = O
  /\ count_events is_send (new_events w w') = O
  /\ (forall url,
        ExtractInfo url ∈ new_events w w'
        <-> (contains "youtube.com" (strip text)
             || contains "youtu.be" (strip text) = true
             /\ url = clean_youtube_url E (strip text)))
  /\ (forall e,
        (handle_url E chat_id text w).2 = Raise e ->
        (e = ValueError \/ e = TypeError \/ e = BadRequest)
        /\ exists info sess,
             extract_info E (clean_youtube_url E (strip text)) = Some info
             /\ user_video_info w' !! chat_id = Some sess
             /\ s_url sess = clean_youtube_url E (strip text)).
Proof.
  destruct (contains "youtube.com" (strip text)
            || contains "youtu.be" (strip text)) eqn:Hurl.
  - destruct (extract_info E (clean_youtube_url E (strip text)))
      as [info|] eqn:Hinfo.
    + destruct (handle_url_stored_run E chat_id text w info Hurl Hinfo)
        as (bs & _ & Hrun).
      cbv zeta in Hrun.
      set (w_s := set_sessions _ _) in Hrun.
      assert (Hfetched : forall url tail,
        ExtractInfo url
          ∈ [Render chat_id MsgProcessing;
             ExtractInfo (clean_youtube_url E (strip text))]
            ++ rendered_tail (option_map (Render chat_id) tail)
        <-> true = true /\ url = clean_youtube_url E (strip text)).
      { intros url tail.
        destruct tail as [m|]; cbn [rendered_tail option_map app];
          rewrite !elem_of_cons, elem_of_nil; split.
        - intros [H|[H|[H|[]]]]; try discriminate.
          injection H as ->. split; reflexivity.
        - intros [_ ->]. right. left. reflexivity.
        - intros [H|[H|[]]]; try discriminate.
          injection H as ->. split; reflexivity.
        - intros [_ ->]. right. left. reflexivity. }
      assert (Hstored : forall w1 r tail,
        handle_url E chat_id text w = (w1, r) ->
        w1 = match tail with
             | Some m => log_event (Render chat_id m) w_s
             | None => w_s
             end ->
        (forall e, r = Raise e ->
                   e = ValueError \/ e = TypeError \/ e = BadRequest) ->
        let w' := (handle_url E chat_id text w).1 in
        files w' = files w
        /\ (forall other, other <> chat_id ->
              user_video_info w' !! other = user_video_info w !! other)
        /\ count_events is_download (new_events w w') = O
        /\ count_events is_encode (new_events w w') = O
        /\ count_events is_send (new_events w w') = O
        /\ (forall url,
              ExtractInfo url ∈ new_events w w'
              <-> (true = true
                   /\ url = clean_youtube_url E (strip text)))
        /\ (forall e,
              (handle_url E chat_id text w).2 = Raise e ->
              (e = ValueError \/ e = TypeError \/ e = BadRequest)
              /\ exists (info0 : video_info) sess,
                   Some info = Some info0
                   /\ user_video_info w' !! chat_id = Some sess
                   /\ s_url sess = clean_youtube_url E (strip text))).
      { intros w1 r tail Hh Hw1 Hexn. rewrite Hh. cbn [fst snd].
        assert (Hev : new_events w w1
                      = [Render chat_id MsgProcessing;
                         ExtractInfo (clean_youtube_url E (strip text))]
                        ++ rendered_tail (option_map (Render chat_id) tail)).
        { apply new_events_app. rewrite Hw1.
          destruct tail; simpl; rewrite <- !app_assoc; reflexivity. }
        assert (Hsess : user_video_info w1 = user_video_info w_s)
          by (rewrite Hw1; destruct tail; reflexivity).
        assert (Hfiles : files w1 = files w)
          by (rewrite Hw1; destruct tail; reflexivity).
        split; [exact Hfiles|].
        split.
        { intros other Hne. rewrite Hsess. simpl.
          apply lookup_insert_ne. congruence. }
        rewrite Hev.
        split; [destruct tail; reflexivity|].
        split; [destruct tail; reflexivity|].
        split; [destruct tail; reflexivity|].
        split; [intros url; apply Hfetched|].
        intros e He. split; [exact (Hexn e He)|].
        eexists info, _. split; [reflexivity|].
        rewrite Hsess. simpl. split; [apply lookup_insert_eq | reflexivity]. }
      destruct bs as [|b bs].
      * apply (Hstored _ _ (Some MsgNoOptions) Hrun eq_refl).
        intros e He. discriminate.
      * destruct (menu_message info ((b :: bs) ++ [AudioButton]))
          as [m|e0] eqn:Hmenu.
        -- destruct (telegram_parses E m).
           ++ apply (Hstored _ _ (Some m) Hrun eq_refl).
              intros e He. discriminate.
           ++ apply (Hstored _ _ None Hrun eq_refl).
              intros e He. injection He as <-. right. right. reflexivity.
        -- apply (Hstored _ _ None Hrun eq_refl).
           intros e He. injection He as <-.
           apply menu_message_raises in Hmenu
             as [(x & _ & _ & ->)|(_ & _ & ->)]; auto.
    + rewrite (handle_url_unavailable_run E chat_id text w Hurl Hinfo).
      cbn [fst snd].
      split; [reflexivity|].
      split; [intros other Hne; reflexivity|].
      erewrite new_events_app
        by (simpl; rewrite <- !app_assoc; reflexivity).
      split; [reflexivity|]. split; [reflexivity|]. split; [reflexivity|].
      split; [|intros e He; discriminate].
      intros url. cbn [app]. rewrite !elem_of_cons, elem_of_nil. split.
      * intros [H|[H|[H|[]]]]; try discriminate.
        injection H as ->. split; reflexivity.
      * intros [_ ->]. right. left. reflexivity.
  - rewrite (handle_url_rejected_run E chat_id text w Hurl).
    cbn [fst snd].
    split; [reflexivity|].
    split; [intros other Hne; reflexivity|].
    erewrite new_events_app by reflexivity.
    split; [reflexivity|]. split; [reflexivity|]. split; [reflexivity|].
    split; [|intros e He; discriminate].
    intros url. rewrite list_elem_of_singleton. split.
    + intros H. discriminate.
    + intros [H _]. discriminate.
Qed.

(** When the metadata cannot be fetched the session dictionary is left as
    it was: a requester who had a session keeps it, and the next selection
    downloads the URL of that earlier session. *)
Theorem failed_fetch_keeps_earlier_session (E : env) (chat_id : Z)
    (text : string) (w : world) (old : session) :
  contains "youtube.com" (strip text) || contains "youtu.be" (strip text)
  = true ->
  extract_info E (clean_youtube_url E (strip text)) = None ->
  user_video_info w !! chat_id = Some old ->
  exists w1,
    handle_url E chat_id text w = (w1, Ok tt)
    /\ last (rendered (trace w1)) = Some MsgFetchError
    /\ user_video_info w1 = user_video_info w
    /\ forall data q,
         split "_" data !! 1%nat = Some q ->
         exists w2 evs,
           handle_quality_selection E chat_id data w1 = (w2, Ok tt)
           /\ new_events w1 w2
              = Render chat_id (MsgDownloading q)
                :: Download (s_url old) q chat_id :: evs.
Proof.
  intros Hurl Hinfo Hold.
  rewrite (handle_url_unavailable_run E chat_id text w Hurl Hinfo).
  eexists. split; [reflexivity|].
  split; [simpl; apply last_rendered_snoc|]. split; [reflexivity|].
  intros data q Hq.
  apply selection_with_session_downloads; [exact Hold | exact Hq].
Qed.

Lemma failed_fetch_keeps_earlier_session_witness :
  let E := sample_env None None None (Failed, None) true None in
  exists w1,
    handle_url E 7 "https://youtu.be/new" sample_world = (w1, Ok tt)
    /\ last (rendered (trace w1)) = Some MsgFetchError
    /\ user_video_info w1 = user_video_info sample_world
    /\ forall data q,
         split "_" data !! 1%nat = Some q ->
         exists w2 evs,
           handle_quality_selection E 7 data w1 = (w2, Ok tt)
           /\ new_events w1 w2
              = Render 7 (MsgDownloading q)
                :: Download "https://youtu.be/abc" q 7 :: evs.
Proof.
  intros E.
  exact (failed_fetch_keeps_earlier_session E 7 "https://youtu.be/new"
           sample_world sample_session eq_refl eq_refl eq_refl).
Defined.

(** When the metadata arrive, the requester's entry is replaced by a
    session for the cleaned URL (an earlier session is overwritten) before
    anything else is done, so the next selection downloads the cleaned URL
    however the run ends. "No options found" is shown exactly when no
    height has an entry. Else the menu with one button per height and the
    audio button is built and sent: the run raises [ValueError] for a
    float duration that is not zero, [TypeError] for a title that is
    [None], and [BadRequest] when Telegram refuses the text, and then the
    last text on show is still "Processing". *)
Theorem fetched_metadata_replace_session (E : env) (chat_id : Z)
    (text : string) (w : world) (info : video_info) :
  contains "youtube.com" (strip text) || contains "youtu.be" (strip text)
  = true ->
  extract_info E (clean_youtube_url E (strip text)) = Some info ->
  let formats := default [] (info_formats info) in
  let sess := {| s_url := clean_youtube_url E (strip text);
                 s_title := get_or (info_title info) "Unknown";
                 s_formats := formats |} in
  exists w1 r bs,
    handle_url E chat_id text w = (w1, r)
    /\ user_video_info w1 = <[chat_id := sess]> (user_video_info w)
    /\ length bs = length (sorted_qualities (collect_video_formats formats))
    /\ (bs = [] <-> collect_video_formats formats = ∅)
    /\ (r, last (rendered (trace w1)))
       = match bs with
         | [] => (Ok tt, Some MsgNoOptions)
         | _ :: _ =>
             match menu_message info (bs ++ [AudioButton]) with
             | Ok m =>
                 if telegram_parses E m then (Ok tt, Some m)
                 else (Raise BadRequest, Some MsgProcessing)
             | Raise e => (Raise e, Some MsgProcessing)
             end
         end
    /\ (forall e,
          menu_message info (bs ++ [AudioButton]) = Raise e
          <-> (exists x, info_duration info = Holds (Float x)
                         /\ float_truthy x = true /\ e = ValueError)
              \/ ((forall x, info_duration info = Holds (Float x) ->
                             float_truthy x = false)
                  /\ info_title info = HoldsNone /\ e = TypeError))
    /\ forall data q,
         split "_" data !! 1%nat = Some q ->
         exists w2 evs,
           handle_quality_selection E chat_id data w1 = (w2, Ok tt)
           /\ new_events w1 w2
              = Render chat_id (MsgDownloading q)
                :: Download (clean_youtube_url E (strip text)) q chat_id
                :: evs.
Proof.
  intros Hurl Hinfo formats sess.
  destruct (handle_url_stored_run E chat_id text w info Hurl Hinfo)
    as (bs & Hkb & Hrun).
  cbv zeta in Hrun. fold formats sess in Hrun.
  set (w_s := set_sessions _ _) in Hrun.
  destruct (build_keyboard_ok formats) as (bs' & Hkb' & Hrel).
  assert (bs' = bs) as ->.
  { unfold formats in Hkb'. rewrite Hkb in Hkb'. injection Hkb' as Heq.
    apply app_inv_tail in Heq. congruence. }
  assert (Hprocessing : last (rendered (trace w_s)) = Some MsgProcessing).
  { unfold w_s. simpl. rewrite !rendered_app. simpl.
    rewrite app_nil_r. apply last_snoc. }
  assert (Hend : exists w1 r,
    handle_url E chat_id text w = (w1, r)
    /\ user_video_info w1 = <[chat_id := sess]> (user_video_info w)
    /\ (r, last (rendered (trace w1)))
       = match bs with
         | [] => (Ok tt, Some MsgNoOptions)
         | _ :: _ =>
             match menu_message info (bs ++ [AudioButton]) with
             | Ok m =>
                 if telegram_parses E m then (Ok tt, Some m)
                 else (Raise BadRequest, Some MsgProcessing)
             | Raise e => (Raise e, Some MsgProcessing)
             end
         end).
  { rewrite Hrun. destruct bs as [|b bs].
    - eexists _, _. split; [reflexivity|]. split; [reflexivity|].
      f_equal. simpl. apply last_rendered_snoc.
    - destruct (menu_message info ((b :: bs) ++ [AudioButton])) as [m|e].
      + destruct (telegram_parses E m).
        * eexists _, _. split; [reflexivity|]. split; [reflexivity|].
          f_equal. simpl. apply last_rendered_snoc.
        * eexists _, _. split; [reflexivity|]. split; [reflexivity|].
          f_equal. exact Hprocessing.
      + eexists _, _. split; [reflexivity|]. split; [reflexivity|].
        f_equal. exact Hprocessing. }
  destruct Hend as (w1 & r & Hh & Hsess & Hshown).
  exists w1, r, bs. split; [exact Hh|]. split; [exact Hsess|].
  split; [symmetry; exact (Forall2_length _ _ _ Hrel)|].
  split.
  { destruct (sorted_qualities_spec (collect_video_formats formats))
      as [_ Hmem].
    split.
    - intros ->. apply Forall2_nil_inv_r in Hrel.
      apply map_eq. intros h. rewrite lookup_empty.
      destruct (collect_video_formats formats !! h) as [v|] eqn:Hv;
        [|reflexivity].
      assert (Hin : h ∈ sorted_qualities (collect_video_formats formats))
        by (apply Hmem; eauto).
      rewrite Hrel in Hin. apply elem_of_nil in Hin. destruct Hin.
    - intros Hempty. rewrite Hempty, sorted_qualities_empty in Hrel.
      apply Forall2_nil_inv_l in Hrel. exact Hrel. }
  split; [exact Hshown|].
  split; [intros e; apply menu_message_raises|].
  intros data q Hq.
  apply (selection_with_session_downloads E chat_id data _ sess q);
    [rewrite Hsess; apply lookup_insert_eq | exact Hq].
Qed.

(** A video with one format at 720p: with the title [clip] the menu is
    shown; with the title [my_video], whose underscore opens an entity
    that is never closed, Telegram refuses the menu and the handler
    raises, the session being stored. *)
Lemma fetched_metadata_replace_session_witness :
  let formats := [sample_format (Some 720) "b" (Some (mega 30))] in
  let keyboard := [QualityButton false 720 (mega 30); AudioButton] in
  (let info := {| info_title := Holds "clip";
                  info_duration := Holds (Int 300);
                  info_formats := Some formats |} in
   let E := sample_env None None None (Failed, None) true (Some info) in
   exists w1,
     handle_url E 7 "https://youtu.be/new" sample_world = (w1, Ok tt)
     /\ user_video_info w1 !! 7
        = Some {| s_url := "https://youtu.be/new"; s_title := Some "clip";
                  s_formats := formats |}
     /\ last (rendered (trace w1))
        = Some (MsgVideoReady "clip" (Some 300) 1 keyboard))
  /\ (let info := {| info_title := Holds "my_video";
                     info_duration := Holds (Int 300);
                     info_formats := Some formats |} in
      let E := sample_env None None None (Failed, None) true (Some info) in
      exists w1,
        handle_url E 7 "https://youtu.be/new" sample_world
        = (w1, Raise BadRequest)
        /\ user_video_info w1 !! 7
           = Some {| s_url := "https://youtu.be/new";
                     s_title := Some "my_video"; s_formats := formats |}
        /\ last (rendered (trace w1)) = Some MsgProcessing).
Proof.
  intros formats keyboard. split; intros info E.
  - destruct (fetched_metadata_replace_session E 7 "https://youtu.be/new"
                sample_world info eq_refl eq_refl)
      as (w1 & r & bs & Hh & Hsess & _ & _ & Hshown & _).
    exists w1.
    assert (Hrun : (handle_url E 7 "https://youtu.be/new" sample_world).2
                   = Ok tt) by reflexivity.
    rewrite Hh in Hrun. simpl in Hrun. subst r.
    split; [exact Hh|]. split; [rewrite Hsess; reflexivity|].
    assert (Hlast :
      last (rendered
              (trace (handle_url E 7 "https://youtu.be/new" sample_world).1))
      = Some (MsgVideoReady "clip" (Some 300) 1 keyboard)) by reflexivity.
    rewrite Hh in Hlast. exact Hlast.
  - destruct (fetched_metadata_replace_session E 7 "https://youtu.be/new"
                sample_world info eq_refl eq_refl)
      as (w1 & r & bs & Hh & Hsess & _ & _ & Hshown & _).
    exists w1.
    assert (Hrun : (handle_url E 7 "https://youtu.be/new" sample_world).2
                   = Raise BadRequest) by reflexivity.
    rewrite Hh in Hrun. simpl in Hrun. subst r.
    split; [exact Hh|]. split; [rewrite Hsess; reflexivity|].
    assert (Hlast :
      last (rendered
              (trace (handle_url E 7 "https://youtu.be/new" sample_world).1))
      = Some MsgProcessing) by reflexivity.
    rewrite Hh in Hlast. exact Hlast.
Defined.

(** ** The marks on the keyboard *)

Lemma quality_button_mark (v : variant) (h : Z) :
  quality_button v h
  = QualityButton (Qgtb (size_mb_of (v_filesize v)) limit_mb) h
      (v_filesize v).
Proof.
  unfold quality_button.
  destruct (v_filesize v =? 0) eqn:Hzero; simpl; [|reflexivity].
  apply Z.eqb_eq in Hzero as ->. reflexivity.
Qed.

(** Every quality button of the keyboard carries the size recorded for its
    height, and it is marked "will be compressed" exactly when a file of
    that size would be sent to the transcoder by the size check of
    [handle_quality_selection], that is when the size is over
    50 * 1024 * 1024 bytes; an unknown size (0) is never marked. *)
Theorem keyboard_marks_match_routing (formats : list format)
    (keyboard : list button) (mark : bool) (h size : Z) :
  build_keyboard formats = Ok keyboard ->
  QualityButton mark h size ∈ keyboard ->
  mark = Qgtb (size_mb_of size) limit_mb
  /\ (mark = true <-> 50 * (1024 * 1024) < size)
  /\ exists v, collect_video_formats formats !! h = Some v
               /\ size = v_filesize v.
Proof.
  intros Hkb Hin.
  destruct (build_keyboard_ok formats) as (bs & Hkb' & Hrel).
  rewrite Hkb in Hkb'. injection Hkb' as ->.
  apply elem_of_app in Hin as [Hin|Hin].
  2:{ apply list_elem_of_singleton in Hin. discriminate. }
  apply list_elem_of_lookup in Hin as [i Hi].
  destruct (Forall2_lookup_r _ _ _ _ _ Hrel Hi) as (h' & _ & v & Hv & Hb).
  rewrite quality_button_mark in Hb. injection Hb as -> -> ->.
  split; [reflexivity|]. split; [apply over_limit_bytes|].
  exists v. split; [exact Hv | reflexivity].
Qed.

Lemma keyboard_marks_match_routing_witness :
  true = Qgtb (size_mb_of (mega 60)) limit_mb
  /\ (true = true <-> 50 * (1024 * 1024) < mega 60)
  /\ exists v,
       collect_video_formats
         [sample_format (Some 1080) "a" (Some (mega 60));
          sample_format (Some 720) "b" (Some (mega 30))] !! 1080 = Some v
       /\ mega 60 = v_filesize v.
Proof.
  apply (keyboard_marks_match_routing
           [sample_format (Some 1080) "a" (Some (mega 60));
            sample_format (Some 720) "b" (Some (mega 30))]
           [QualityButton true 1080 (mega 60);
            QualityButton false 720 (mega 30); AudioButton]).
  - vm_compute. reflexivity.
  - left.
Defined.

(** ** What a selection does to the session dictionary *)

Section Keeps.
Variable R : world -> world -> Prop.
Hypothesis R_refl : forall w, R w w.
Hypothesis R_trans : forall w1 w2 w3, R w1 w2 -> R w2 w3 -> R w1 w3.

Lemma keeps_ret {A} (a : A) : keeps R (mret a : M A).
Proof. intros w. apply R_refl. Qed.

Lemma keeps_lift {A} (r : result A) : keeps R (lift r).
Proof. intros w. apply R_refl. Qed.

Lemma keeps_gets {A} (f : world -> A) : keeps R (gets f).
Proof. intros w. apply R_refl. Qed.

Lemma keeps_bind {A B} (m : M A) (f : A -> M B) :
  keeps R m -> (forall a, keeps R (f a)) -> keeps R (m ≫= f).
Proof.
  intros Hm Hf w. unfold mbind, M_bind.
  specialize (Hm w). destruct (m w) as [w1 [a|e]]; simpl in *.
  - apply (R_trans _ w1); [exact Hm | apply Hf].
  - exact Hm.
Qed.

Lemma keeps_try_except {A} (m : M A) (h : exn -> M A) :
  keeps R m -> (forall e, keeps R (h e)) -> keeps R (try_except m h).
Proof.
  intros Hm Hh w. unfold try_except.
  specialize (Hm w). destruct (m w) as [w1 [a|e]]; simpl in *.
  - exact Hm.
  - apply (R_trans _ w1); [exact Hm | apply Hh].
Qed.
End Keeps.

Lemma sessions_kept_or_deleted_refl (chat_id : Z) (w : world) :
  sessions_kept_or_deleted chat_id w w.
Proof. left. reflexivity. Qed.

Lemma sessions_kept_or_deleted_trans (chat_id : Z) (w1 w2 w3 : world) :
  sessions_kept_or_deleted chat_id w1 w2 ->
  sessions_kept_or_deleted chat_id w2 w3 ->
  sessions_kept_or_deleted chat_id w1 w3.
Proof.
  unfold sessions_kept_or_deleted. intros [H12|H12] [H23|H23];
    rewrite H23, H12; [left | right | right | right]; try reflexivity.
  apply map_eq. intros c. destruct (decide (c = chat_id)) as [->|Hne].
  - rewrite !lookup_delete_eq. reflexivity.
  - rewrite !lookup_delete_ne by congruence. reflexivity.
Qed.

Section SessionFrame.
Variables (E : env) (chat_id : Z).

Let R := sessions_kept_or_deleted chat_id.

Ltac same_sessions := intros w; left; reflexivity.

Ltac frame :=
  repeat first
    [ solve [auto]
    | apply (keeps_ret R (sessions_kept_or_deleted_refl chat_id))
    | apply (keeps_bind R (sessions_kept_or_deleted_trans chat_id));
        [|intros ?]
    | apply (keeps_try_except R (sessions_kept_or_deleted_trans chat_id));
        [|intros ?]
    | match goal with
      | |- keeps _ (if ?b then _ else _) => destruct b
      | |- keeps _ (match ?x with _ => _ end) => destruct x
      end ].

Lemma emit_frame (e : event) : keeps R (emit e).
Proof. same_sessions. Qed.

Lemma send_markdown_frame (parses : message -> bool) (c : Z) (m : message) :
  keeps R (send_markdown parses c m).
Proof.
  intros w. unfold send_markdown. destruct (parses m); left; reflexivity.
Qed.

Lemma os_path_exists_frame (path : string) : keeps R (os_path_exists path).
Proof. same_sessions. Qed.

Lemma os_path_getsize_frame (path : string) : keeps R (os_path_getsize path).
Proof.
  intros w. unfold os_path_getsize. destruct (files w !! path);
    left; reflexivity.
Qed.

Lemma os_remove_frame (path : string) : keeps R (os_remove path).
Proof.
  intros w. unfold os_remove. destruct (files w !! path); left; reflexivity.
Qed.

Lemma del_session_frame : keeps R (del_session chat_id).
Proof.
  intros w. unfold del_session.
  destruct (user_video_info w !! chat_id); [right | left]; reflexivity.
Qed.

Lemma get_session_frame : keeps R (get_session chat_id).
Proof.
  intros w. unfold get_session.
  destruct (user_video_info w !! chat_id); left; reflexivity.
Qed.

Lemma run_ydl_frame (url quality : string) (c : Z) :
  keeps R (run_ydl E url quality c).
Proof.
  intros w. unfold run_ydl.
  destruct (ydl_download E url quality c (files w)). left. reflexivity.
Qed.

Lemma run_ffmpeg_frame (cmd : ffmpeg_cmd) : keeps R (run_ffmpeg E cmd).
Proof.
  intros w. unfold run_ffmpeg.
  destruct (ffmpeg E cmd (files w)) as [[rc| |] [n|]]; left; reflexivity.
Qed.

Lemma run_send_frame (c : Z) (path : string) : keeps R (run_send E c path).
Proof.
  intros w. unfold run_send.
  destruct (telegram_send E c path (files w)); left; reflexivity.
Qed.

Lemma getsize_mb_frame (path : string) : keeps R (getsize_mb path).
Proof.
  unfold getsize_mb. pose proof (os_path_getsize_frame path). frame.
Qed.

Lemma compress_video_frame_sessions (input output : string) (T : Z) :
  keeps R (compress_video E input output T).
Proof.
  intros w.
  destruct (compress_video_frame E input output T w)
    as (w' & b & -> & Hsess & _).
  left. exact Hsess.
Qed.

Lemma download_frame (url quality : string) (c : Z) :
  keeps R (download_video_with_progress E url quality c).
Proof.
  intros w.
  destruct (download_video_with_progress_run E url quality c w)
    as (w' & fp & -> & Hsess & _).
  left. exact Hsess.
Qed.

Lemma compress_if_needed_frame (path : string) (size : Q) :
  keeps R (compress_if_needed E chat_id path size).
Proof.
  unfold compress_if_needed, edit_message_text.
  pose proof emit_frame. pose proof os_path_exists_frame.
  pose proof send_markdown_frame. pose proof os_remove_frame. pose proof del_session_frame.
  pose proof getsize_mb_frame. pose proof compress_video_frame_sessions.
  frame.
Qed.

Lemma upload_and_cleanup_frame (title : option string) (q path : string)
    (size : Q) :
  keeps R (upload_and_cleanup E chat_id title q path size).
Proof.
  unfold upload_and_cleanup, edit_message_text, open_rb, send_audio,
    send_video.
  pose proof emit_frame. pose proof os_path_getsize_frame.
  pose proof os_remove_frame. pose proof del_session_frame.
  pose proof run_send_frame.
  frame.
Qed.

Lemma download_and_deliver_frame (url : string) (title : option string)
    (q : string) :
  keeps R (download_and_deliver E chat_id url title q).
Proof.
  unfold download_and_deliver, download_missing, deliver, edit_message_text.
  pose proof emit_frame. pose proof os_path_exists_frame.
  pose proof getsize_mb_frame. pose proof download_frame.
  pose proof compress_if_needed_frame. pose proof upload_and_cleanup_frame.
  frame.
Qed.

Lemma handle_quality_selection_frame (data : string) :
  keeps R (handle_quality_selection E chat_id data).
Proof.
  unfold handle_quality_selection, session_active, report_error,
    edit_message_text.
  pose proof emit_frame. pose proof get_session_frame.
  pose proof download_and_deliver_frame.
  pose proof (fun A f => keeps_gets R (sessions_kept_or_deleted_refl chat_id)
                           (A := A) f).
  pose proof (fun A r => keeps_lift R (sessions_kept_or_deleted_refl chat_id)
                           (A := A) r).
  frame.
Qed.
End SessionFrame.

(** Whatever the collaborators answer and whether or not the handler
    raises, a selection leaves the session dictionary as it was or removes
    the requester's own entry: it never adds or changes a session and never
    touches the session of another requester. *)
Theorem selection_only_drops_own_session (E : env) (chat_id : Z)
    (data : string) (w : world) :
  let w' := (handle_quality_selection E chat_id data w).1 in
  (user_video_info w' = user_video_info w
   \/ user_video_info w' = delete chat_id (user_video_info w))
  /\ (forall other, other <> chat_id ->
        user_video_info w' !! other = user_video_info w !! other)
  /\ (forall s, user_video_info w' !! chat_id = Some s ->
                user_video_info w !! chat_id = Some s).
Proof.
  intros w'.
  pose proof (handle_quality_selection_frame E chat_id data w) as Hframe.
  fold w' in Hframe. split; [exact Hframe|].
  destruct Hframe as [-> | ->]; split.
  - intros other _. reflexivity.
  - intros s Hs. exact Hs.
  - intros other Hne. apply lookup_delete_ne. congruence.
  - intros s Hs. rewrite lookup_delete_eq in Hs. discriminate.
Qed.

(** ** The paths of handle_quality_selection that end without cleanup *)

Lemma selection_without_session_run (E : env) (chat_id : Z) (data : string)
    (w : world) :
  user_video_info w !! chat_id = None ->
  handle_quality_selection E chat_id data w
  = (log_event (Render chat_id MsgSessionExpired) w, Ok tt)
  /\ new_events w (log_event (Render chat_id MsgSessionExpired) w)
     = [Render chat_id MsgSessionExpired].
Proof.
  intros Hnone. split; [|apply new_events_app; reflexivity].
  unfold handle_quality_selection, session_active, edit_message_text.
  munfold. simpl. rewrite Hnone. reflexivity.
Qed.

Lemma split_index_1_none (data : string) :
  split "_" data !! 1%nat = None <-> has_char "_" data = false.
Proof.
  split.
  - induction data as [|c data IH]; [reflexivity|].
    rewrite has_char_cons. cbn [split].
    destruct (Ascii.eqb c "_") eqn:Hc.
    + destruct (split_nonempty "_" data) as (h & t & ->). discriminate.
    + destruct (split_nonempty "_" data) as (h & t & Hsplit).
      rewrite Hsplit in *. intros Hnone. exact (IH Hnone).
  - intros Hno. rewrite (split_no_sep _ _ Hno). reflexivity.
Qed.

(** Callback data without an underscore: with a live session the handler
    raises [IndexError] at [query.data.split('_')[1]], before its [try],
    having rendered nothing and changed nothing; and it ends that way
    only for data without an underscore. *)
Theorem selection_without_underscore (E : env) (chat_id : Z)
    (data : string) (w : world) (s : session) :
  user_video_info w !! chat_id = Some s ->
  has_char "_" data = false
  <-> handle_quality_selection E chat_id data w = (w, Raise IndexError).
Proof.
  intros Hs. split.
  - intros Hno. apply split_index_1_none in Hno.
    unfold handle_quality_selection, session_active, get_session, py_index.
    munfold. simpl. rewrite Hs. simpl. rewrite Hs, Hno. reflexivity.
  - intros Hraise.
    destruct (split "_" data !! 1%nat) as [q|] eqn:Hq;
      [|apply split_index_1_none; exact Hq].
    destruct (selection_with_session_downloads E chat_id data w s q Hs Hq)
      as (w' & evs & Hrun & _).
    rewrite Hrun in Hraise. discriminate.
Qed.

Lemma selection_without_underscore_witness :
  has_char "_" "qualityaudio" = false
  <-> handle_quality_selection (clip_env (mega 49) (Exited 0, None)) 7
        "qualityaudio" sample_world = (sample_world, Raise IndexError).
Proof.
  exact (selection_without_underscore (clip_env (mega 49) (Exited 0, None))
           7 "qualityaudio" sample_world sample_session eq_refl).
Defined.

(** A failed download: when yt-dlp raised, or gave an empty name, or the
    named file is not in the folder, the handler renders "Download
    failed!" and stops; the session dictionary is as before the selection
    and the folder is as the download left it, nothing is removed. *)
Theorem download_failure_cleans_nothing (E : env) (chat_id : Z)
    (data : string) (w w_dl : world) (s : session) (q : string)
    (file_path : option string) :
  user_video_info w !! chat_id = Some s ->
  split "_" data !! 1%nat = Some q ->
  download_video_with_progress E (s_url s) q chat_id
    (log_event (Render chat_id (MsgDownloading q)) w)
  = (w_dl, Ok file_path) ->
  match file_path with
  | None => True
  | Some p => p = "" \/ files w_dl !! p = None
  end ->
  exists w',
    handle_quality_selection E chat_id data w = (w', Ok tt)
    /\ new_events w w'
       = [Render chat_id (MsgDownloading q);
          Download (s_url s) q chat_id;
          Render chat_id MsgDownloadFailed]
    /\ user_video_info w' = user_video_info w
    /\ files w' = files w_dl.
Proof.
  intros Hs Hq Hdl Hmiss.
  rewrite (handle_quality_selection_run E chat_id data w s q Hs Hq).
  unfold try_except.
  rewrite (download_and_deliver_failed E chat_id (s_url s) (s_title s) q
             _ w_dl file_path Hdl Hmiss).
  destruct (download_video_with_progress_run E (s_url s) q chat_id
              (log_event (Render chat_id (MsgDownloading q)) w))
    as (w1 & fp & Hrun & Hsess & Htrace).
  rewrite Hdl in Hrun. injection Hrun as <- _.
  eexists. split; [reflexivity|].
  split; [|split; [exact Hsess | reflexivity]].
  apply new_events_app. simpl. rewrite Htrace. simpl.
  rewrite <- !app_assoc. reflexivity.
Qed.

Lemma download_failure_cleans_nothing_witness :
  let E := sample_env (Some ("7_clip.mp4", mega 80)) (Some "7_clip.webm")
             None (Failed, None) true None in
  exists w',
    handle_quality_selection E 7 "quality_720" sample_world = (w', Ok tt)
    /\ new_events sample_world w'
       = [Render 7 (MsgDownloading "720");
          Download "https://youtu.be/abc" "720" 7;
          Render 7 MsgDownloadFailed]
    /\ user_video_info w' = user_video_info sample_world
    /\ files w' = files (clip_downloaded (mega 80)).
Proof.
  intros E.
  exact (download_failure_cleans_nothing E 7 "quality_720" sample_world
           (clip_downloaded (mega 80)) sample_session "720"
           (Some "7_clip.webm") eq_refl eq_refl eq_refl
           (or_intror eq_refl)).
Defined.

(** ** Upload *)

Section Uploads.
Variables (E : env) (chat_id : Z) (data : string) (w w_dl : world).
Variables (s : session) (q p : string) (n : Z).

(** A download of [n] bytes, within the ceiling. *)
Hypothesis Hsession : user_video_info w !! chat_id = Some s.
Hypothesis Hquality : split "_" data !! 1%nat = Some q.
Hypothesis Hdownload :
  download_video_with_progress E (s_url s) q chat_id
    (log_event (Render chat_id (MsgDownloading q)) w)
  = (w_dl, Ok (Some p)).
Hypothesis Hname : p <> "".
Hypothesis Hfile : files w_dl !! p = Some n.
Hypothesis Hsmall : Qgtb (size_mb_of n) limit_mb = false.

Lemma direct_upload_run :
  handle_quality_selection E chat_id data w
  = let w1 := log_event (send_event q chat_id p)
                (log_event (Render chat_id (MsgUploading (size_mb_of n)))
                   w_dl) in
    if telegram_send E chat_id p (files w_dl)
    then (cleaned chat_id p
            (log_event (Render chat_id (MsgSuccess (size_mb_of n) q)) w1),
          Ok tt)
    else (log_event (Render chat_id (MsgError OtherError)) w1, Ok tt).
Proof.
  rewrite (handle_small E chat_id data w w_dl s q p n Hsession Hquality
             Hdownload Hname Hfile Hsmall).
  unfold try_except.
  rewrite (upload_and_cleanup_run E chat_id (s_title s) q p (size_mb_of n)
             w_dl n s Hfile
             (downloaded_session E chat_id w w_dl s q p Hsession Hdownload)).
  cbv zeta. destruct (telegram_send E chat_id p (files w_dl)); reflexivity.
Qed.

(** A failed upload: the error is rendered and nothing is cleaned up; the
    downloaded file stays in the folder and the requester keeps the
    session, so a further selection starts another download. *)
Theorem upload_failure_cleans_nothing :
  telegram_send E chat_id p (files w_dl) = false ->
  exists w',
    handle_quality_selection E chat_id data w = (w', Ok tt)
    /\ last (rendered (trace w')) = Some (MsgError OtherError)
    /\ files w' = files w_dl
    /\ user_video_info w' = user_video_info w
    /\ forall data' q',
         split "_" data' !! 1%nat = Some q' ->
         exists w2 evs,
           handle_quality_selection E chat_id data' w' = (w2, Ok tt)
           /\ new_events w' w2
              = Render chat_id (MsgDownloading q')
                :: Download (s_url s) q' chat_id :: evs.
Proof.
  intros Hsend. rewrite direct_upload_run, Hsend. cbv zeta.
  destruct (download_video_with_progress_run E (s_url s) q chat_id
              (log_event (Render chat_id (MsgDownloading q)) w))
    as (w1 & fp & Hrun & Hsess & _).
  rewrite Hdownload in Hrun. injection Hrun as <- _.
  eexists. split; [reflexivity|].
  split; [simpl; apply last_rendered_snoc|].
  split; [reflexivity|]. split; [exact Hsess|].
  intros data' q' Hq'.
  apply selection_with_session_downloads; [|exact Hq'].
  simpl. rewrite Hsess. exact Hsession.
Qed.

(** A delivered file: after the upload "Success" is rendered, the file is
    removed from the folder and the requester's session from the
    dictionary; exactly one upload was made, as audio for the "audio"
    selector and as video otherwise; a further selection by the requester
    gets "Session expired". *)
Theorem direct_delivery_cleans_up :
  telegram_send E chat_id p (files w_dl) = true ->
  exists w',
    handle_quality_selection E chat_id data w = (w', Ok tt)
    /\ new_events w w'
       = [Render chat_id (MsgDownloading q);
          Download (s_url s) q chat_id;
          Render chat_id (MsgUploading (size_mb_of n));
          send_event q chat_id p;
          Render chat_id (MsgSuccess (size_mb_of n) q)]
    /\ files w' = delete p (files w_dl)
    /\ user_video_info w' = delete chat_id (user_video_info w)
    /\ forall data',
         exists w2,
           handle_quality_selection E chat_id data' w' = (w2, Ok tt)
           /\ new_events w' w2 = [Render chat_id MsgSessionExpired].
Proof.
  intros Hsend. rewrite direct_upload_run, Hsend. cbv zeta.
  destruct (download_video_with_progress_run E (s_url s) q chat_id
              (log_event (Render chat_id (MsgDownloading q)) w))
    as (w1 & fp & Hrun & Hsess & Htrace).
  rewrite Hdownload in Hrun. injection Hrun as <- _.
  eexists. split; [reflexivity|].
  split.
  { apply new_events_app. simpl. rewrite Htrace. simpl.
    rewrite <- !app_assoc. reflexivity. }
  split; [reflexivity|].
  split; [simpl; rewrite Hsess; reflexivity|].
  intros data'.
  destruct (selection_without_session_run E chat_id data'
              (cleaned chat_id p
                 (log_event (Render chat_id (MsgSuccess (size_mb_of n) q))
                    (log_event (send_event q chat_id p)
                       (log_event
                          (Render chat_id (MsgUploading (size_mb_of n)))
                          w_dl)))))
    as [Hrun Hev].
  { simpl. apply lookup_delete_eq. }
  eexists. split; [exact Hrun | exact Hev].
Qed.
End Uploads.

(** ** A compressed delivery from end to end *)

(** A download over the ceiling, a compression that answers [True] and
    leaves an output within the ceiling, and an upload that goes through:
    the compressed file is what is uploaded, once; "Success" is rendered
    with the compressed size; afterwards neither the original nor the
    compressed file is in the folder and the requester has no session. *)
Theorem compressed_delivery_cleans_up (E : env) (chat_id : Z)
    (data : string) (w w_dl w_m : world) (s : session) (q p : string)
    (n m : Z) :
  user_video_info w !! chat_id = Some s ->
  split "_" data !! 1%nat = Some q ->
  download_video_with_progress E (s_url s) q chat_id
    (log_event (Render chat_id (MsgDownloading q)) w)
  = (w_dl, Ok (Some p)) ->
  p <> "" ->
  files w_dl !! p = Some n ->
  Qgtb (size_mb_of n) limit_mb = true ->
  compress_video E p (compressed_path_of p) Config.TARGET_COMPRESSED_SIZE_MB
    (log_event
       (Render chat_id
          (MsgCompressing (size_mb_of n) Config.TARGET_COMPRESSED_SIZE_MB))
       w_dl)
  = (w_m, Ok true) ->
  files w_m !! compressed_path_of p = Some m ->
  Qgtb (size_mb_of m) limit_mb = false ->
  telegram_send E chat_id (compressed_path_of p) (delete p (files w_m))
  = true ->
  exists w',
    handle_quality_selection E chat_id data w = (w', Ok tt)
    /\ last (rendered (trace w')) = Some (MsgSuccess (size_mb_of m) q)
    /\ count_events is_send (new_events w w') = 1%nat
    /\ send_event q chat_id (compressed_path_of p) ∈ new_events w w'
    /\ files w' !! p = None
    /\ files w' !! compressed_path_of p = None
    /\ user_video_info w' = delete chat_id (user_video_info w).
Proof.
  intros Hs Hq Hdl Hname Hfile Hlarge Hcompress Hout Hfits Hsend.
  rewrite (handle_adopted E chat_id data w w_dl s q p n Hs Hq Hdl Hname
             Hfile w_m true Hlarge Hcompress m eq_refl Hout Hfits).
  destruct (adopted_file p w_m m Hout) as [Hgone Hkept].
  assert (Hsess_u :
    user_video_info (set_files (delete p (files w_m)) w_m) !! chat_id
    = Some s).
  { eapply adopted_session; eassumption. }
  unfold try_except.
  rewrite (upload_and_cleanup_run E chat_id (s_title s) q
             (compressed_path_of p) (size_mb_of m) _ m s Hkept Hsess_u).
  cbv zeta. simpl files at 1. rewrite Hsend.
  destruct (adopted_trace E chat_id w w_dl s q p n Hdl w_m true Hcompress)
    as (evs & Htrace & Hnosend).
  assert (Hsessions : user_video_info w_m = user_video_info w).
  { destruct (compress_video_frame E p (compressed_path_of p)
                Config.TARGET_COMPRESSED_SIZE_MB
                (log_event
                   (Render chat_id
                      (MsgCompressing (size_mb_of n)
                         Config.TARGET_COMPRESSED_SIZE_MB)) w_dl))
      as (w1 & b1 & Hrun & Hsess & _).
    rewrite Hcompress in Hrun. injection Hrun as <- _.
    rewrite Hsess. simpl.
    destruct (download_video_with_progress_run E (s_url s) q chat_id
                (log_event (Render chat_id (MsgDownloading q)) w))
      as (w2 & fp & Hrun2 & Hsess2 & _).
    rewrite Hdl in Hrun2. injection Hrun2 as <- _. exact Hsess2. }
  eexists. split; [reflexivity|].
  split; [simpl; apply last_rendered_snoc|].
  simpl in Htrace.
  erewrite new_events_app
    by (simpl; rewrite Htrace, <- !app_assoc; reflexivity).
  split.
  { rewrite !count_events_app. cbn [count_events is_send].
    rewrite Hnosend. unfold send_event.
    destruct (String.eqb q "audio"); reflexivity. }
  split.
  { rewrite !elem_of_app. right. right. left.
    apply list_elem_of_singleton. reflexivity. }
  split.
  { simpl. rewrite lookup_delete_ne by exact (compressed_path_ne p).
    apply lookup_delete_eq. }
  split; [simpl; apply lookup_delete_eq|].
  simpl. rewrite Hsessions. reflexivity.
Qed.

Lemma compressed_delivery_cleans_up_witness :
  let E := clip_env (mega 80) (Exited 0, Some (mega 40)) in
  exists w',
    handle_quality_selection E 7 "quality_720" sample_world = (w', Ok tt)
    /\ last (rendered (trace w'))
       = Some (MsgSuccess (size_mb_of (mega 40)) "720")
    /\ count_events is_send (new_events sample_world w') = 1%nat
    /\ send_event "720" 7 "7_clip_compressed.mp4"
       ∈ new_events sample_world w'
    /\ files w' !! "7_clip.mp4" = None
    /\ files w' !! "7_clip_compressed.mp4" = None
    /\ user_video_info w' = delete 7 (user_video_info sample_world).
Proof.
  intros E.
  pose (w_c := log_event
                 (Render 7 (MsgCompressing (size_mb_of (mega 80)) 45))
                 (clip_downloaded (mega 80))).
  exact (compressed_delivery_cleans_up E 7 "quality_720" sample_world
           (clip_downloaded (mega 80))
           (compress_video E "7_clip.mp4" "7_clip_compressed.mp4" 45 w_c).1
           sample_session "720" "7_clip.mp4" (mega 80) (mega 40)
           eq_refl eq_refl (clip_download _ _) clip_name eq_refl eq_refl
           eq_refl eq_refl eq_refl eq_refl).
Defined.

Lemma upload_failure_cleans_nothing_witness :
  let E := sample_env (Some ("7_clip.mp4", mega 49)) (Some "7_clip.mp4")
             None (Failed, None) false None in
  exists w',
    handle_quality_selection E 7 "quality_720" sample_world = (w', Ok tt)
    /\ last (rendered (trace w')) = Some (MsgError OtherError)
    /\ files w' = files (clip_downloaded (mega 49))
    /\ user_video_info w' = user_video_info sample_world
    /\ forall data' q',
         split "_" data' !! 1%nat = Some q' ->
         exists w2 evs,
           handle_quality_selection E 7 data' w' = (w2, Ok tt)
           /\ new_events w' w2
              = Render 7 (MsgDownloading q')
                :: Download "https://youtu.be/abc" q' 7 :: evs.
Proof.
  intros E.
  exact (upload_failure_cleans_nothing E 7 "quality_720" sample_world
           (clip_downloaded (mega 49)) sample_session "720" "7_clip.mp4"
           (mega 49) eq_refl eq_refl eq_refl clip_name eq_refl eq_refl
           eq_refl).
Defined.

(** An audio selection: yt-dlp names the downloaded stream and the
    post-processor leaves [7_clip.mp3]. *)
Lemma direct_delivery_cleans_up_witness :
  let E := sample_env (Some ("7_clip.mp3", mega 5)) (Some "7_clip.webm")
             None (Failed, None) true None in
  exists w',
    handle_quality_selection E 7 "quality_audio" sample_world = (w', Ok tt)
    /\ new_events sample_world w'
       = [Render 7 (MsgDownloading "audio");
          Download "https://youtu.be/abc" "audio" 7;
          Render 7 (MsgUploading (size_mb_of (mega 5)));
          SendAudio 7 "7_clip.mp3";
          Render 7 (MsgSuccess (size_mb_of (mega 5)) "audio")]
    /\ files w' = delete "7_clip.mp3" {["7_clip.mp3" := mega 5]}
    /\ user_video_info w' = delete 7 (user_video_info sample_world)
    /\ forall data',
         exists w2,
           handle_quality_selection E 7 data' w' = (w2, Ok tt)
           /\ new_events w' w2 = [Render 7 MsgSessionExpired].
Proof.
  intros E.
  assert (Hname : "7_clip.mp3" <> "") by discriminate.
  exact (direct_delivery_cleans_up E 7 "quality_audio" sample_world
           {| user_video_info := {[7 := sample_session]};
              files := {["7_clip.mp3" := mega 5]};
              trace := [Render 7 (MsgDownloading "audio");
                        Download "https://youtu.be/abc" "audio" 7] |}
           sample_session "audio" "7_clip.mp3" (mega 5)
           eq_refl eq_refl eq_refl Hname eq_refl eq_refl eq_refl).
Defined.

(** ** format_size *)

Lemma Qgtb_false_le (a b : Q) : Qgtb a b = false <-> (a <= b)%Q.
Proof.
  unfold Qgtb. rewrite negb_false_iff. apply Qle_bool_iff.
Qed.

Lemma Qdiv_1024_ge (y : Q) : (1024 <= y)%Q -> (1 <= y / 1024)%Q.
Proof. intros Hy. apply Qle_shift_div_l; [reflexivity | lra]. Qed.

(** For a positive size the text is a value and a unit with
    [value * 1024^k = size], [k] being the place of the unit in
    B, KB, MB, GB, TB; the value is below 1024 unless the unit is TB, and at
    least 1 unless the unit is B: the unit is the largest that fits, and
    sizes from 1024 TB on stay in TB. *)
Theorem format_size_unit (n : Z) :
  0 < n ->
  exists (k : nat) (v : Q) (unit : string),
    format_size (Some n) = SizeIn v unit
    /\ ["B"; "KB"; "MB"; "GB"; "TB"] !! k = Some unit
    /\ (v * inject_Z (1024 ^ Z.of_nat k) == inject_Z n)%Q
    /\ ((k < 4)%nat -> (v < 1024)%Q)
    /\ ((0 < k)%nat -> (1 <= v)%Q).
Proof.
  intros Hn. unfold format_size.
  assert (Htruthy : int_truthy (Some n) = true).
  { simpl. apply negb_true_iff, Z.eqb_neq. lia. }
  rewrite Htruthy. change (default 0 (Some n)) with n.
  cbn [negb format_size_loop].
  assert (Hpos : (0 < inject_Z n)%Q).
  { change 0%Q with (inject_Z 0). rewrite <- Zlt_Qlt. exact Hn. }
  set (x := inject_Z n) in *.
  destruct (Qgtb 1024 x) eqn:H0.
  { apply Qgtb_lt in H0. exists 0%nat, x, "B".
    split; [reflexivity|]. split; [reflexivity|].
    split; [change (inject_Z (1024 ^ Z.of_nat 0)) with 1%Q; ring|].
    split; [intros _; exact H0 | lia]. }
  apply Qgtb_false_le in H0.
  destruct (Qgtb 1024 (x / 1024)) eqn:H1.
  { apply Qgtb_lt in H1. exists 1%nat, (x / 1024)%Q, "KB".
    split; [reflexivity|]. split; [reflexivity|].
    split; [change (inject_Z (1024 ^ Z.of_nat 1)) with 1024%Q; field|].
    split; [intros _; exact H1 | intros _; apply Qdiv_1024_ge; exact H0]. }
  apply Qgtb_false_le in H1.
  destruct (Qgtb 1024 (x / 1024 / 1024)) eqn:H2.
  { apply Qgtb_lt in H2. exists 2%nat, (x / 1024 / 1024)%Q, "MB".
    split; [reflexivity|]. split; [reflexivity|].
    split; [change (inject_Z (1024 ^ Z.of_nat 2)) with 1048576%Q; field|].
    split; [intros _; exact H2 | intros _; apply Qdiv_1024_ge; exact H1]. }
  apply Qgtb_false_le in H2.
  destruct (Qgtb 1024 (x / 1024 / 1024 / 1024)) eqn:H3.
  { apply Qgtb_lt in H3. exists 3%nat, (x / 1024 / 1024 / 1024)%Q, "GB".
    split; [reflexivity|]. split; [reflexivity|].
    split; [change (inject_Z (1024 ^ Z.of_nat 3)) with 1073741824%Q; field|].
    split; [intros _; exact H3 | intros _; apply Qdiv_1024_ge; exact H2]. }
  apply Qgtb_false_le in H3.
  exists 4%nat, (x / 1024 / 1024 / 1024 / 1024)%Q, "TB".
  split; [reflexivity|]. split; [reflexivity|].
  split; [change (inject_Z (1024 ^ Z.of_nat 4)) with 1099511627776%Q; field|].
  split; [lia | intros _; apply Qdiv_1024_ge; exact H3].
Qed.

Lemma format_size_unit_witness :
  exists (k : nat) (v : Q) (unit : string),
    format_size (Some (mega 30)) = SizeIn v unit
    /\ ["B"; "KB"; "MB"; "GB"; "TB"] !! k = Some unit
    /\ (v * inject_Z (1024 ^ Z.of_nat k) == inject_Z (mega 30))%Q
    /\ ((k < 4)%nat -> (v < 1024)%Q)
    /\ ((0 < k)%nat -> (1 <= v)%Q).
Proof.
  assert (Hpos : 0 < mega 30) by reflexivity.
  exact (format_size_unit (mega 30) Hpos).
Defined.

(** ** The window of the progress hook *)

(** A call that finds no total still restarts the 10 s window: it sends
    nothing but sets [last_update], so every call in the next 10 s sends
    nothing either, even one that knows the total. *)
Theorem unknown_total_restarts_window (t t' : Q) (d d' : progress_dict)
    (last_update : Q) :
  status d = "downloading" ->
  (10 < t - last_update)%Q ->
  first_truthy (total_bytes d) (total_bytes_estimate d) = 0 ->
  (t' - t <= 10)%Q ->
  progress_hook t d last_update = Ok (t, None)
  /\ progress_hook t' d' t = Ok (t, None).
Proof.
  intros Hstatus Hgap Hzero Hsoon. split.
  - unfold progress_hook. rewrite Hstatus, String.eqb_refl.
    apply Qgtb_lt in Hgap. rewrite Hgap.
    rewrite hook_total_truthy, Hzero. reflexivity.
  - unfold progress_hook. apply Qgtb_false_le in Hsoon. rewrite Hsoon.
    destruct (String.eqb (status d') "downloading"); reflexivity.
Qed.

Lemma unknown_total_restarts_window_witness :
  let d := {| status := "downloading"; downloaded_bytes := Some 30;
              total_bytes := None; total_bytes_estimate := None |} in
  let d' := {| status := "downloading"; downloaded_bytes := Some 60;
               total_bytes := Some 80; total_bytes_estimate := None |} in
  progress_hook 11 d 0 = Ok (11%Q, None)
  /\ progress_hook 20 d' 11 = Ok (11%Q, None).
Proof.
  intros d d'.
  assert (Hgap : (10 < 11 - 0)%Q) by reflexivity.
  assert (Hsoon : (20 - 11 <= 10)%Q) by (intros H; discriminate H).
  exact (unknown_total_restarts_window 11 20 d d' 0 eq_refl Hgap eq_refl
           Hsoon).
Defined.

(** ** clean_youtube_url *)

Module UrlCleaningFacts.
Import UrlCleaning.

Lemma remove_tracking_filter (items : list (string * list string)) :
  remove_tracking items
  = List.filter (fun item => negb (tracked item.1)) items.
Proof.
  unfold remove_tracking, tracking_params, pop, tracked. simpl.
  induction items as [|[k v] items IH]; [reflexivity|].
  simpl in *.
  destruct (String.eqb k "si"); simpl; [exact IH|].
  destruct (String.eqb k "feature"); simpl; [exact IH|].
  destruct (String.eqb k "app"); simpl; [exact IH|].
  destruct (String.eqb k "source"); simpl; [exact IH|].
  rewrite IH. reflexivity.
Qed.

(** The query that [clean_youtube_url] encodes: no item is left under
    [si], [feature], [app] or [source]; every other item is kept, in the
    order of the parsed query; a query without those four keys is encoded
    as parsed; and cleaning the items twice changes nothing more. When any
    call into [urllib] raises, the URL is returned as it came. *)
Theorem tracking_params_removed (L : urllib) (url : string)
    (parsed : parsed_url) (items : list (string * list string)) :
  urlparse L url = Ok parsed ->
  parse_qs L (query parsed) = Ok items ->
  let kept := remove_tracking items in
  (forall k v, (k, v) ∈ kept <-> (k, v) ∈ items /\ k ∉ tracking_params)
  /\ kept `sublist_of` items
  /\ ((forall k v, (k, v) ∈ items -> k ∉ tracking_params) -> kept = items)
  /\ remove_tracking kept = kept
  /\ clean_youtube_url L url
     = match urlencode L kept with
       | Ok new_query =>
           match urlunparse L
                   {| scheme := scheme parsed; netloc := netloc parsed;
                      path := path parsed; params := params parsed;
                      query := new_query; fragment := fragment parsed |}
           with
           | Ok cleaned => cleaned
           | Raise _ => url
           end
       | Raise _ => url
       end.
Proof.
  intros Hparse Hqs kept. unfold kept.
  assert (Htracked : forall k, tracked k = true <-> k ∈ tracking_params).
  { intros k. unfold tracked. rewrite existsb_exists. split.
    - intros (x & Hin & Heq). apply String.eqb_eq in Heq as ->.
      apply list_elem_of_In. exact Hin.
    - intros Hin. exists k. split; [apply list_elem_of_In; exact Hin|].
      apply String.eqb_refl. }
  assert (Hmem : forall k v,
    (k, v) ∈ remove_tracking items
    <-> (k, v) ∈ items /\ k ∉ tracking_params).
  { intros k v. rewrite remove_tracking_filter.
    rewrite list_elem_of_In, filter_In, <- list_elem_of_In. simpl.
    rewrite negb_true_iff, <- not_true_iff_false, Htracked. reflexivity. }
  split; [exact Hmem|]. split.
  { rewrite remove_tracking_filter.
    clear. induction items as [|item items IH]; simpl; [constructor|].
    destruct (negb (tracked item.1)); [constructor 2 | constructor 3];
      exact IH. }
  split.
  { intros Hnone. rewrite remove_tracking_filter.
    clear Hmem Hqs. induction items as [|[k v] items IH]; [reflexivity|].
    simpl. assert (Hk : tracked k = false).
    { apply not_true_iff_false. rewrite Htracked. apply (Hnone k v). left. }
    rewrite Hk. simpl. f_equal. apply IH.
    intros k' v' Hin. apply (Hnone k' v'). right. exact Hin. }
  split.
  { rewrite !remove_tracking_filter.
    clear. induction items as [|item items IH]; [reflexivity|].
    simpl. destruct (negb (tracked item.1)) eqn:Hitem; simpl;
      rewrite ?Hitem, IH; reflexivity. }
  unfold clean_youtube_url. rewrite Hparse, Hqs.
  destruct (urlencode L (remove_tracking items)); reflexivity.
Qed.

Lemma tracking_params_removed_witness :
  remove_tracking [("si", ["x"]); ("t", ["10"])] = [("t", ["10"])]
  /\ clean_youtube_url sample_urllib "https://youtu.be/abc?si=x&t=10"
     = "https://youtu.be/abc?t=10".
Proof.
  destruct (tracking_params_removed sample_urllib
              "https://youtu.be/abc?si=x&t=10" _ _ eq_refl eq_refl)
    as (_ & _ & _ & _ & Hclean).
  split; [reflexivity | exact Hclean].
Defined.

End UrlCleaningFacts.

(** ** The paths derived from the downloaded name *)

Lemma before_last_dot_none (s : string) :
  has_char "." s = false -> before_last_dot s = None.
Proof.
  induction s as [|c s IH]; [reflexivity|].
  rewrite has_char_cons. intros Hno.
  apply orb_false_iff in Hno as [Hc Hrest].
  cbn [before_last_dot]. rewrite (IH Hrest), Hc. reflexivity.
Qed.

Lemma before_last_dot_stem (stem ext : string) :
  has_char "." ext = false ->
  before_last_dot (stem +:+ String "." ext) = Some stem.
Proof.
  intros Hext. induction stem as [|c stem IH].
  - change ("" +:+ String "." ext) with (String "." ext).
    cbn [before_last_dot]. rewrite (before_last_dot_none _ Hext).
    reflexivity.
  - change (String c stem +:+ String "." ext)
      with (String c (stem +:+ String "." ext)).
    cbn [before_last_dot]. rewrite IH. reflexivity.
Qed.

(** Only the last extension of the downloaded name is replaced: for a
    name [stem.ext] the compressed file is [stem_compressed.mp4] and the
    audio file the handler looks for is [stem.mp3], dots inside the stem
    being kept; a name without a dot gets the suffix appended. A video
    selector returns the name as yt-dlp gave it. *)
Theorem derived_paths (E : env) (url : string) (chat_id : Z) (w : world)
    (fs : gmap string Z) (stem ext : string) :
  has_char "." ext = false ->
  ydl_download E url "audio" chat_id (files w)
  = (fs, Some (stem +:+ String "." ext)) ->
  compressed_path_of (stem +:+ String "." ext)
  = stem +:+ "_compressed.mp4"
  /\ compressed_path_of ext = ext +:+ "_compressed.mp4"
  /\ (download_video_with_progress E url "audio" chat_id w).2
     = Ok (Some (stem +:+ ".mp3"))
  /\ forall quality name,
       String.eqb quality "audio" = false ->
       ydl_download E url quality chat_id (files w) = (fs, Some name) ->
       (download_video_with_progress E url quality chat_id w).2
       = Ok (Some name).
Proof.
  intros Hext Hydl.
  assert (Hstem : rsplit_dot_0 (stem +:+ String "." ext) = stem).
  { unfold rsplit_dot_0. rewrite (before_last_dot_stem _ _ Hext).
    reflexivity. }
  split; [unfold compressed_path_of; rewrite Hstem; reflexivity|].
  split.
  { unfold compressed_path_of, rsplit_dot_0.
    rewrite (before_last_dot_none _ Hext). reflexivity. }
  split.
  - unfold download_video_with_progress, run_ydl. munfold. simpl.
    rewrite Hydl. simpl. rewrite Hstem. reflexivity.
  - intros quality name Hq Hydl'.
    unfold download_video_with_progress, run_ydl. munfold. simpl.
    rewrite Hydl'. simpl. rewrite Hq. reflexivity.
Qed.

Lemma derived_paths_witness :
  let E := sample_env (Some ("7_a.b.mp3", mega 5)) (Some "7_a.b.webm")
             None (Failed, None) true None in
  compressed_path_of "7_a.b.webm" = "7_a.b_compressed.mp4"
  /\ compressed_path_of "webm" = "webm_compressed.mp4"
  /\ (download_video_with_progress E "u" "audio" 7 sample_world).2
     = Ok (Some "7_a.b.mp3")
  /\ forall quality name,
       String.eqb quality "audio" = false ->
       ydl_download E "u" quality 7 (files sample_world)
       = ({["7_a.b.mp3" := mega 5]}, Some name) ->
       (download_video_with_progress E "u" quality 7 sample_world).2
       = Ok (Some name).
Proof.
  intros E.
  exact (derived_paths E "u" 7 sample_world {["7_a.b.mp3" := mega 5]}
           "7_a.b" "webm" eq_refl eq_refl).
Defined.

(** ** What a failed compression leaves in the folder *)

(** When the compression fails after the encoder has written to the
    output path, the partial output stays in the folder however the run
    ends: the handler removes the original and the session when Telegram
    takes the "Compression Failed" text, and nothing when it refuses
    it. *)
Theorem compression_failure_keeps_output (E : env) (chat_id : Z)
    (data : string) (w w_dl w_m : world) (s : session) (q p : string)
    (n k : Z) :
  user_video_info w !! chat_id = Some s ->
  split "_" data !! 1%nat = Some q ->
  download_video_with_progress E (s_url s) q chat_id
    (log_event (Render chat_id (MsgDownloading q)) w)
  = (w_dl, Ok (Some p)) ->
  p <> "" ->
  files w_dl !! p = Some n ->
  Qgtb (size_mb_of n) limit_mb = true ->
  compress_video E p (compressed_path_of p) Config.TARGET_COMPRESSED_SIZE_MB
    (log_event
       (Render chat_id
          (MsgCompressing (size_mb_of n) Config.TARGET_COMPRESSED_SIZE_MB))
       w_dl)
  = (w_m, Ok false) ->
  files w_m !! compressed_path_of p = Some k ->
  exists w',
    handle_quality_selection E chat_id data w = (w', Ok tt)
    /\ files w' !! compressed_path_of p = Some k
    /\ if telegram_parses E (MsgCompressionFailed (size_mb_of n) p)
       then files w' = delete p (files w_m)
            /\ user_video_info w' !! chat_id = None
       else files w' = files w_m
            /\ user_video_info w' !! chat_id = Some s.
Proof.
  intros Hs Hq Hdl Hname Hfile Hlarge Hcompress Hout.
  rewrite (handle_compression_failed E chat_id data w w_dl s q p n Hs Hq
             Hdl Hname Hfile w_m false Hlarge Hcompress eq_refl).
  destruct (telegram_parses E (MsgCompressionFailed (size_mb_of n) p)).
  - eexists. split; [reflexivity|]. split.
    + simpl. rewrite lookup_delete_ne
        by exact (not_eq_sym (compressed_path_ne p)).
      exact Hout.
    + split; [reflexivity | simpl; apply lookup_delete_eq].
  - eexists. split; [reflexivity|]. split; [exact Hout|].
    split; [reflexivity|]. simpl.
    exact (compress_keeps_session E chat_id p (size_mb_of n) w_dl w_m false
             s Hcompress
             (downloaded_session E chat_id w w_dl s q p Hs Hdl)).
Qed.

(** An encoder that times out after writing 3 MB, for the title [clip]
    and for the title [a`b]. *)
Lemma compression_failure_keeps_output_witness :
  (let E := clip_env (mega 80) (TimedOut, Some (mega 3)) in
   exists w',
     handle_quality_selection E 7 "quality_720" sample_world = (w', Ok tt)
     /\ files w' !! "7_clip_compressed.mp4" = Some (mega 3)
     /\ files w' = {["7_clip_compressed.mp4" := mega 3]}
     /\ user_video_info w' !! 7 = None)
  /\ (let E := backtick_env (mega 80) (TimedOut, Some (mega 3)) in
      exists w',
        handle_quality_selection E 7 "quality_720" backtick_world
        = (w', Ok tt)
        /\ files w' !! "7_a`b_compressed.mp4" = Some (mega 3)
        /\ files w'
           = {["7_a`b_compressed.mp4" := mega 3; "7_a`b.mp4" := mega 80]}
        /\ user_video_info w' !! 7 = Some backtick_session).
Proof.
  split; intros E.
  - pose (w_c := log_event
                   (Render 7 (MsgCompressing (size_mb_of (mega 80)) 45))
                   (clip_downloaded (mega 80))).
    destruct (compression_failure_keeps_output E 7 "quality_720"
                sample_world (clip_downloaded (mega 80))
                (compress_video E "7_clip.mp4" "7_clip_compressed.mp4" 45
                   w_c).1
                sample_session "720" "7_clip.mp4" (mega 80) (mega 3)
                eq_refl eq_refl (clip_download _ _) clip_name eq_refl
                eq_refl eq_refl eq_refl)
      as (w' & Hrun & Hout & Hfiles & Hsess).
    exists w'. split; [exact Hrun|]. split; [exact Hout|].
    split; [|exact Hsess].
    rewrite Hfiles. vm_compute. reflexivity.
  - pose (w_c := log_event
                   (Render 7 (MsgCompressing (size_mb_of (mega 80)) 45))
                   (backtick_downloaded (mega 80))).
    destruct (compression_failure_keeps_output E 7 "quality_720"
                backtick_world (backtick_downloaded (mega 80))
                (compress_video E "7_a`b.mp4" "7_a`b_compressed.mp4" 45
                   w_c).1
                backtick_session "720" "7_a`b.mp4" (mega 80) (mega 3)
                eq_refl eq_refl (backtick_download _ _) backtick_name
                eq_refl eq_refl eq_refl eq_refl)
      as (w' & Hrun & Hout & Hfiles & Hsess).
    exists w'. split; [exact Hrun|]. split; [exact Hout|].
    split; [|exact Hsess].
    rewrite Hfiles. vm_compute. reflexivity.
Defined.

(** ** The rate of the notifications *)

Lemma run_hook_times (calls : list (Q * progress_dict)) (last_update : Q)
    (ns : list (Q * notification)) :
  run_hook calls last_update = Ok ns ->
  forall t n, (t, n) ∈ ns -> exists d, (t, d) ∈ calls.
Proof.
  revert last_update ns.
  induction calls as [|[t0 d0] calls IH]; intros last_update ns; simpl.
  - intros [= <-] t n Hin. apply elem_of_nil in Hin. destruct Hin.
  - destruct (progress_hook t0 d0 last_update) as [[last' sent]|e];
      [|discriminate].
    destruct (run_hook calls last') as [ns'|e] eqn:Hrest; [|discriminate].
    intros [= <-] t n Hin.
    assert (Hlater : (t, n) ∈ ns' -> exists d, (t, d) ∈ (t0, d0) :: calls).
    { intros Hin'. destruct (IH last' ns' Hrest t n Hin') as [d Hd].
      exists d. right. exact Hd. }
    destruct sent as [n0|]; [|exact (Hlater Hin)].
    apply elem_of_cons in Hin as [Heq|Hin]; [|exact (Hlater Hin)].
    injection Heq as -> ->. exists d0. left.
Qed.

Lemma spaced_span (ns : list (Q * notification)) (last_update horizon : Q) :
  StronglySorted (fun x y => (10 < y.1 - x.1)%Q) ns ->
  Forall (fun x => (10 < x.1 - last_update)%Q) ns ->
  Forall (fun x => (x.1 <= horizon)%Q) ns ->
  ns <> [] ->
  (inject_Z (10 * Z.of_nat (length ns)) < horizon - last_update)%Q.
Proof.
  revert last_update.
  induction ns as [|[t n] ns IH]; intros last_update Hsorted Hfirst Hbound
    Hne; [congruence|].
  apply StronglySorted_inv in Hsorted as [Hsorted Hafter].
  apply Forall_cons in Hfirst as [Hgap _].
  apply Forall_cons in Hbound as [Ht Hbound].
  simpl in Hgap, Ht.
  destruct ns as [|x ns'].
  - change (inject_Z (10 * Z.of_nat (length [(t, n)]))) with 10%Q. lra.
  - assert (Hrest : (inject_Z (10 * Z.of_nat (length (x :: ns')))
                     < horizon - t)%Q).
    { apply IH; [exact Hsorted | exact Hafter | exact Hbound | discriminate]. }
    replace (10 * Z.of_nat (length ((t, n) :: x :: ns')))
      with (10 * Z.of_nat (length (x :: ns')) + 10)
      by (cbn [length]; lia).
    rewrite inject_Z_plus. change (inject_Z 10) with 10%Q. lra.
Qed.

(** Over a download whose hook calls all happen by loop time [horizon],
    fewer than [horizon / 10] notifications are sent: the state starts at
    0, so none is sent at a loop time of 10 s or less, and each one comes
    more than 10 s after the one before. *)
Theorem notification_rate (calls : list (Q * progress_dict)) (horizon : Q) :
  (forall t d, (t, d) ∈ calls -> (t <= horizon)%Q) ->
  exists ns,
    download_notifications calls = Ok ns
    /\ Forall (fun x => (10 < x.1)%Q) ns
    /\ (ns = []
        \/ (inject_Z (10 * Z.of_nat (length ns)) < horizon)%Q).
Proof.
  intros Hcalls. unfold download_notifications.
  destruct (run_hook_spaced calls 0) as (ns & Hrun & Hfirst & Hsorted).
  exists ns. split; [exact Hrun|].
  split.
  { eapply Forall_impl; [exact Hfirst|]. intros x Hx. simpl in Hx. lra. }
  destruct ns as [|x ns']; [left; reflexivity|]. right.
  assert (Hspan :
    (inject_Z (10 * Z.of_nat (length (x :: ns'))) < horizon - 0)%Q).
  { apply spaced_span; [exact Hsorted | exact Hfirst | | discriminate].
    apply Forall_forall. intros [t n] Hin.
    destruct (run_hook_times calls 0 _ Hrun t n Hin) as [d Hd].
    exact (Hcalls t d Hd). }
  lra.
Qed.

Lemma notification_rate_witness :
  let d := {| status := "downloading"; downloaded_bytes := Some 30;
              total_bytes := Some 80; total_bytes_estimate := None |} in
  exists ns,
    download_notifications [(5%Q, d); (12%Q, d); (20%Q, d); (23%Q, d)]
    = Ok ns
    /\ Forall (fun x => (10 < x.1)%Q) ns
    /\ (ns = [] \/ (inject_Z (10 * Z.of_nat (length ns)) < 25)%Q).
Proof.
  intros d.
  apply (notification_rate [(5%Q, d); (12%Q, d); (20%Q, d); (23%Q, d)] 25).
  intros t d' Hin.
  repeat (apply elem_of_cons in Hin as [Heq|Hin];
          [injection Heq as -> _; intros H; discriminate H|]).
  apply elem_of_nil in Hin. destruct Hin.
Defined.
